(* ===== verification/_CoqProject ===== *)
-Q . S2P
Prelude.v
Codec.v
Base64.v
Json.v
Jwt.v
Http.v
Middleware.v
Authorize.v
Login.v
Session.v
Witnesses.v
