(* ===== verification/Prelude.v ===== *)
(** * A verification development for the SAML service-provider middleware

    The program is [src/middleware.go] of the Go package [saml]: the type
    [ServiceProviderMiddleware] and its HTTP handlers.  It decides, per
    request, whether the caller holds a valid session; when not, it starts
    a SAML login by redirecting to the identity provider with a signed
    relay-state token, and on the assertion-consumer-service (ACS) callback
    it turns the verified assertion attributes into a signed session cookie.

    ** Parts of the program and how they interact

    - [ServeHTTP] (src/middleware.go:42-75) dispatches the metadata path and
      the ACS path; on the ACS path it calls the external
      [ServiceProvider.ParseResponse] and then the authorize callback
      ([AuthorizeFunc], default [DefaultAuthorizeFunc]).
    - [RequireAccountMiddleware] (81-119) asks the is-authorized callback
      ([IsAuthorizedFunc], default [DefaultIsAuthorized]); when the request
      is not authorized it signs a relay-state JWT holding the request URI,
      asks the external [MakeRedirectAuthenticationRequest] for the IdP URL,
      panics when the request is the ACS path itself, and redirects.
    - [DefaultAuthorizeFunc] (125-159) verifies the relay state, signs the
      session JWT (attributes plus [exp]), sets the cookie and redirects.
    - [DefaultIsAuthorized] (173-201) verifies the session cookie, panics on
      inbound [X-Saml*] headers, and copies every string claim into an
      [X-Saml-<claim>] request header.
    - [RequireAttribute] (213-228) lets a request through only when the
      trusted header [X-Saml-<name>] carries the required value.

    The tokens are JWTs built and checked by the library jwt-go (v2, the
    version whose [Token.Claims] is a [map[string]interface{}]); headers,
    cookies and forms come from Go's net/http.  Those libraries are not
    part of the repository: they are modelled from their documented
    behaviour (and the spec, §4.1) and marked so in the manifest.

    ** Files, and what each models

    - [Prelude] (this file): the [go_result] type of computations that can
      panic ([Ret] or [Panic msg]) with its bind [x <-? m ;; k] in
      [saml_scope], Go's [(T, error)] as [result], [strings.HasPrefix],
      [strings.Split] and [Join]; the tactics, the hint databases [saml]
      and [saml_rw], and the string lemmas the components share.
    - [Codec]: the interfaces between the token codec and its parts, as
      type classes: the segment encoding ([SegmentCodec], with its round
      trip and dot-freeness laws), the JSON object encoding ([ObjectCodec],
      with its round trip on ASCII strings) and the keyed hash ([Hmac], an
      abstract function of hash, key and message).  [Jwt], [Middleware],
      [Authorize] and [Login] are proved against these interfaces; [Base64] and [Json]
      discharge them.
    - [Base64]: Go's [base64.URLEncoding] (padded encoding by 3-byte
      quanta; non-strict decoding that skips newlines) and jwt-go's
      [EncodeSegment] / [DecodeSegment]; the round trip, and a second
      spelling of a 32-byte tag that decodes to it (malleability).
    - [Json]: [encoding/json] on flat objects: [Marshal] with sorted keys
      and HTML-safe escaping, [Unmarshal] with later duplicates winning;
      the round trip and injectivity.
    - [Jwt]: jwt-go v2's [New], [SigningString], [SignedString], [Parse]
      (three segments, algorithm lookup in the token header, key
      function, [exp] and [nbf] against [TimeFunc], HMAC verification),
      and a declarative [Accepts] that [Parse] refines ([Parse_Accepts]).
    - [Http]: [textproto.CanonicalMIMEHeaderKey] (quick check, then the
      byte loop; equal to its specification and idempotent),
      [Header.Set], requests, [r.Cookie], [r.Form.Get] and the effects a
      handler has on its response writer, in order.
    - [Middleware]: the struct, its constants and the panic messages,
      with the external [ServiceProvider] as a record of operations, and
      the library calls the handlers share: [pem.Decode] and [url.Parse]
      as section parameters ([None] is Go's nil, whose dereference
      panics), the key function and [jwt.New]; [time.Duration],
      [Time.Add], [Time.Unix] and [Duration.Seconds] on nanoseconds.  The
      two clocks of the code, the package's [timeNow] and jwt-go's
      [TimeFunc], are the fields of a [Clock].
    - [Authorize]: [DefaultIsAuthorized], which returns the request it
      mutated (the [r.Header] the wrapped handler then sees), and
      [RequireAttribute].  The order of [range token.Claims], which Go
      leaves unspecified, is a parameter [range_claims], assumed only to
      list the map's bindings.
    - [Login]: [RequireAccountMiddleware], [DefaultAuthorizeFunc] and
      [ServeHTTP], one definition each (a handler is a function from the
      request to its effects or a panic), and the handlers composed as a
      deployment composes them: login then use of the session cookie,
      the attribute guard behind the account middleware, the relay state
      used as a session cookie.
    - [Session]: the session state machine of the spec (§3) as a step
      relation [spec_step] with observations, a browser running against
      the handlers as a step relation [browser_step], their runs, and
      the forward simulation between them.
    - [Witnesses]: a concrete deployment (key [secret], the usual paths,
      an IdP asserting [uid = alice@example.com], an HMAC stand-in
      [key|message]) at which every theorem with hypotheses is applied
      and its hypotheses discharged by evaluation.

    ** What the theorems show

    - The authorization decision ([Authorize]): [DefaultIsAuthorized]
      says yes exactly for a cookie [Accepts] admits and a request with
      no [X-Saml*] header; after a yes every [X-Saml*] header is a string
      claim of the verified token; an inbound [X-Saml*] header panics
      when the cookie is valid and goes unnoticed when it is not; a
      cookie signed under another key is refused; claim headers are
      independent of map order unless two claims collide under
      [CanonicalMIMEHeaderKey], and then every such pair has an order
      giving each of its values.
    - The login redirect and the callback ([Login]): the relay state
      parses, at any time, to the request URL; the ACS loop guard panics
      only after the IdP request succeeded; a forged relay state gives
      403; a relay state without a string [uri] panics; a key that is not
      PEM panics; a configured URL that [url.Parse] rejects panics; the
      routes of [ServeHTTP].
    - The flow ([Login]): the session cookie of a login authorizes requests
      while jwt-go's clock reads at most [timeNow().Unix() + 3600] and is refused
      after; the cookie [DefaultAuthorizeFunc] sets parses back to the
      claims it was built from (round trip), the relay state of the
      login redirect makes the callback return to the requested URL
      (round trip), and the session claims are typed ([exp] an integer,
      the rest attribute strings); [RequireAttribute] behind the account
      middleware admits exactly the verified claim values, and after a
      login exactly the LAST value of a multi-valued attribute; tokens
      signed with HS384/HS512 are accepted; the cookie's Max-Age and the
      token's [exp] agree to the second (bounds); a caller's own
      [IsAuthorizedFunc] lets inbound [X-Saml] headers through to
      [RequireAttribute]; and the relay state of any anonymous request is
      itself a session cookie valid forever (the token confusion of the
      findings).
    - The refinement ([Session]): every run of the handlers for an
      honest client is a run of the spec's state machine with the same
      observations, the cookie being at every point the signed session
      of the spec's state (by induction on runs, from a one-step
      simulation), provided the two clocks agree; the handlers answer
      every honest event without a panic or a 500; in every run from a
      fresh browser each served page carries exactly the headers of the
      session of the last verified assertion, still live (an invariant
      of the spec's runs, [last_login], transported by the simulation);
      and a login completes: visit, IdP callback, and a visit within the
      lifetime that is served (liveness, as the existence of the run).
      [login_loop], a browser following the redirects on fuel, reaches
      the page within two rounds when the clocks agree (termination), and
      spends any fuel on completed logins, one per round, and is never
      served, when jwt-go's clock is more than an hour ahead of
      [timeNow] (an endless login loop, in the findings).
    - The libraries ([Base64], [Json], [Jwt], [Http]): the codec round
      trips, the [Parse]/[Accepts] refinement, rejection under another
      key and after [exp], header-key canonicalization.

    ** Bounds and fuel

    A [time.Time] is its Unix time in nanoseconds and a [time.Duration]
    its nanoseconds, both [Z]: [cookieMaxAge] is [time.Hour] = 3600 *
    10^9, [t.Add(d)] adds, [t.Unix()] floors to seconds and
    [int(d.Seconds())] truncates (exact for whole seconds).  Go's
    [time.Time] keeps 64-bit seconds plus nanoseconds, and no date this
    code meets comes near its bounds, so no overflow is modelled; [exp]
    and jwt-go's [TimeFunc().Unix()] are seconds, which jwt-go compares as
    [float64] values that represent them exactly below 2^53.  The JSON
    parser runs on fuel [String.length s], which is enough since every
    member consumes at least one byte; the round-trip theorem proves that
    this fuel suffices for every marshalled object.  Base64 decoding is
    structural on the string.  The runs of [Session] are finite lists of
    steps; the liveness theorem exhibits a run of three steps.  The
    redirect-following browser [login_loop] takes fuel, one unit per
    round (visit, and login when refused), and reports the page, a stuck
    response, or the number of completed logins when the fuel is spent;
    two units are enough when the clocks agree, and no amount is when
    they are an hour apart.

    ** Not modelled

    Every statement of src/middleware.go is translated; the lines the
    map leaves out are the package clause, imports and comments.  What
    remains outside is library code the file only calls, none of it
    described by the spec beyond its contract.  [pem.Decode] and
    [url.Parse] are section parameters: the theorems hold for every
    decoder and parser, and their [nil] results are modelled.  The SAML engine ([ServiceProvider]: XML signatures, assertions,
    metadata), which is outside src/ and only called: every theorem holds
    for any [ParseResponse] and [MakeRedirectAuthenticationRequest].  The
    hash function inside HMAC (an abstract class, so no claim depends on
    SHA-2).  RSA, RSA-PSS and ECDSA beyond their rejection of a byte key.
    JSON floats, nested values and non-ASCII strings, which the tokens of
    this middleware do not carry.  The parsing of the [Cookie] header and
    of the form body, whose results the request record carries.
    [log.Printf] is an effect; [xml.MarshalIndent] is the metadata field.
    The browser of [Session] keeps the cookie under the name it was set
    with but ignores its Max-Age and path: the server's [exp] check is the
    one that ends a session in every theorem. *)

From stdpp Require Export base strings gmap list.
From Stdlib Require Export ZArith.
From Stdlib Require Import Ascii.
From Stdlib Require String.

Declare Scope saml_scope.
Delimit Scope saml_scope with saml.

(** ** Computations that may panic

    Go code that can [panic] is modelled as a function into [go_result]:
    either it returns ([Ret]) or it panics with the panic value's message.
    Nothing here recovers from a panic, as nothing in the source does. *)

Inductive go_result (A : Type) : Type :=
| Ret (a : A)
| Panic (msg : string).
Arguments Ret {A} a.
Arguments Panic {A} msg.

Definition go_bind {A B : Type} (m : go_result A) (k : A -> go_result B)
    : go_result B :=
  match m with
  | Ret a => k a
  | Panic msg => Panic msg
  end.

Notation "x <-? m ;; k" := (go_bind m (fun x => k))
  (at level 60, m at next level, right associativity) : saml_scope.

Open Scope saml_scope.

(** ** Results with an error value

    A Go function returning [(T, error)] whose callers only look at the
    value when the error is [nil] is modelled as a [result]. *)

Inductive result (A E : Type) : Type :=
| Ok (a : A)
| Err (e : E).
Arguments Ok {A E} a.
Arguments Err {A E} e.

(** ** Strings

    Go strings are byte sequences; they are modelled as [string], a list
    of 8-bit [ascii] characters.  [strings.HasPrefix s p] is
    [String.prefix p s]. *)

Definition HasPrefix (s prefix : string) : bool := String.prefix prefix s.

(** The separator of a JWT's segments. *)
Definition dot : ascii := "."%char.

(** [char_free c s]: the character [c] does not occur in [s]. *)
Fixpoint char_free (c : ascii) (s : string) : bool :=
  match s with
  | EmptyString => true
  | String x s' => if Ascii.ascii_dec x c then false else char_free c s'
  end.

(** [strings.Split(s, sep)] for a one-character separator: the maximal
    runs between separators, [[""]] for the empty string. *)
Fixpoint split_go (c : ascii) (s acc : string) : list string :=
  match s with
  | EmptyString => [acc]
  | String x s' =>
      if Ascii.ascii_dec x c then acc :: split_go c s' ""
      else split_go c s' (acc +:+ String x "")
  end.

Definition Split (s : string) (c : ascii) : list string := split_go c s "".

(** [all_chars f s]: [f] holds of every byte of [s]. *)
Fixpoint all_chars (f : ascii -> bool) (s : string) : bool :=
  match s with
  | EmptyString => true
  | String x s' => f x && all_chars f s'
  end.

(** [is_ascii s]: every byte of [s] is below 0x80. *)
Fixpoint is_ascii (s : string) : bool :=
  match s with
  | EmptyString => true
  | String x s' => N.ltb (Ascii.N_of_ascii x) 128 && is_ascii s'
  end.

(** [strings.Join(l, sep)] for a one-character separator. *)
Fixpoint Join (l : list string) (c : ascii) : string :=
  match l with
  | [] => ""
  | [x] => x
  | x :: l' => x +:+ String c (Join l' c)
  end.

(** ** Lemmas shared by the components *)

Lemma go_bind_ret {A B : Type} (a : A) (k : A -> go_result B) :
  go_bind (Ret a) k = k a.
Proof. reflexivity. Qed.

Lemma go_bind_panic {A B : Type} (s : string) (k : A -> go_result B) :
  go_bind (Panic s) k = Panic s.
Proof. reflexivity. Qed.

Lemma go_bind_Ret_inv {A B : Type} (m : go_result A) (k : A -> go_result B) b :
  go_bind m k = Ret b -> exists a, m = Ret a /\ k a = Ret b.
Proof. destruct m; simpl; [eauto | discriminate]. Qed.

Lemma prefix_app (p s : string) : String.prefix p (p +:+ s) = true.
Proof.
  induction p as [|a p IH]; simpl; [by destruct s|].
  destruct (Ascii.ascii_dec a a); [exact IH | congruence].
Qed.

Lemma prefix_spec (p s : string) :
  String.prefix p s = true <-> exists r, s = p +:+ r.
Proof.
  split.
  - revert s. induction p as [|a p IH]; intros s H; simpl in *.
    + by exists s.
    + destruct s as [|b s]; simpl in H; [discriminate|].
      destruct (Ascii.ascii_dec a b) as [->|]; [|discriminate].
      destruct (IH s H) as [r ->]. by exists r.
  - intros [r ->]. apply prefix_app.
Qed.

Lemma string_app_cons (x : ascii) (a b : string) :
  String x a +:+ b = String x (a +:+ b).
Proof. reflexivity. Qed.

Lemma string_length_app (a b : string) :
  String.length (a +:+ b) = String.length a + String.length b.
Proof.
  induction a as [|x a IH]; [done|].
  rewrite string_app_cons. cbn [String.length]. by rewrite IH.
Qed.

Lemma string_app_assoc (a b c : string) : a +:+ (b +:+ c) = (a +:+ b) +:+ c.
Proof. induction a as [|x a IH]; [done|]. by rewrite !string_app_cons, IH. Qed.

Lemma prefix_trans (a b c : string) :
  String.prefix a b = true -> String.prefix b c = true -> String.prefix a c = true.
Proof.
  rewrite !prefix_spec. intros [r1 ->] [r2 ->].
  exists (r1 +:+ r2). by rewrite string_app_assoc.
Qed.

Lemma string_app_nil_l (s : string) : "" +:+ s = s.
Proof. reflexivity. Qed.

Lemma string_app_nil_r (s : string) : s +:+ "" = s.
Proof. induction s as [|x s IH]; [done|]. by rewrite string_app_cons, IH. Qed.

Lemma char_free_cons (c x : ascii) (s : string) :
  x <> c -> char_free c (String x s) = char_free c s.
Proof. intros Hx. cbn [char_free]. by destruct (Ascii.ascii_dec x c). Qed.

Lemma char_free_app (c : ascii) (a b : string) :
  char_free c (a +:+ b) = char_free c a && char_free c b.
Proof.
  induction a as [|x a IH]; [done|]. rewrite string_app_cons. simpl.
  by destruct (Ascii.ascii_dec x c).
Qed.

Lemma split_go_free (c : ascii) (a b acc : string) :
  char_free c a = true ->
  split_go c (a +:+ String c b) acc = (acc +:+ a) :: split_go c b "".
Proof.
  revert acc. induction a as [|x a IH]; intros acc Ha; simpl in *.
  - destruct (Ascii.ascii_dec c c); [|congruence]. by rewrite string_app_nil_r.
  - destruct (Ascii.ascii_dec x c); [discriminate|].
    rewrite IH by done. by rewrite <- string_app_assoc.
Qed.

Lemma split_go_last (c : ascii) (a acc : string) :
  char_free c a = true -> split_go c a acc = [acc +:+ a].
Proof.
  revert acc. induction a as [|x a IH]; intros acc Ha; simpl in *.
  - by rewrite string_app_nil_r.
  - destruct (Ascii.ascii_dec x c); [discriminate|].
    rewrite IH by done. by rewrite <- string_app_assoc.
Qed.

(** Splitting three separator-free segments joined by the separator gives
    them back: the shape of a JWT. *)
Lemma Split_three (c : ascii) (a b d : string) :
  char_free c a = true -> char_free c b = true -> char_free c d = true ->
  Split (a +:+ String c (b +:+ String c d)) c = [a; b; d].
Proof.
  intros Ha Hb Hd. unfold Split.
  rewrite split_go_free by done. rewrite split_go_free by done.
  by rewrite split_go_last.
Qed.

Lemma split_go_nonempty (c : ascii) (s acc : string) : split_go c s acc <> [].
Proof.
  revert acc. induction s as [|x s IH]; intros acc; simpl; [done|].
  destruct (Ascii.ascii_dec x c); [done | apply IH].
Qed.

Lemma Join_cons (c : ascii) (x : string) (l : list string) :
  l <> [] -> Join (x :: l) c = x +:+ String c (Join l c).
Proof. destruct l; [done | reflexivity]. Qed.

(** [split_go] cuts the string into separator-free pieces that join back
    to it. *)
Lemma split_go_spec (c : ascii) (s acc : string) :
  char_free c acc = true ->
  Forall (fun x => char_free c x = true) (split_go c s acc) /\
  Join (split_go c s acc) c = acc +:+ s.
Proof.
  revert acc. induction s as [|x s IH]; intros acc Hacc; simpl.
  - rewrite string_app_nil_r. split; [by constructor | done].
  - destruct (Ascii.ascii_dec x c) as [->|Hne].
    + destruct (IH "" eq_refl) as [Hf Hj]. split; [by constructor|].
      rewrite Join_cons by apply split_go_nonempty. by rewrite Hj.
    + destruct (IH (acc +:+ String x "")) as [Hf Hj].
      { rewrite char_free_app, Hacc. simpl.
        by destruct (Ascii.ascii_dec x c). }
      split; [done|]. by rewrite Hj, <- string_app_assoc.
Qed.

Lemma Split_three_inv (c : ascii) (s a b d : string) :
  Split s c = [a; b; d] ->
  s = a +:+ String c (b +:+ String c d) /\
  char_free c a = true /\ char_free c b = true /\ char_free c d = true.
Proof.
  unfold Split. intros H.
  destruct (split_go_spec c s "" eq_refl) as [Hf Hj]. rewrite H in Hf, Hj.
  apply Forall_cons in Hf as [? Hf]. apply Forall_cons in Hf as [? Hf].
  apply Forall_cons in Hf as [? _]. change ("" +:+ s) with s in Hj.
  by rewrite <- Hj.
Qed.

(** An OR of two integers whose bits do not overlap is their sum: the
    shape of every [x<<k | y] with [y < 2^k] in the codecs. *)
Lemma lor_disjoint (x y k : Z) :
  (0 <= k)%Z -> (x mod 2 ^ k = 0)%Z -> (0 <= y < 2 ^ k)%Z ->
  Z.lor x y = (x + y)%Z.
Proof.
  intros Hk Hx Hy.
  assert (Z.land x y = 0%Z) as Hl.
  { apply Z.bits_inj'. intros n Hn. rewrite Z.land_spec, Z.bits_0.
    destruct (Z.lt_ge_cases n k) as [Hlt|Hge].
    - rewrite <- (Z.mod_pow2_bits_low x k n Hlt), Hx, Z.bits_0. done.
    - rewrite <- (Z.mod_small y (2 ^ k)) by lia.
      rewrite Z.mod_pow2_bits_high by lia. by rewrite andb_false_r. }
  pose proof (Z.add_lor_land x y) as Ha. lia.
Qed.

(** ** Automation

    The hint database [saml] (and the rewrite database [saml_rw]) holds the lemmas that close the routine
    goals about prefixes and binds. *)

Create HintDb saml discriminated.
Create Rewrite HintDb saml_rw.
#[export] Hint Resolve prefix_app : saml.
#[export] Hint Rewrite @go_bind_ret @go_bind_panic string_app_nil_l string_app_nil_r : saml_rw.

(** [bits] rewrites Go's shifts and masks into arithmetic:
    [x << k = x * 2^k], [x >> k = x / 2^k], [x & (2^k - 1) = x mod 2^k]. *)
Ltac bits :=
  repeat first
    [ rewrite Z.shiftl_mul_pow2 by lia
    | rewrite Z.shiftr_div_pow2 by lia
    | rewrite (Z.land_ones _ 6) by lia
    | rewrite (Z.land_ones _ 8) by lia ].

(** [invc H] inverts a hypothesis, substitutes its equations, clears it. *)
Ltac invc H := inversion H; subst; clear H.

(** [go_simp] evaluates the binds of a [go_result] computation as far as
    the values are known and splits on the matches that block it. *)
Ltac go_simp :=
  repeat (progress (simpl in *; autorewrite with saml_rw in *) || case_match);
  simplify_eq.
