(* ===== verification/Codec.v ===== *)
(** * Interfaces of the token codec

    A JWT is three segments: the encoded JSON header, the encoded JSON
    claims and the encoded keyed hash of the first two.  jwt-go builds it
    from three services, which this file states as type classes so that
    the theorems of [Jwt] are proved against what each service promises:

    - [SegmentCodec]: jwt-go's [EncodeSegment]/[DecodeSegment] (base64url
      without padding); implemented in [Base64];
    - [ObjectCodec]: [json.Marshal]/[json.Unmarshal] of a
      [map[string]interface{}]; implemented in [Json];
    - [Hmac]: [crypto/hmac] over the SHA-2 hashes; a cryptographic
      primitive, kept abstract.

    It also holds [json_value], the values jwt-go finds in a decoded
    claims map. *)

From S2P Require Import Prelude.

(** ** Claim values

    [json.Unmarshal] into [map[string]interface{}] gives [string],
    [float64], [bool] or [nil] for the scalar JSON values.  A number is
    kept as the integer it holds: the only numbers this program writes
    are Unix times ([int64], exact as [float64] below 2^53), and jwt-go
    reads them back through [int64(exp)]. *)
Inductive json_value : Type :=
| JString (s : string)
| JNumber (n : Z)
| JBool (b : bool)
| JNull.

#[export] Instance json_value_eq_dec : EqDecision json_value.
Proof. solve_decision. Defined.

(** A decoded JSON object: Go's [map[string]interface{}]. *)
Abbreviation json_object := (gmap string json_value).

(** Every string of an object (keys and string values) satisfies [ok]. *)
Definition object_strings_ok (ok : string -> bool) (o : json_object) : Prop :=
  map_Forall (fun k v => ok k = true /\
                match v with JString s => ok s = true | _ => True end) o.

(** ** The segment encoding *)
Class SegmentCodec : Type := {
  encode_segment : string -> string;
  decode_segment : string -> option string;
  (** decoding an encoded segment gives it back *)
  decode_encode_segment s : decode_segment (encode_segment s) = Some s;
  (** an encoded segment never contains the separator [.] *)
  encode_segment_dot_free s : char_free dot (encode_segment s) = true
}.

(** ** The JSON object encoding

    [marshal_ok] says which strings survive a marshal/unmarshal round trip
    (for [encoding/json]: valid UTF-8 ones). *)
Class ObjectCodec : Type := {
  marshal : json_object -> string;
  unmarshal : string -> option json_object;
  (** [json.NewDecoder(...).Decode]: the first value, the rest ignored *)
  decode_first : string -> option json_object;
  marshal_ok : string -> bool;
  unmarshal_marshal o :
    object_strings_ok marshal_ok o -> unmarshal (marshal o) = Some o;
  decode_first_marshal o :
    object_strings_ok marshal_ok o -> decode_first (marshal o) = Some o;
  (** ASCII strings always survive *)
  marshal_ok_ascii s : is_ascii s = true -> marshal_ok s = true
}.

(** ** The keyed hash *)
Inductive hash_alg : Type := SHA256 | SHA384 | SHA512.

#[export] Instance hash_alg_eq_dec : EqDecision hash_alg.
Proof. solve_decision. Defined.

(** [hmac h key msg] is the digest [hmac.New(h.New, key).Write(msg).Sum(nil)]. *)
Class Hmac : Type := {
  hmac : hash_alg -> string -> string -> string
}.

Lemma object_strings_ok_insert (ok : string -> bool) o k v :
  object_strings_ok ok o -> ok k = true ->
  match v with JString s => ok s = true | _ => True end ->
  object_strings_ok ok (<[k := v]> o).
Proof. intros Ho Hk Hv. apply map_Forall_insert_2; auto. Qed.

Lemma object_strings_ok_empty (ok : string -> bool) : object_strings_ok ok ∅.
Proof. apply map_Forall_empty. Qed.

#[export] Hint Resolve object_strings_ok_insert object_strings_ok_empty : saml.
