(* ===== verification/Base64.v ===== *)
(** * base64url segments: Go's encoding/base64 and jwt-go's segment codec

    jwt-go encodes each of a token's three segments with
    [base64.URLEncoding] and strips the padding ([EncodeSegment]); it
    decodes a segment by adding the padding back and calling
    [URLEncoding.DecodeString] ([DecodeSegment]).  This file models the
    encoder and decoder of [encoding/base64] (Encode, decodeQuantum) with
    Go's shifts and masks on integers, proves the segment round trip, and
    so gives the instance [base64url_segments] of [Codec.SegmentCodec].
    It also shows that the decoder is not injective: it ignores the bits
    of the last character that fall outside the decoded bytes, and it
    skips newlines. *)

From S2P Require Import Prelude Codec.
From Stdlib Require Import Ascii.

(** The alphabet of [base64.URLEncoding] ([encodeURL]) and its padding. *)
Definition encodeURL : string :=
  "ABCDEFGHIJKLMNOPQRSTUVWXYZabcdefghijklmnopqrstuvwxyz0123456789-_".

Definition StdPadding : ascii := "="%char.

(** A byte as an integer, and Go's conversion [byte(x)], which keeps the
    low 8 bits. *)
Definition byte_val (c : ascii) : Z := Z.of_N (N_of_ascii c).

Definition go_byte (x : Z) : ascii := ascii_of_N (Z.to_N (x mod 256)).

(** [enc.encode[i]]: the callers always mask [i] with [0x3F], so the
    index is in range. *)
Definition enc_char (i : Z) : ascii :=
  match String.get (Z.to_nat i) encodeURL with Some c => c | None => "A"%char end.

(** [enc.decodeMap[c]]: the position of [c] in the alphabet, [None] for
    the bytes the map marks invalid ([0xFF]). *)
Fixpoint index_of (c : ascii) (s : string) : option nat :=
  match s with
  | EmptyString => None
  | String x s' =>
      if Ascii.ascii_dec x c then Some 0 else S <$> index_of c s'
  end.

Definition dec_char (c : ascii) : option Z := Z.of_nat <$> index_of c encodeURL.

(** The character for the six bits of [val] from bit [k] up:
    [enc.encode[val>>k&0x3F]]. *)
Definition sextet (val k : Z) : ascii := enc_char (Z.land (Z.shiftr val k) 63).
Arguments sextet : simpl never.

(** [Encoding.Encode] followed by [string(...)]: whole 3-byte groups, then
    the 1 or 2 remaining bytes with [=] padding. *)
Fixpoint EncodeToString (src : string) : string :=
  match src with
  | String a (String b (String c rest)) =>
      let val := Z.lor (Z.lor (Z.shiftl (byte_val a) 16) (Z.shiftl (byte_val b) 8))
                       (byte_val c) in
      String (sextet val 18) (String (sextet val 12)
        (String (sextet val 6) (String (sextet val 0) (EncodeToString rest))))
  | String a (String b EmptyString) =>
      let val := Z.lor (Z.shiftl (byte_val a) 16) (Z.shiftl (byte_val b) 8) in
      String (sextet val 18) (String (sextet val 12)
        (String (sextet val 6) (String StdPadding EmptyString)))
  | String a EmptyString =>
      let val := Z.shiftl (byte_val a) 16 in
      String (sextet val 18) (String (sextet val 12)
        (String StdPadding (String StdPadding EmptyString)))
  | EmptyString => EmptyString
  end.

(** [strings.TrimRight(s, "=")]: drop the longest suffix of [=]. *)
Fixpoint TrimRightPad (s : string) : string :=
  match s with
  | EmptyString => EmptyString
  | String c s' =>
      let t := TrimRightPad s' in
      match t with
      | EmptyString => if Ascii.ascii_dec c StdPadding then EmptyString else String c t
      | _ => String c t
      end
  end.

(** jwt-go's [EncodeSegment]. *)
Definition EncodeSegment (seg : string) : string :=
  TrimRightPad (EncodeToString seg).

(** The decoder skips ['\r'] and ['\n'] wherever they occur. *)
Fixpoint strip_newlines (s : string) : string :=
  match s with
  | EmptyString => EmptyString
  | String c s' =>
      if Ascii.ascii_dec c "010"%char then strip_newlines s'
      else if Ascii.ascii_dec c "013"%char then strip_newlines s'
      else String c (strip_newlines s')
  end.

(** [decodeQuantum] on the newline-free input, quantum by quantum: four
    alphabet characters give three bytes; [xx==] and [xxx=] end the input
    with one or two bytes; any other use of [=], a character outside the
    alphabet, or an incomplete quantum is a [CorruptInputError].  The
    decoder is not strict: the bits of the last character beyond the
    decoded bytes are not checked. *)
Fixpoint decode_quanta (s : string) : option string :=
  match s with
  | EmptyString => Some EmptyString
  | String c0 (String c1 (String c2 (String c3 rest))) =>
      match dec_char c0, dec_char c1 with
      | Some v0, Some v1 =>
          if Ascii.ascii_dec c2 StdPadding then
            match c3, rest with
            | "="%char, EmptyString =>
                let val := Z.lor (Z.shiftl v0 18) (Z.shiftl v1 12) in
                Some (String (go_byte (Z.shiftr val 16)) EmptyString)
            | _, _ => None
            end
          else
            match dec_char c2 with
            | None => None
            | Some v2 =>
                if Ascii.ascii_dec c3 StdPadding then
                  match rest with
                  | EmptyString =>
                      let val := Z.lor (Z.lor (Z.shiftl v0 18) (Z.shiftl v1 12))
                                       (Z.shiftl v2 6) in
                      Some (String (go_byte (Z.shiftr val 16))
                              (String (go_byte (Z.shiftr val 8)) EmptyString))
                  | _ => None
                  end
                else
                  match dec_char c3 with
                  | None => None
                  | Some v3 =>
                      let val := Z.lor (Z.lor (Z.lor (Z.shiftl v0 18) (Z.shiftl v1 12))
                                              (Z.shiftl v2 6)) v3 in
                      rest' ← decode_quanta rest;
                      Some (String (go_byte (Z.shiftr val 16))
                              (String (go_byte (Z.shiftr val 8))
                                 (String (go_byte val) rest')))
                  end
            end
      | _, _ => None
      end
  | _ => None
  end.

(** [URLEncoding.DecodeString]. *)
Definition DecodeString (s : string) : option string :=
  decode_quanta (strip_newlines s).

Fixpoint pad_n (n : nat) : string :=
  match n with O => EmptyString | S n' => String StdPadding (pad_n n') end.

(** jwt-go's [DecodeSegment]: pad to a multiple of four, then decode. *)
Definition DecodeSegment (seg : string) : option string :=
  let l := String.length seg mod 4 in
  let seg' := if decide (0 < l) then seg +:+ pad_n (4 - l) else seg in
  DecodeString seg'.

(** The padding [EncodeToString] appends for a source of [n] bytes. *)
Definition padlen (n : nat) : nat :=
  match n mod 3 with 0 => 0 | 1 => 2 | _ => 1 end.

(** ** The segment codec instance *)

(** Three-byte induction, the recursion of [EncodeToString]. *)
Lemma string_ind3 (P : string -> Prop) :
  P EmptyString -> (forall a, P (String a EmptyString)) ->
  (forall a b, P (String a (String b EmptyString))) ->
  (forall a b c r, P r -> P (String a (String b (String c r)))) ->
  forall s, P s.
Proof.
  intros H0 H1 H2 H3 s. remember (String.length s) as n eqn:Hn.
  revert s Hn. induction n as [n IH] using lt_wf_ind. intros s Hn.
  destruct s as [|a [|b [|c r]]]; auto.
  apply H3, (IH (String.length r)); simpl in *; [lia | done].
Qed.

Lemma get_char_free (n : nat) (s : string) (c : ascii) :
  String.get n s = Some c -> char_free c s = false.
Proof.
  revert n. induction s as [|x s IH]; intros [|n] Hg; simpl in *; try discriminate.
  - injection Hg as ->. by destruct (Ascii.ascii_dec c c).
  - destruct (Ascii.ascii_dec x c); [done | eauto].
Qed.

(** A character of the alphabet is none of the characters absent from it. *)
Lemma enc_char_neq (c : ascii) (i : Z) :
  char_free c encodeURL = true -> enc_char i <> c.
Proof.
  intros Hc Heq. unfold enc_char in Heq.
  destruct (String.get (Z.to_nat i) encodeURL) eqn:Hg.
  - subst. by rewrite (get_char_free _ _ _ Hg) in Hc.
  - subst. by rewrite (get_char_free 0 encodeURL "A"%char eq_refl) in Hc.
Qed.

Lemma dec_enc_table :
  forallb (fun n => bool_decide (dec_char (enc_char (Z.of_nat n)) = Some (Z.of_nat n)))
          (seq 0 64) = true.
Proof. vm_compute. reflexivity. Qed.

Lemma dec_enc_char (i : Z) : (0 <= i < 64)%Z -> dec_char (enc_char i) = Some i.
Proof.
  intros Hi. pose proof dec_enc_table as Ht. rewrite forallb_forall in Ht.
  specialize (Ht (Z.to_nat i)). rewrite Z2Nat.id in Ht by lia.
  apply (bool_decide_eq_true (dec_char (enc_char i) = Some i)), Ht, in_seq. lia.
Qed.

Lemma dec_sextet (val k : Z) :
  dec_char (sextet val k) = Some (Z.land (Z.shiftr val k) 63).
Proof.
  apply dec_enc_char. change 63%Z with (Z.ones 6).
  rewrite Z.land_ones by lia. apply Z.mod_pos_bound. lia.
Qed.

Lemma byte_val_bound (a : ascii) : (0 <= byte_val a < 256)%Z.
Proof. unfold byte_val. pose proof (N_ascii_bounded a). lia. Qed.

Lemma go_byte_val (a : ascii) (x : Z) : (x mod 256 = byte_val a)%Z -> go_byte x = a.
Proof.
  intros Hx. unfold go_byte. rewrite Hx. unfold byte_val.
  by rewrite N2Z.id, ascii_N_embedding.
Qed.

(** Go's [x<<k | y] on the operands of the codec is [x * 2^k + y]. *)
Lemma pack3 (x y z : Z) :
  (0 <= y < 256)%Z -> (0 <= z < 256)%Z ->
  Z.lor (Z.lor (Z.shiftl x 16) (Z.shiftl y 8)) z = (x * 65536 + y * 256 + z)%Z.
Proof.
  intros Hy Hz. rewrite !Z.shiftl_mul_pow2 by lia.
  rewrite (lor_disjoint (x * 2 ^ 16) (y * 2 ^ 8) 16) by (Z.div_mod_to_equations; lia).
  rewrite (lor_disjoint _ z 8) by (Z.div_mod_to_equations; lia). lia.
Qed.

Lemma pack4 (v0 v1 v2 v3 : Z) :
  (0 <= v1 < 64)%Z -> (0 <= v2 < 64)%Z -> (0 <= v3 < 64)%Z ->
  Z.lor (Z.lor (Z.lor (Z.shiftl v0 18) (Z.shiftl v1 12)) (Z.shiftl v2 6)) v3 =
  (v0 * 262144 + v1 * 4096 + v2 * 64 + v3)%Z.
Proof.
  intros H1 H2 H3. rewrite !Z.shiftl_mul_pow2 by lia.
  rewrite (lor_disjoint (v0 * 2 ^ 18) (v1 * 2 ^ 12) 18) by (Z.div_mod_to_equations; lia).
  rewrite (lor_disjoint _ (v2 * 2 ^ 6) 12) by (Z.div_mod_to_equations; lia).
  rewrite (lor_disjoint _ v3 6) by (Z.div_mod_to_equations; lia). lia.
Qed.

Lemma sextet_val (val k : Z) :
  (0 <= k)%Z -> Z.land (Z.shiftr val k) 63 = ((val / 2 ^ k) mod 64)%Z.
Proof.
  intros Hk. change 63%Z with (Z.ones 6).
  rewrite Z.land_ones, Z.shiftr_div_pow2 by lia. reflexivity.
Qed.

(** A full quantum: the four characters decode to the three bytes. *)
Lemma quantum3 (a b c : ascii) :
  let val := Z.lor (Z.lor (Z.shiftl (byte_val a) 16) (Z.shiftl (byte_val b) 8))
                   (byte_val c) in
  let s k := Z.land (Z.shiftr val k) 63 in
  let val' := Z.lor (Z.lor (Z.lor (Z.shiftl (s 18%Z) 18) (Z.shiftl (s 12%Z) 12))
                           (Z.shiftl (s 6%Z) 6)) (s 0%Z) in
  go_byte (Z.shiftr val' 16) = a /\ go_byte (Z.shiftr val' 8) = b /\ go_byte val' = c.
Proof.
  cbv zeta. pose proof (byte_val_bound a). pose proof (byte_val_bound b).
  pose proof (byte_val_bound c).
  rewrite pack3 by done. rewrite !sextet_val by lia.
  rewrite pack4 by (Z.div_mod_to_equations; lia).
  rewrite !Z.shiftr_div_pow2 by lia.
  split; [|split]; apply go_byte_val; Z.div_mod_to_equations; lia.
Qed.

Lemma pack2 (x y : Z) :
  (0 <= y < 256)%Z ->
  Z.lor (Z.shiftl x 16) (Z.shiftl y 8) = (x * 65536 + y * 256)%Z.
Proof.
  intros Hy. rewrite !Z.shiftl_mul_pow2 by lia.
  rewrite (lor_disjoint (x * 2 ^ 16) (y * 2 ^ 8) 16) by (Z.div_mod_to_equations; lia).
  lia.
Qed.

Lemma pack3s (v0 v1 v2 : Z) :
  (0 <= v1 < 64)%Z -> (0 <= v2 < 64)%Z ->
  Z.lor (Z.lor (Z.shiftl v0 18) (Z.shiftl v1 12)) (Z.shiftl v2 6) =
  (v0 * 262144 + v1 * 4096 + v2 * 64)%Z.
Proof.
  intros H1 H2. rewrite !Z.shiftl_mul_pow2 by lia.
  rewrite (lor_disjoint (v0 * 2 ^ 18) (v1 * 2 ^ 12) 18) by (Z.div_mod_to_equations; lia).
  rewrite (lor_disjoint _ (v2 * 2 ^ 6) 12) by (Z.div_mod_to_equations; lia). lia.
Qed.

Lemma pack2s (v0 v1 : Z) :
  (0 <= v1 < 64)%Z ->
  Z.lor (Z.shiftl v0 18) (Z.shiftl v1 12) = (v0 * 262144 + v1 * 4096)%Z.
Proof.
  intros H1. rewrite !Z.shiftl_mul_pow2 by lia.
  rewrite (lor_disjoint (v0 * 2 ^ 18) (v1 * 2 ^ 12) 18) by (Z.div_mod_to_equations; lia).
  lia.
Qed.

(** Two remaining bytes: [xxx=] decodes to them. *)
Lemma quantum2 (a b : ascii) :
  let val := Z.lor (Z.shiftl (byte_val a) 16) (Z.shiftl (byte_val b) 8) in
  let s k := Z.land (Z.shiftr val k) 63 in
  let val' := Z.lor (Z.lor (Z.shiftl (s 18%Z) 18) (Z.shiftl (s 12%Z) 12))
                    (Z.shiftl (s 6%Z) 6) in
  go_byte (Z.shiftr val' 16) = a /\ go_byte (Z.shiftr val' 8) = b.
Proof.
  cbv zeta. pose proof (byte_val_bound a). pose proof (byte_val_bound b).
  rewrite pack2 by done. rewrite !sextet_val by lia.
  rewrite pack3s by (Z.div_mod_to_equations; lia).
  rewrite !Z.shiftr_div_pow2 by lia.
  split; apply go_byte_val; Z.div_mod_to_equations; lia.
Qed.

(** One remaining byte: [xx==] decodes to it. *)
Lemma quantum1 (a : ascii) :
  let val := Z.shiftl (byte_val a) 16 in
  let s k := Z.land (Z.shiftr val k) 63 in
  go_byte (Z.shiftr (Z.lor (Z.shiftl (s 18%Z) 18) (Z.shiftl (s 12%Z) 12)) 16) = a.
Proof.
  cbv zeta. pose proof (byte_val_bound a).
  rewrite (Z.shiftl_mul_pow2 (byte_val a) 16) by lia. rewrite !sextet_val by lia.
  rewrite pack2s by (Z.div_mod_to_equations; lia).
  rewrite !Z.shiftr_div_pow2 by lia.
  apply go_byte_val; Z.div_mod_to_equations; lia.
Qed.

Lemma sextet_not_pad (val k : Z) : sextet val k <> StdPadding.
Proof. apply enc_char_neq. reflexivity. Qed.

(** The decoder inverts the encoder. *)
Lemma decode_quanta_encode (s : string) :
  decode_quanta (EncodeToString s) = Some s.
Proof.
  induction s as [|a|a b|a b c r IH] using string_ind3; [done|..].
  - simpl EncodeToString. cbn [decode_quanta]. rewrite !dec_sextet.
    destruct (Ascii.ascii_dec _ StdPadding); [|done].
    by rewrite quantum1.
  - simpl EncodeToString. cbn [decode_quanta]. rewrite !dec_sextet.
    destruct (Ascii.ascii_dec (sextet _ 6) StdPadding) as [Hp|_];
      [by apply sextet_not_pad in Hp|].
    destruct (Ascii.ascii_dec StdPadding StdPadding); [|done].
    by destruct (quantum2 a b) as [-> ->].
  - simpl EncodeToString. cbn [decode_quanta]. rewrite !dec_sextet.
    destruct (Ascii.ascii_dec (sextet _ 6) StdPadding) as [Hp|_];
      [by apply sextet_not_pad in Hp|].
    destruct (Ascii.ascii_dec (sextet _ 0) StdPadding) as [Hp|_];
      [by apply sextet_not_pad in Hp|].
    rewrite IH. simpl. by destruct (quantum3 a b c) as (-> & -> & ->).
Qed.

(** Every character the encoder writes is in the alphabet or is [=]. *)
Lemma char_free_EncodeToString (c : ascii) (s : string) :
  char_free c encodeURL = true -> c <> StdPadding ->
  char_free c (EncodeToString s) = true.
Proof.
  intros Hc Hp.
  assert (forall val k t, char_free c t = true ->
            char_free c (String (sextet val k) t) = true) as Hs.
  { intros val k t Ht. cbn [char_free].
    destruct (Ascii.ascii_dec (sextet val k) c) as [He|]; [|done].
    by apply enc_char_neq in He. }
  assert (forall t, char_free c t = true -> char_free c (String StdPadding t) = true) as Hq.
  { intros t Ht. cbn [char_free]. destruct (Ascii.ascii_dec StdPadding c); [congruence | done]. }
  induction s as [|a|a b|a b c' r IH] using string_ind3; simpl EncodeToString;
    repeat first [apply Hs | apply Hq]; done.
Qed.

Lemma strip_newlines_id (s : string) :
  char_free "010"%char s = true -> char_free "013"%char s = true ->
  strip_newlines s = s.
Proof.
  induction s as [|x s IH]; [done|]. simpl.
  destruct (Ascii.ascii_dec x "010"%char); [done|].
  destruct (Ascii.ascii_dec x "013"%char); [done|].
  intros H1 H2. by rewrite IH.
Qed.

Lemma EncodeToString_shape (s : string) :
  exists body,
    EncodeToString s = body +:+ pad_n (padlen (String.length s)) /\
    char_free StdPadding body = true /\
    (String.length body + padlen (String.length s)) mod 4 = 0.
Proof.
  induction s as [|a|a b|a b c r [body [Hb [Hf Hl]]]] using string_ind3.
  - by exists "".
  - set (v := Z.shiftl (byte_val a) 16).
    exists (String (sextet v 18) (String (sextet v 12) "")).
    split; [reflexivity|]. split; [|reflexivity].
    by rewrite !char_free_cons by apply sextet_not_pad.
  - set (v := Z.lor (Z.shiftl (byte_val a) 16) (Z.shiftl (byte_val b) 8)).
    exists (String (sextet v 18) (String (sextet v 12) (String (sextet v 6) ""))).
    split; [reflexivity|]. split; [|reflexivity].
    by rewrite !char_free_cons by apply sextet_not_pad.
  - set (v := Z.lor (Z.lor (Z.shiftl (byte_val a) 16) (Z.shiftl (byte_val b) 8))
                    (byte_val c)).
    exists (String (sextet v 18) (String (sextet v 12)
             (String (sextet v 6) (String (sextet v 0) body)))).
    assert (padlen (String.length (String a (String b (String c r)))) =
            padlen (String.length r)) as Hp.
    { unfold padlen. cbn [String.length].
      replace (S (S (S (String.length r)))) with (String.length r + 1 * 3) by lia.
      by rewrite Nat.Div0.mod_add. }
    rewrite Hp. split; [|split].
    + change (EncodeToString (String a (String b (String c r)))) with
        (String (sextet v 18) (String (sextet v 12) (String (sextet v 6)
           (String (sextet v 0) (EncodeToString r))))).
      by rewrite Hb.
    + by rewrite !char_free_cons by apply sextet_not_pad.
    + cbn [String.length].
      replace (S (S (S (S (String.length body)))) + padlen (String.length r)) with
        (String.length body + padlen (String.length r) + 1 * 4) by lia.
      by rewrite Nat.Div0.mod_add.
Qed.

Lemma TrimRightPad_cons (c : ascii) (s : string) :
  c <> StdPadding -> TrimRightPad (String c s) = String c (TrimRightPad s).
Proof.
  intros Hc. cbn [TrimRightPad].
  destruct (TrimRightPad s); [|done]. by destruct (Ascii.ascii_dec c StdPadding).
Qed.

Lemma TrimRightPad_pad (k : nat) : TrimRightPad (pad_n k) = "".
Proof.
  induction k as [|k IH]; [done|]. cbn [pad_n TrimRightPad]. rewrite IH.
  by destruct (Ascii.ascii_dec StdPadding StdPadding).
Qed.

Lemma TrimRightPad_body (body : string) (k : nat) :
  char_free StdPadding body = true -> TrimRightPad (body +:+ pad_n k) = body.
Proof.
  induction body as [|x body IH]; intros Hf.
  - apply TrimRightPad_pad.
  - cbn [char_free] in Hf. destruct (Ascii.ascii_dec x StdPadding); [done|].
    rewrite string_app_cons, TrimRightPad_cons by done. by rewrite IH.
Qed.

(** Round trip of jwt-go's segment codec. *)
Lemma DecodeSegment_EncodeSegment (s : string) :
  DecodeSegment (EncodeSegment s) = Some s.
Proof.
  destruct (EncodeToString_shape s) as (body & Hb & Hf & Hl).
  unfold EncodeSegment, DecodeSegment. rewrite Hb, TrimRightPad_body by done.
  assert (body +:+ pad_n (padlen (String.length s)) =
          if decide (0 < String.length body mod 4)
          then body +:+ pad_n (4 - String.length body mod 4) else body) as <-.
  { assert (padlen (String.length s) <= 2) by (unfold padlen; repeat case_match; lia).
    pose proof (Nat.div_mod_eq (String.length body) 4).
    pose proof (Nat.mod_upper_bound (String.length body) 4).
    pose proof (Nat.div_mod_eq (String.length body + padlen (String.length s)) 4).
    case_decide.
    - f_equal. f_equal. lia.
    - destruct (padlen (String.length s)) as [|p] eqn:Hp.
      + by rewrite string_app_nil_r.
      + exfalso. lia. }
  rewrite <- Hb. unfold DecodeString.
  rewrite strip_newlines_id by (apply char_free_EncodeToString; done).
  apply decode_quanta_encode.
Qed.

Lemma EncodeSegment_dot_free (s : string) : char_free dot (EncodeSegment s) = true.
Proof.
  destruct (EncodeToString_shape s) as (body & Hb & Hf & _).
  unfold EncodeSegment. rewrite Hb, TrimRightPad_body by done.
  pose proof (char_free_EncodeToString dot s eq_refl ltac:(done)) as Hd.
  rewrite Hb, char_free_app in Hd. by apply andb_prop in Hd as [? _].
Qed.

(** jwt-go's segment codec, an instance of the interface of [Codec]. *)
#[export] Instance base64url_segments : SegmentCodec := {|
  encode_segment := EncodeSegment;
  decode_segment := DecodeSegment;
  decode_encode_segment := DecodeSegment_EncodeSegment;
  encode_segment_dot_free := EncodeSegment_dot_free
|}.

(** Round trip of the encodings: [DecodeString] inverts Go's padded
    [EncodeToString], and jwt-go's [DecodeSegment] (re-padding, then
    decoding) inverts its [EncodeSegment] (encoding, then trimming the
    padding), for every byte string. *)
Theorem EncodeSegment_roundtrip (s : string) :
  DecodeString (EncodeToString s) = Some s /\ DecodeSegment (EncodeSegment s) = Some s.
Proof.
  split; [|apply DecodeSegment_EncodeSegment].
  unfold DecodeString. rewrite strip_newlines_id by (apply char_free_EncodeToString; done).
  apply decode_quanta_encode.
Qed.

(** Encodings are not unique: [DecodeString] does not check that the
    bits a final quantum leaves unused are zero (Go's non-strict mode), so
    the 32-byte string below, of the length of an HMAC-SHA256 tag, has a
    second segment that decodes to it; its last character differs from the
    canonical one in an unused bit. *)
Theorem DecodeSegment_malleable :
  let sig := "0123456789abcdef0123456789abcdef" in
  exists seg, seg <> EncodeSegment sig /\ DecodeSegment seg = Some sig.
Proof.
  intros sig. exists "MDEyMzQ1Njc4OWFiY2RlZjAxMjM0NTY3ODlhYmNkZWZ". split.
  - vm_compute. congruence.
  - vm_compute. reflexivity.
Qed.
