(* ===== verification/Json.v ===== *)
(** * encoding/json on the flat objects of a JWT

    jwt-go marshals a token's header and claims ([map[string]interface{}])
    with [json.Marshal] and decodes them back into such a map.  This file
    models both directions on objects whose values are scalars:
    [Marshal] writes the keys in sorted byte order, escapes strings as
    [encodeState.string] does with HTML escaping on ([<], [>], [&] and the
    control characters as [\u00XX]; newline, carriage return, tab,
    backslash and the quote character with their two-character escapes),
    and writes integers in decimal ([strconv.AppendInt]).
    [Unmarshal] parses an object with string keys and scalar values,
    allowing JSON whitespace, with later duplicates winning as in Go's map
    decoding.

    Limits of the model, each one a case where the model returns [None]
    or passes bytes through while Go does otherwise: nested objects and
    arrays as values, numbers with a fraction or exponent, [\u] escapes of
    UTF-16 surrogates, bytes above 0x7F (Go validates UTF-8 and escapes
    U+2028/U+2029), and the trailing data Go's [Decoder.Decode] ignores
    after the claims object.  The round trip is stated for ASCII strings
    ([marshal_ok := is_ascii]), where none of these arise. *)

From S2P Require Import Prelude Codec.
From Stdlib Require Import Ascii Decimal DecimalString DecimalN.
From stdpp Require Import sorting.

(** ** Characters *)
Definition quote : ascii := "034"%char.
Definition bslash : ascii := "092"%char.
Definition hexdigits : string := "0123456789abcdef".

Definition hex_char (n : N) : ascii :=
  match String.get (N.to_nat n) hexdigits with Some c => c | None => "0"%char end.

(** ** Marshal *)

(** One byte of a string, as [encodeState.string] writes it. *)
Definition escape_char (c : ascii) : string :=
  let n := N_of_ascii c in
  if Ascii.ascii_dec c quote then String bslash (String quote EmptyString)
  else if Ascii.ascii_dec c bslash then String bslash (String bslash EmptyString)
  else if (N.ltb n 32 || bool_decide (c = "<"%char) || bool_decide (c = ">"%char)
           || bool_decide (c = "&"%char))%bool then
    if Ascii.ascii_dec c "010"%char then String bslash (String "n" EmptyString)
    else if Ascii.ascii_dec c "013"%char then String bslash (String "r" EmptyString)
    else if Ascii.ascii_dec c "009"%char then String bslash (String "t" EmptyString)
    else String bslash (String "u" (String "0" (String "0"
           (String (hex_char (N.shiftr n 4)) (String (hex_char (N.land n 15)) EmptyString)))))
  else String c EmptyString.

Fixpoint escape_body (s : string) : string :=
  match s with
  | EmptyString => EmptyString
  | String c s' => escape_char c +:+ escape_body s'
  end.

(** A JSON string literal. *)
Definition encode_string (s : string) : string :=
  String quote (escape_body s +:+ String quote EmptyString).

(** [strconv.AppendInt(buf, z, 10)]. *)
Definition format_int (z : Z) : string :=
  let digits := NilEmpty.string_of_uint (N.to_uint (Z.abs_N z)) in
  if Z.ltb z 0 then String "-" digits else digits.

Definition marshal_value (v : json_value) : string :=
  match v with
  | JString s => encode_string s
  | JNumber z => format_int z
  | JBool true => "true"
  | JBool false => "false"
  | JNull => "null"
  end.

Definition marshal_member (kv : string * json_value) : string :=
  encode_string kv.1 +:+ String ":" (marshal_value kv.2).

Fixpoint join_members (l : list (string * json_value)) : string :=
  match l with
  | [] => EmptyString
  | [kv] => marshal_member kv
  | kv :: l' => marshal_member kv +:+ String "," (join_members l')
  end.

(** [json.Marshal] of a map: the members sorted by key. *)
Definition Marshal (o : json_object) : string :=
  let members := merge_sort (fun kv1 kv2 : string * json_value => String.le kv1.1 kv2.1)
                            (map_to_list o) in
  String "{" (join_members members +:+ String "}" EmptyString).

(** ** Unmarshal *)

Definition is_ws (c : ascii) : bool :=
  bool_decide (c = " "%char) || bool_decide (c = "009"%char)
  || bool_decide (c = "010"%char) || bool_decide (c = "013"%char).

Fixpoint skip_ws (s : string) : string :=
  match s with
  | String c s' => if is_ws c then skip_ws s' else s
  | EmptyString => EmptyString
  end.

Definition hex_val (c : ascii) : option N :=
  let n := N_of_ascii c in
  if (N.leb 48 n && N.ltb n 58)%bool then Some (n - 48)%N
  else if (N.leb 97 n && N.ltb n 103)%bool then Some (n - 87)%N
  else if (N.leb 65 n && N.ltb n 71)%bool then Some (n - 55)%N
  else None.

(** The bytes of a [\uXXXX] escape: the UTF-8 encoding of the code point;
    surrogates are outside the model. *)
Definition utf8_of_code (u : N) : option string :=
  if N.ltb u 128 then Some (String (ascii_of_N u) EmptyString)
  else if N.ltb u 2048 then
    Some (String (ascii_of_N (192 + N.shiftr u 6))
            (String (ascii_of_N (128 + N.land u 63)) EmptyString))
  else if (N.leb 55296 u && N.ltb u 57344)%bool then None
  else Some (String (ascii_of_N (224 + N.shiftr u 12))
          (String (ascii_of_N (128 + N.land (N.shiftr u 6) 63))
             (String (ascii_of_N (128 + N.land u 63)) EmptyString))).

Definition prepend (p : string) (r : option (string * string)) : option (string * string) :=
  '(s, rest) ← r; Some (p +:+ s, rest).

(** The body of a string literal after its opening quote: the unescaped
    string and what follows the closing quote. *)
Fixpoint parse_string_body (s : string) : option (string * string) :=
  match s with
  | EmptyString => None
  | String c s' =>
      if Ascii.ascii_dec c quote then Some (EmptyString, s')
      else if Ascii.ascii_dec c bslash then
        match s' with
        | String e s'' =>
            if Ascii.ascii_dec e quote then prepend (String quote "") (parse_string_body s'')
            else if Ascii.ascii_dec e bslash then prepend (String bslash "") (parse_string_body s'')
            else if Ascii.ascii_dec e "/"%char then prepend "/" (parse_string_body s'')
            else if Ascii.ascii_dec e "b"%char then prepend (String "008"%char "") (parse_string_body s'')
            else if Ascii.ascii_dec e "f"%char then prepend (String "012"%char "") (parse_string_body s'')
            else if Ascii.ascii_dec e "n"%char then prepend (String "010"%char "") (parse_string_body s'')
            else if Ascii.ascii_dec e "r"%char then prepend (String "013"%char "") (parse_string_body s'')
            else if Ascii.ascii_dec e "t"%char then prepend (String "009"%char "") (parse_string_body s'')
            else if Ascii.ascii_dec e "u"%char then
              match s'' with
              | String h1 (String h2 (String h3 (String h4 s4))) =>
                  match hex_val h1, hex_val h2, hex_val h3, hex_val h4 with
                  | Some d1, Some d2, Some d3, Some d4 =>
                      match utf8_of_code (d1 * 4096 + d2 * 256 + d3 * 16 + d4)%N with
                      | Some bytes => prepend bytes (parse_string_body s4)
                      | None => None
                      end
                  | _, _, _, _ => None
                  end
              | _ => None
              end
            else None
        | EmptyString => None
        end
      else if N.ltb (N_of_ascii c) 32 then None
      else prepend (String c EmptyString) (parse_string_body s')
  end.

Definition is_digit (c : ascii) : bool :=
  (N.leb 48 (N_of_ascii c) && N.ltb (N_of_ascii c) 58)%bool.

(** The longest prefix of decimal digits, and the rest. *)
Fixpoint span_digits (s : string) : string * string :=
  match s with
  | String c s' =>
      if is_digit c then let '(d, r) := span_digits s' in (String c d, r)
      else (EmptyString, s)
  | EmptyString => (EmptyString, EmptyString)
  end.

(** A byte that would continue a number with a fraction or exponent. *)
Definition frac_start (s : string) : bool :=
  match s with
  | String c _ => bool_decide (c = "."%char) || bool_decide (c = "e"%char)
                  || bool_decide (c = "E"%char)
  | EmptyString => false
  end.

(** A JSON number that is an integer: an optional [-], no leading zero. *)
Definition parse_number (s : string) : option (json_value * string) :=
  let '(neg, s1) := match s with
                    | String c s' => if Ascii.ascii_dec c "-"%char then (true, s') else (false, s)
                    | EmptyString => (false, s)
                    end in
  let '(ds, rest) := span_digits s1 in
  match ds with
  | EmptyString => None
  | String c ds' =>
      if (bool_decide (c = "0"%char) && negb (bool_decide (ds' = EmptyString)))%bool
      then None
      else if frac_start rest then None
      else
        d ← NilEmpty.uint_of_string ds;
        let n := Z.of_N (N.of_uint d) in
        Some (JNumber (if neg then (- n)%Z else n), rest)
  end.

(** A scalar value, chosen by its first byte as Go's scanner does. *)
Definition parse_value (s : string) : option (json_value * string) :=
  match s with
  | String c s' =>
      if Ascii.ascii_dec c quote then
        '(str, rest) ← parse_string_body s'; Some (JString str, rest)
      else if Ascii.ascii_dec c "t"%char then
        match s' with
        | String "r" (String "u" (String "e" rest)) => Some (JBool true, rest)
        | _ => None
        end
      else if Ascii.ascii_dec c "f"%char then
        match s' with
        | String "a" (String "l" (String "s" (String "e" rest))) => Some (JBool false, rest)
        | _ => None
        end
      else if Ascii.ascii_dec c "n"%char then
        match s' with
        | String "u" (String "l" (String "l" rest)) => Some (JNull, rest)
        | _ => None
        end
      else parse_number s
  | EmptyString => None
  end.

(** The members of an object after its [{], latest first, and what
    follows the closing [}]; [fuel] bounds the number of members. *)
Fixpoint parse_members (fuel : nat) (s : string) (acc : list (string * json_value))
    : option (list (string * json_value) * string) :=
  match fuel with
  | O => None
  | S fuel' =>
      match skip_ws s with
      | String c s1 =>
          if Ascii.ascii_dec c quote then
            '(k, s2) ← parse_string_body s1;
            match skip_ws s2 with
            | String ":" s3 =>
                '(v, s4) ← parse_value (skip_ws s3);
                match skip_ws s4 with
                | String "," s5 => parse_members fuel' s5 ((k, v) :: acc)
                | String "}" s5 => Some ((k, v) :: acc, s5)
                | _ => None
                end
            | _ => None
            end
          else None
      | EmptyString => None
      end
  end.

(** [json.Unmarshal(data, &m)] for [m : map[string]interface{}]: an
    object (or [null], which leaves the map empty), then only whitespace. *)
Definition Unmarshal (s : string) : option json_object :=
  match skip_ws s with
  | String "{" s1 =>
      match skip_ws s1 with
      | String "}" s2 => if bool_decide (skip_ws s2 = EmptyString) then Some ∅ else None
      | _ =>
          '(members, rest) ← parse_members (String.length s) s1 [];
          if bool_decide (skip_ws rest = EmptyString) then Some (list_to_map members)
          else None
      end
  | String "n" (String "u" (String "l" (String "l" rest))) =>
      if bool_decide (skip_ws rest = EmptyString) then Some ∅ else None
  | _ => None
  end.

(** A string that does not go on with a digit. *)
Definition starts_non_digit (s : string) : bool :=
  match s with String c _ => negb (is_digit c) | EmptyString => true end.

(** Whatever follows a value in an object: [,] or [}]. *)
Definition value_end (s : string) : bool :=
  match s with
  | String c _ => bool_decide (c = ","%char) || bool_decide (c = "}"%char)
  | EmptyString => false
  end.

(** [json.NewDecoder(bytes.NewBuffer(b)).Decode(&m)] into a map: the
    first JSON value of the input, an object or [null]; what follows it
    is not read. *)
Definition Decode (s : string) : option json_object :=
  match skip_ws s with
  | String "{" s1 =>
      match skip_ws s1 with
      | String "}" _ => Some ∅
      | _ =>
          '(members, _) ← parse_members (String.length s) s1 [];
          Some (list_to_map members)
      end
  | String "n" (String "u" (String "l" (String "l" _))) => Some ∅
  | _ => None
  end.

(** ** The round trip *)

Lemma prepend_Some (p s rest : string) :
  prepend p (Some (s, rest)) = Some (p +:+ s, rest).
Proof. reflexivity. Qed.

(** Each escaped byte parses back to the byte, whatever follows. *)
Lemma parse_escape_char (c : ascii) (t : string) :
  parse_string_body (escape_char c +:+ t) = prepend (String c EmptyString) (parse_string_body t).
Proof. destruct c as [[][][][][][][][]]; reflexivity. Qed.

Lemma parse_string_body_escape (s rest : string) :
  parse_string_body (escape_body s +:+ String quote rest) = Some (s, rest).
Proof.
  induction s as [|c s IH]; [reflexivity|].
  cbn [escape_body]. rewrite <- string_app_assoc, parse_escape_char, IH.
  reflexivity.
Qed.

Lemma parse_value_string (s rest : string) :
  parse_value (encode_string s +:+ rest) = Some (JString s, rest).
Proof.
  unfold encode_string. rewrite string_app_cons. cbn [parse_value].
  destruct (Ascii.ascii_dec quote quote); [|done].
  rewrite <- string_app_assoc, string_app_cons. cbn [String.append].
  by rewrite parse_string_body_escape.
Qed.

Lemma span_digits_uint (d : uint) (rest : string) :
  starts_non_digit rest = true ->
  span_digits (NilEmpty.string_of_uint d +:+ rest) = (NilEmpty.string_of_uint d, rest).
Proof.
  intros Hr. induction d; cbn [NilEmpty.string_of_uint];
    try (rewrite string_app_cons; cbn [span_digits]; rewrite IHd; reflexivity).
  destruct rest as [|c r]; [done|]. cbn [starts_non_digit] in Hr.
  apply negb_true_iff in Hr. change ("" +:+ String c r) with (String c r).
  cbn [span_digits]. by rewrite Hr.
Qed.

Lemma nzhead_not_D0 (d x : uint) : nzhead d <> D0 x.
Proof. induction d; simpl; congruence. Qed.

(** [N.to_uint] is normalized: no leading zero but for 0 itself. *)
Lemma to_uint_shape (n : N) :
  N.to_uint n <> Nil /\
  forall x, N.to_uint n <> D0 x \/ x = Nil.
Proof.
  assert (N.to_uint n = unorm (N.to_uint n)) as Hn.
  { rewrite <- DecimalN.Unsigned.to_of. by rewrite DecimalN.Unsigned.of_to. }
  rewrite Hn. unfold unorm.
  destruct (nzhead (N.to_uint n)) eqn:E; split; try done;
    intros x; try (left; done); try (right; congruence).
  - destruct x; [by right | left; discriminate ..].
  - exfalso. by apply (nzhead_not_D0 (N.to_uint n) u).
Qed.

(** The decimal digits of a natural number: a digit first, and no
    leading zero. *)
Lemma uint_string_head (n : N) :
  exists c ds', NilEmpty.string_of_uint (N.to_uint n) = String c ds' /\
    is_digit c = true /\
    (bool_decide (c = "0"%char) && negb (bool_decide (ds' = EmptyString)))%bool = false.
Proof.
  destruct (to_uint_shape n) as [Hnil H0].
  destruct (N.to_uint n) as [|x|x|x|x|x|x|x|x|x|x]; [done|..];
    eexists _, _; (split; [reflexivity|]); split; try reflexivity.
  destruct (H0 x) as [Hx | Hx]; [done | by subst x].
Qed.

Lemma uint_of_string_to_uint (n : N) :
  (N.of_uint <$> NilEmpty.uint_of_string (NilEmpty.string_of_uint (N.to_uint n))) = Some n.
Proof.
  rewrite DecimalString.NilEmpty.usu. exact (f_equal Some (DecimalN.Unsigned.of_to n)).
Qed.

Lemma parse_number_digits (n : N) (neg : bool) (rest : string) :
  starts_non_digit rest = true -> frac_start rest = false ->
  parse_number ((if neg then String "-" EmptyString else EmptyString) +:+
                NilEmpty.string_of_uint (N.to_uint n) +:+ rest) =
  Some (JNumber (if neg then (- Z.of_N n)%Z else Z.of_N n), rest).
Proof.
  intros Hd Hf. pose proof (uint_of_string_to_uint n) as Hu.
  destruct (uint_string_head n) as (c & ds' & Hs & Hc & H0).
  assert (c <> "-"%char) as Hm by (intros ->; discriminate).
  assert (span_digits (NilEmpty.string_of_uint (N.to_uint n) +:+ rest) =
          (String c ds', rest)) as Hsp by (rewrite span_digits_uint; congruence).
  rewrite Hs in Hu, Hsp. rewrite string_app_cons in Hsp.
  unfold parse_number. destruct neg;
    rewrite ?Hs, ?string_app_cons, ?string_app_nil_l;
    [destruct (Ascii.ascii_dec "-" "-"); [|done] | destruct (Ascii.ascii_dec c "-"); [done|]];
    rewrite Hsp, H0, Hf;
    destruct (NilEmpty.uint_of_string (String c ds')) as [u|]; try discriminate;
    injection Hu as <-; reflexivity.
Qed.

Lemma parse_number_format_int (z : Z) (rest : string) :
  starts_non_digit rest = true -> frac_start rest = false ->
  parse_number (format_int z +:+ rest) = Some (JNumber z, rest).
Proof.
  intros Hd Hf. unfold format_int.
  destruct (Z.ltb_spec z 0).
  - pose proof (parse_number_digits (Z.abs_N z) true rest Hd Hf) as Hp.
    cbv iota beta in Hp. rewrite string_app_cons, string_app_nil_l in Hp.
    rewrite string_app_cons, Hp, N2Z.inj_abs_N. repeat f_equal. lia.
  - pose proof (parse_number_digits (Z.abs_N z) false rest Hd Hf) as Hp.
    cbv iota beta in Hp. rewrite string_app_nil_l in Hp.
    rewrite Hp, N2Z.inj_abs_N. repeat f_equal. lia.
Qed.

Lemma value_end_number (s : string) :
  value_end s = true -> starts_non_digit s = true /\ frac_start s = false.
Proof. destruct s as [|c s]; [done|]. by destruct c as [[][][][][][][][]]. Qed.

Lemma parse_value_number (c : ascii) (s : string) :
  c <> quote -> c <> "t"%char -> c <> "f"%char -> c <> "n"%char ->
  parse_value (String c s) = parse_number (String c s).
Proof.
  intros Hq Ht Hf Hn. cbn [parse_value].
  destruct (Ascii.ascii_dec c quote); [done|].
  destruct (Ascii.ascii_dec c "t"); [done|].
  destruct (Ascii.ascii_dec c "f"); [done|].
  by destruct (Ascii.ascii_dec c "n").
Qed.

(** The first byte of a marshalled value: a quote, [-], a digit, [t],
    [f] or [n]; never whitespace. *)
Lemma format_int_head (z : Z) :
  exists c s, format_int z = String c s /\ c <> quote /\ c <> "t"%char /\
              c <> "f"%char /\ c <> "n"%char /\ is_ws c = false.
Proof.
  unfold format_int. destruct (Z.ltb z 0).
  - by eexists _, _.
  - destruct (uint_string_head (Z.abs_N z)) as (c & ds' & -> & Hc & _).
    exists c, ds'. repeat split; try (intros ->; discriminate).
    revert Hc. by destruct c as [[][][][][][][][]].
Qed.

Lemma parse_value_marshal (v : json_value) (rest : string) :
  value_end rest = true ->
  parse_value (marshal_value v +:+ rest) = Some (v, rest).
Proof.
  intros Hr. destruct v as [s|z|[]|]; try reflexivity.
  - apply parse_value_string.
  - destruct (value_end_number rest Hr) as [Hd Hf].
    cbn [marshal_value]. destruct (format_int_head z) as (c & s & Hs & ? & ? & ? & ? & _).
    rewrite Hs, string_app_cons, parse_value_number by done.
    rewrite <- string_app_cons, <- Hs. by apply parse_number_format_int.
Qed.

Lemma marshal_value_head (v : json_value) :
  exists c s, marshal_value v = String c s /\ is_ws c = false.
Proof.
  destruct v as [s|z|[]|]; try by eexists _, _.
  destruct (format_int_head z) as (c & s & Hs & _ & _ & _ & _ & Hw). eauto.
Qed.

Lemma skip_ws_nonws (c : ascii) (s : string) :
  is_ws c = false -> skip_ws (String c s) = String c s.
Proof. intros Hc. cbn [skip_ws]. by rewrite Hc. Qed.

Lemma parse_member (k : string) (v : json_value) (fuel : nat) (X : string)
    (acc : list (string * json_value)) :
  value_end X = true ->
  parse_members (S fuel) (marshal_member (k, v) +:+ X) acc =
  match skip_ws X with
  | String "," s5 => parse_members fuel s5 ((k, v) :: acc)
  | String "}" s5 => Some ((k, v) :: acc, s5)
  | _ => None
  end.
Proof.
  intros HX. unfold marshal_member, encode_string. cbn [fst snd].
  rewrite !string_app_cons. cbn [parse_members].
  rewrite skip_ws_nonws by reflexivity.
  destruct (Ascii.ascii_dec quote quote); [|done].
  rewrite <- !string_app_assoc, string_app_cons, string_app_nil_l, string_app_cons.
  rewrite parse_string_body_escape. cbn [mbind option_bind].
  rewrite skip_ws_nonws by reflexivity.
  destruct (marshal_value_head v) as (c & s & Hs & Hw).
  rewrite Hs, string_app_cons, skip_ws_nonws by done.
  rewrite <- string_app_cons, <- Hs, parse_value_marshal by done. reflexivity.
Qed.

Lemma parse_members_join (l : list (string * json_value)) (fuel : nat)
    (acc : list (string * json_value)) (rest : string) :
  l <> [] -> length l <= fuel ->
  parse_members fuel (join_members l +:+ String "}" rest) acc = Some (rev l ++ acc, rest).
Proof.
  revert fuel acc. induction l as [|[k v] l IH]; intros fuel acc Hl Hf; [done|].
  destruct fuel as [|fuel]; [simpl in Hf; lia|].
  destruct l as [|kv' l'].
  - cbn [join_members]. rewrite parse_member by done.
    cbn [skip_ws]. reflexivity.
  - cbn [join_members]. fold (join_members (kv' :: l')).
    rewrite <- string_app_assoc, string_app_cons, parse_member by done.
    cbn [skip_ws is_ws]. simpl. rewrite IH by (done || simpl in *; lia).
    by rewrite <- app_assoc.
Qed.

Lemma join_members_length (l : list (string * json_value)) :
  length l <= String.length (join_members l).
Proof.
  induction l as [|[k v] l IH]; [simpl; lia|].
  destruct l as [|kv' l'].
  - cbn [join_members length]. unfold marshal_member, encode_string.
    rewrite string_app_cons. cbn [String.length]. lia.
  - change (join_members ((k, v) :: kv' :: l')) with
      (marshal_member (k, v) +:+ String "," (join_members (kv' :: l'))).
    rewrite string_length_app. cbn [String.length length] in *. lia.
Qed.

Lemma join_members_head (kv : string * json_value) (l : list (string * json_value)) :
  exists s, join_members (kv :: l) = String quote s.
Proof.
  destruct l; cbn [join_members]; unfold marshal_member, encode_string;
    rewrite ?string_app_cons; eauto.
Qed.

(** Every flat object marshals to a string that unmarshals back to it. *)
Lemma Unmarshal_Marshal (o : json_object) : Unmarshal (Marshal o) = Some o.
Proof.
  unfold Marshal.
  pose proof (merge_sort_Permutation (fun kv1 kv2 : string * json_value =>
                String.le kv1.1 kv2.1) (map_to_list o)) as Hperm.
  remember (merge_sort _ (map_to_list o)) as l eqn:El. clear El.
  destruct l as [|kv l'].
  - apply Permutation_nil in Hperm. apply map_to_list_empty_iff in Hperm.
    by subst o.
  - destruct (join_members_head kv l') as [s Hs].
    pose proof (join_members_length (kv :: l')) as Hlen.
    unfold Unmarshal. rewrite skip_ws_nonws by reflexivity. cbv iota beta.
    rewrite Hs, string_app_cons, skip_ws_nonws by reflexivity.
    cbv iota beta. rewrite <- string_app_cons, <- Hs.
    rewrite parse_members_join; [|done|].
    + cbn [mbind option_bind]. rewrite bool_decide_true by reflexivity.
      rewrite app_nil_r. f_equal.
      rewrite <- (list_to_map_to_list o). apply list_to_map_proper.
      * assert ((rev (kv :: l')).*1 ≡ₚ (map_to_list o).*1) as ->.
        { f_equiv. by rewrite <- Hperm, <- Permutation_rev. }
        apply NoDup_fst_map_to_list.
      * by rewrite <- Hperm, <- Permutation_rev.
    + cbn [String.length]. rewrite string_length_app. lia.
Qed.

(** The decoder accepts whatever [Unmarshal] accepts, with the same
    result. *)
Lemma Decode_Unmarshal (s : string) (o : json_object) :
  Unmarshal s = Some o -> Decode s = Some o.
Proof.
  unfold Unmarshal, Decode. destruct (skip_ws s) as [|c s1]; [done|].
  destruct c as [[][][][][][][][]]; try done.
  - destruct (skip_ws s1) as [|c' s2]; [|destruct c' as [[][][][][][][][]]];
      destruct (parse_members (String.length s) s1 []) as [[members rest]|]; cbn;
      intros H; try case_bool_decide; congruence.
  - destruct s1 as [|c1 s1]; [done|]. destruct c1 as [[][][][][][][][]]; try (intro H; exact H).
    destruct s1 as [|c2 s2]; [done|]. destruct c2 as [[][][][][][][][]]; try (intro H; exact H).
    destruct s2 as [|c3 s3]; [done|]. destruct c3 as [[][][][][][][][]]; try (intro H; exact H).
    cbn. intros H. case_bool_decide; congruence.
Qed.

(** [encoding/json], an instance of the interface of [Codec].  The model
    round-trips every object; the instance promises it for ASCII strings
    only, where the model and Go agree byte for byte. *)
#[export] Program Instance go_json : ObjectCodec := {|
  marshal := Marshal;
  unmarshal := Unmarshal;
  decode_first := Decode;
  marshal_ok := is_ascii
|}.
Next Obligation. intros o _. apply Unmarshal_Marshal. Qed.
Next Obligation. intros o _. apply Decode_Unmarshal, Unmarshal_Marshal. Qed.
Next Obligation. done. Qed.

(** Round trip of the JSON encoding: every flat object marshals to a
    string that unmarshals back to it, so two claim sets that differ
    never marshal to the same bytes (nor sign the same segment). *)
Theorem Marshal_roundtrip (o o' : json_object) :
  Unmarshal (Marshal o) = Some o /\ (Marshal o = Marshal o' -> o = o').
Proof.
  split; [apply Unmarshal_Marshal|]. intros Heq.
  pose proof (Unmarshal_Marshal o) as H. rewrite Heq, Unmarshal_Marshal in H. congruence.
Qed.
