(* ===== verification/Jwt.v ===== *)
(** * jwt-go (v2): signing and parsing JSON web tokens

    The middleware signs its relay-state and session tokens with
    [jwt.New(jwt.GetSigningMethod("HS256"))], [Token.Claims[k] = v] and
    [Token.SignedString(key)], and checks them with
    [jwt.Parse(s, keyFunc)] and [Token.Valid].  This file models those
    library functions (jwt-go v2: token.go, parser.go, hmac.go,
    signing_method.go), generically in the codec interfaces of [Codec],
    and proves what the middleware relies on: the round trip, the exact
    set of strings [Parse] accepts, rejection under another key, expiry,
    and which signing algorithms the parser lets through. *)

From S2P Require Import Prelude Codec.

(** ** Signing methods

    The methods jwt-go registers, by the [alg] name of the header. *)
Inductive signing_method : Type :=
| SM_HMAC (h : hash_alg)
| SM_RSA (h : hash_alg)
| SM_RSAPSS (h : hash_alg)
| SM_ECDSA (h : hash_alg)
| SM_None.

#[export] Instance signing_method_eq_dec : EqDecision signing_method.
Proof. solve_decision. Defined.

Definition hash_suffix (h : hash_alg) : string :=
  match h with SHA256 => "256" | SHA384 => "384" | SHA512 => "512" end.

(** [SigningMethod.Alg()] *)
Definition Alg (m : signing_method) : string :=
  match m with
  | SM_HMAC h => "HS" +:+ hash_suffix h
  | SM_RSA h => "RS" +:+ hash_suffix h
  | SM_RSAPSS h => "PS" +:+ hash_suffix h
  | SM_ECDSA h => "ES" +:+ hash_suffix h
  | SM_None => "none"
  end.

Definition all_methods : list signing_method :=
  [SM_HMAC SHA256; SM_HMAC SHA384; SM_HMAC SHA512;
   SM_RSA SHA256; SM_RSA SHA384; SM_RSA SHA512;
   SM_RSAPSS SHA256; SM_RSAPSS SHA384; SM_RSAPSS SHA512;
   SM_ECDSA SHA256; SM_ECDSA SHA384; SM_ECDSA SHA512; SM_None].

(** [jwt.GetSigningMethod(alg)]: the registry lookup, [nil] when the name
    is not registered. *)
Definition GetSigningMethod (alg : string) : option signing_method :=
  List.find (fun m => bool_decide (Alg m = alg)) all_methods.

(** ** Tokens

    [jwt.Token]: the fields the parser fills in.  The [Valid] flag is
    [true] exactly when [Parse] returns no error, so it is not a field. *)
Record Token : Type := mkToken {
  Header : json_object;
  Claims : json_object;
  Method : signing_method;
  Signature : string
}.

(** The error of [Parse]: jwt-go's [ValidationError] by its flags. *)
Inductive validation_error : Type :=
| ValidationErrorMalformed
| ValidationErrorUnverifiable
| ValidationErrorInvalid (expired not_valid_yet signature_invalid : bool).

(** The error of [SignedString] for the non-HMAC methods given a byte key. *)
Inductive signing_error : Type :=
| ErrInvalidKey
| NoneSignatureTypeDisallowed.

(** [jwt.Keyfunc]: given the parsed (unverified) token, the key to check it
    with.  The key is a byte string ([[]byte]): it may panic, as the
    middleware's key functions do when the PEM key did not decode. *)
Definition Keyfunc : Type := Token -> go_result (result string string).

Section Codec.
Context {SC : SegmentCodec} {OC : ObjectCodec} {HM : Hmac}.

(** [jwt.New(method)]: header [{"typ":"JWT","alg":method.Alg()}], no claims. *)
Definition New (m : signing_method) : Token :=
  {| Header := <["alg" := JString (Alg m)]> (<["typ" := JString "JWT"]> ∅);
     Claims := ∅; Method := m; Signature := "" |}.

(** [token.Claims[k] = v]. *)
Definition SetClaim (t : Token) (k : string) (v : json_value) : Token :=
  {| Header := Header t; Claims := <[k := v]> (Claims t); Method := Method t;
     Signature := Signature t |}.

(** [Token.SigningString()]: the two encoded JSON segments joined by ".".
    [json.Marshal] cannot fail on the scalar values of [json_value]. *)
Definition SigningString (t : Token) : string :=
  encode_segment (marshal (Header t)) +:+
    String dot (encode_segment (marshal (Claims t))).

(** [SigningMethod.Sign(signingString, key)] with a byte-string key: the
    HMAC methods sign; RSA, RSA-PSS and ECDSA reject a byte key
    ([ErrInvalidKey]); [none] rejects every key but a sentinel. *)
Definition Sign (m : signing_method) (signingString key : string)
    : result string signing_error :=
  match m with
  | SM_HMAC h => Ok (encode_segment (hmac h key signingString))
  | SM_None => Err NoneSignatureTypeDisallowed
  | _ => Err ErrInvalidKey
  end.

(** [SigningMethod.Verify(signingString, signature, key)] with a byte key;
    [hmac.Equal] compares the decoded signature with the recomputed one. *)
Definition Verify (m : signing_method) (signingString signature key : string)
    : bool :=
  match m with
  | SM_HMAC h =>
      match decode_segment signature with
      | Some sig => bool_decide (sig = hmac h key signingString)
      | None => false
      end
  | _ => false
  end.

(** [Token.SignedString(key)]: the signing string, ".", the signature. *)
Definition SignedString (t : Token) (key : string)
    : result string signing_error :=
  let sstr := SigningString t in
  match Sign (Method t) sstr key with
  | Ok sig => Ok (sstr +:+ String dot sig)
  | Err e => Err e
  end.

(** The time checks of [Parse]: [exp] and [nbf] count only when they are
    numbers ([float64] in Go); [now > int64(exp)] is expired,
    [now < int64(nbf)] is not valid yet. *)
Definition exp_expired (claims : json_object) (now : Z) : bool :=
  match claims !! "exp" with Some (JNumber e) => Z.gtb now e | _ => false end.

Definition nbf_pending (claims : json_object) (now : Z) : bool :=
  match claims !! "nbf" with Some (JNumber n) => Z.ltb now n | _ => false end.

(** [DecodeSegment] followed by [json.Unmarshal]: the header. *)
Definition decode_object (seg : string) : option json_object :=
  decode_segment seg ≫= unmarshal.

(** [DecodeSegment] followed by [json.NewDecoder(...).Decode]: the
    claims, where what follows the first JSON value is not read. *)
Definition decode_claims (seg : string) : option json_object :=
  decode_segment seg ≫= decode_first.

(** [jwt.Parse(tokenString, keyFunc)] with [TimeFunc().Unix() = now]:
    three segments, a decodable header and claims, a registered [alg],
    the key, then the time checks and the signature, whose failures are
    collected in one [ValidationError]. *)
Definition Parse (tokenString : string) (keyFunc : Keyfunc) (now : Z)
    : go_result (result Token validation_error) :=
  match Split tokenString dot with
  | [p0; p1; p2] =>
      match decode_object p0 with
      | None => Ret (Err ValidationErrorMalformed)
      | Some header =>
          match decode_claims p1 with
          | None => Ret (Err ValidationErrorMalformed)
          | Some claims =>
              match header !! "alg" with
              | Some (JString alg) =>
                  match GetSigningMethod alg with
                  | None => Ret (Err ValidationErrorUnverifiable)
                  | Some m =>
                      let tok := mkToken header claims m p2 in
                      k <-? keyFunc tok ;;
                      match k with
                      | Err _ => Ret (Err ValidationErrorUnverifiable)
                      | Ok key =>
                          let expired := exp_expired claims now in
                          let not_yet := nbf_pending claims now in
                          let bad_sig := negb (Verify m (p0 +:+ String dot p1) p2 key) in
                          if expired || not_yet || bad_sig
                          then Ret (Err (ValidationErrorInvalid expired not_yet bad_sig))
                          else Ret (Ok tok)
                      end
                  end
              | _ => Ret (Err ValidationErrorUnverifiable)
              end
          end
      end
  | _ => Ret (Err ValidationErrorMalformed)
  end.

(** ** The tokens the parser accepts

    The specification of verification (spec §4.1) as a relation: a string
    is accepted under [key] at time [now] when it is three separator-free
    segments, the first two decode to JSON objects, the header names an
    HMAC algorithm, the third segment decodes to that HMAC of the first two
    under [key], and neither [exp] nor [nbf] rules the time out. *)
Inductive Accepts (key : string) (now : Z) : string -> Token -> Prop :=
| Accepts_intro p0 p1 p2 header claims h :
    char_free dot p0 = true -> char_free dot p1 = true ->
    char_free dot p2 = true ->
    decode_object p0 = Some header ->
    decode_claims p1 = Some claims ->
    header !! "alg" = Some (JString (Alg (SM_HMAC h))) ->
    decode_segment p2 = Some (hmac h key (p0 +:+ String dot p1)) ->
    exp_expired claims now = false ->
    nbf_pending claims now = false ->
    Accepts key now (p0 +:+ String dot (p1 +:+ String dot p2))
      (mkToken header claims (SM_HMAC h) p2).

End Codec.

Section Proofs.
Context {SC : SegmentCodec} {OC : ObjectCodec} {HM : Hmac}.

Lemma GetSigningMethod_Alg (m : signing_method) : GetSigningMethod (Alg m) = Some m.
Proof. by destruct m as [[]|[]|[]|[]|]. Qed.

Lemma GetSigningMethod_Some (alg : string) (m : signing_method) :
  GetSigningMethod alg = Some m -> Alg m = alg.
Proof.
  unfold GetSigningMethod. intros Hf.
  apply List.find_some in Hf as [_ Hb]. by apply bool_decide_eq_true in Hb.
Qed.

Lemma Alg_inj (m1 m2 : signing_method) : Alg m1 = Alg m2 -> m1 = m2.
Proof.
  intros Heq. apply (f_equal GetSigningMethod) in Heq.
  rewrite !GetSigningMethod_Alg in Heq. congruence.
Qed.

Lemma Verify_true (m : signing_method) (ss sig key : string) :
  Verify m ss sig key = true <->
  exists h, m = SM_HMAC h /\ decode_segment sig = Some (hmac h key ss).
Proof.
  split.
  - destruct m; simpl; try discriminate.
    destruct (decode_segment sig) eqn:E; [|discriminate].
    intros ?%bool_decide_eq_true. subst. eauto.
  - intros (h & -> & Hd). simpl. rewrite Hd. by apply bool_decide_eq_true.
Qed.

Lemma decode_claims_encode (o : json_object) :
  object_strings_ok marshal_ok o ->
  decode_claims (encode_segment (marshal o)) = Some o.
Proof.
  intros Ho. unfold decode_claims.
  rewrite decode_encode_segment. simpl. by apply decode_first_marshal.
Qed.

Lemma decode_object_encode (o : json_object) :
  object_strings_ok marshal_ok o ->
  decode_object (encode_segment (marshal o)) = Some o.
Proof.
  intros Ho. unfold decode_object.
  rewrite decode_encode_segment. simpl. by apply unmarshal_marshal.
Qed.

Lemma SignedString_HMAC (t : Token) (h : hash_alg) (key : string) :
  Method t = SM_HMAC h ->
  SignedString t key =
    Ok (encode_segment (marshal (Header t)) +:+
        String dot (encode_segment (marshal (Claims t)) +:+
        String dot (encode_segment (hmac h key (SigningString t))))).
Proof.
  intros Hm. unfold SignedString. rewrite Hm. simpl.
  unfold SigningString at 1. by rewrite <- string_app_assoc, string_app_cons.
Qed.

(** With a key function that returns a key, [Parse] does not panic. *)
Lemma Parse_no_panic (s : string) (kf : Keyfunc) (key : string) (now : Z) :
  (forall t, kf t = Ret (Ok key)) ->
  exists r, Parse s kf now = Ret r.
Proof. intros Hkf. unfold Parse. go_simp; rewrite ?Hkf; go_simp; eauto. Qed.

(** What a successful [Parse] tells, for any key function: the token is
    three segments, the key function gave a key, the method is HMAC and
    the signature checks under that key, and the time checks passed. *)
Lemma Parse_Ok_inv (s : string) (kf : Keyfunc) (now : Z) (t : Token) :
  Parse s kf now = Ret (Ok t) ->
  exists p0 p1 p2 key h,
    s = p0 +:+ String dot (p1 +:+ String dot p2) /\
    char_free dot p0 = true /\ char_free dot p1 = true /\
    char_free dot p2 = true /\
    decode_object p0 = Some (Header t) /\ decode_claims p1 = Some (Claims t) /\
    Header t !! "alg" = Some (JString (Alg (SM_HMAC h))) /\
    Method t = SM_HMAC h /\ Signature t = p2 /\
    kf t = Ret (Ok key) /\
    decode_segment p2 = Some (hmac h key (p0 +:+ String dot p1)) /\
    exp_expired (Claims t) now = false /\ nbf_pending (Claims t) now = false.
Proof.
  unfold Parse.
  destruct (Split s dot) as [|p0 [|p1 [|p2 [|]]]] eqn:Hs; try discriminate.
  destruct (decode_object p0) as [header|] eqn:H0; [|discriminate].
  destruct (decode_claims p1) as [claims|] eqn:H1; [|discriminate].
  destruct (header !! "alg") as [[alg| | |]|] eqn:Ha; try discriminate.
  destruct (GetSigningMethod alg) as [m|] eqn:Hm; [|discriminate].
  destruct (kf _) as [[key|]|] eqn:Hk; simpl; try discriminate.
  destruct (exp_expired claims now) eqn:He; [discriminate|].
  destruct (nbf_pending claims now) eqn:Hn; [discriminate|].
  destruct (Verify m _ p2 key) eqn:Hv; [|discriminate].
  simpl. intros [= <-].
  apply Verify_true in Hv as (h & -> & Hd).
  apply GetSigningMethod_Some in Hm. subst alg.
  apply Split_three_inv in Hs as (-> & ? & ? & ?).
  exists p0, p1, p2, key, h. simpl. by repeat split.
Qed.

(** Parsing with a key function that returns [key] accepts exactly the
    tokens of the specification [Accepts]: [Parse] refines it. *)
Theorem Parse_Accepts (s : string) (kf : Keyfunc) (key : string) (now : Z)
    (t : Token) :
  (forall t', kf t' = Ret (Ok key)) ->
  Parse s kf now = Ret (Ok t) <-> Accepts key now s t.
Proof.
  intros Hkf. split.
  - intros (p0 & p1 & p2 & key' & h & -> & ? & ? & ? & ? & ? & ? & Hm & Hsig &
            Hk & Hd & ? & ?)%Parse_Ok_inv.
    rewrite Hkf in Hk. injection Hk as <-.
    destruct t as [header claims m sig]; simpl in *. subst. by constructor.
  - intros [p0 p1 p2 header claims h ?????? Hd He Hn].
    unfold Parse. rewrite Split_three by done.
    repeat match goal with
           | H : decode_object _ = _ |- _ => rewrite H; clear H
           | H : decode_claims _ = _ |- _ => rewrite H; clear H
           end.
    match goal with H : header !! "alg" = _ |- _ => rewrite H end.
    rewrite GetSigningMethod_Alg, Hkf. simpl.
    rewrite He, Hn. simpl. by rewrite Hd, bool_decide_true.
Qed.

(** A token signed with an HMAC method under [key] is one the
    specification accepts under [key], while its [exp] and [nbf] allow. *)
Lemma SignedString_Accepts (t : Token) (h : hash_alg) (key s : string) (now : Z) :
  Method t = SM_HMAC h ->
  Header t !! "alg" = Some (JString (Alg (SM_HMAC h))) ->
  object_strings_ok marshal_ok (Header t) ->
  object_strings_ok marshal_ok (Claims t) ->
  exp_expired (Claims t) now = false ->
  nbf_pending (Claims t) now = false ->
  SignedString t key = Ok s ->
  Accepts key now s (mkToken (Header t) (Claims t) (SM_HMAC h)
                       (encode_segment (hmac h key (SigningString t)))).
Proof.
  intros Hm Ha Hh Hc He Hn Hs.
  rewrite (SignedString_HMAC t h) in Hs by done. injection Hs as <-.
  constructor; auto using encode_segment_dot_free, decode_object_encode, decode_claims_encode.
  by rewrite decode_encode_segment.
Qed.

(** Round trip: a token signed with an HMAC method under [key] parses
    back, under [key], to its header and claims, as long as its [exp] and
    [nbf] do not rule out the current time. *)
Theorem Parse_SignedString (t : Token) (h : hash_alg) (kf : Keyfunc)
    (key s : string) (now : Z) :
  (forall t', kf t' = Ret (Ok key)) ->
  Method t = SM_HMAC h ->
  Header t !! "alg" = Some (JString (Alg (SM_HMAC h))) ->
  object_strings_ok marshal_ok (Header t) ->
  object_strings_ok marshal_ok (Claims t) ->
  exp_expired (Claims t) now = false ->
  nbf_pending (Claims t) now = false ->
  SignedString t key = Ok s ->
  Parse s kf now = Ret (Ok (mkToken (Header t) (Claims t) (SM_HMAC h)
                             (encode_segment (hmac h key (SigningString t))))).
Proof.
  intros Hkf ???????. apply (Parse_Accepts _ _ key); [done|].
  by apply SignedString_Accepts.
Qed.

(** Splitting a signed token recovers its three segments. *)
Lemma Split_signed (a b d a' b' d' : string) :
  char_free dot a = true -> char_free dot b = true -> char_free dot d = true ->
  char_free dot a' = true -> char_free dot b' = true -> char_free dot d' = true ->
  a +:+ String dot (b +:+ String dot d) = a' +:+ String dot (b' +:+ String dot d') ->
  a = a' /\ b = b' /\ d = d'.
Proof.
  intros ?????? Heq. apply (f_equal (fun x => Split x dot)) in Heq.
  rewrite !Split_three in Heq by done. by injection Heq as -> -> ->.
Qed.

(** A token signed under [key] is rejected (with an error, not a panic)
    by a parser holding a key [key'] whose HMAC of the signing string
    differs. *)
Theorem Parse_wrong_key (t : Token) (h : hash_alg) (kf : Keyfunc)
    (key key' s : string) (now : Z) :
  (forall t', kf t' = Ret (Ok key')) ->
  Method t = SM_HMAC h ->
  Header t !! "alg" = Some (JString (Alg (SM_HMAC h))) ->
  object_strings_ok marshal_ok (Header t) ->
  hmac h key' (SigningString t) <> hmac h key (SigningString t) ->
  SignedString t key = Ok s ->
  exists e, Parse s kf now = Ret (Err e).
Proof.
  intros Hkf Hm Ha Hh Hne Hs.
  destruct (Parse_no_panic s kf key' now Hkf) as [[t'|e] Hp]; [|eauto].
  exfalso. apply Parse_Ok_inv in Hp
    as (p0 & p1 & p2 & k & h' & -> & ? & ? & ? & Hd0 & _ & Ha' & _ & _ & Hk & Hd2 & _).
  rewrite Hkf in Hk. injection Hk as <-.
  rewrite (SignedString_HMAC t h) in Hs by done. injection Hs as Hs.
  apply Split_signed in Hs as (<- & <- & <-); auto using encode_segment_dot_free.
  rewrite decode_object_encode in Hd0 by done. injection Hd0 as Hd0.
  rewrite <- Hd0, Ha in Ha'.
  assert (SM_HMAC h = SM_HMAC h') as [= <-] by (apply Alg_inj; congruence).
  rewrite decode_encode_segment in Hd2. injection Hd2 as Hd2.
  unfold SigningString in *. congruence.
Qed.

(** Whatever the string and the key function, a token whose numeric [exp]
    lies before [now] is never accepted (spec §8, third property). *)
Theorem Parse_rejects_expired (s : string) (kf : Keyfunc) (now e : Z) (t : Token) :
  Parse s kf now = Ret (Ok t) ->
  Claims t !! "exp" = Some (JNumber e) ->
  (now <= e)%Z.
Proof.
  intros (? & ? & ? & ? & ? & _ & _ & _ & _ & _ & _ & _ & _ & _ & _ & _ & He & _)%Parse_Ok_inv Hexp.
  unfold exp_expired in He. rewrite Hexp in He. lia.
Qed.

(** Whatever key the parser uses, a signed token it accepts has the
    claims that were signed. *)
Lemma Parse_SignedString_claims (t t' : Token) (h : hash_alg) (kf : Keyfunc)
    (key s : string) (now : Z) :
  Method t = SM_HMAC h -> object_strings_ok marshal_ok (Claims t) ->
  SignedString t key = Ok s ->
  Parse s kf now = Ret (Ok t') -> Claims t' = Claims t.
Proof.
  intros Hm Hc Hs
    (p0 & p1 & p2 & k & h' & -> & ? & ? & ? & _ & Hd1 & _)%Parse_Ok_inv.
  rewrite (SignedString_HMAC t h) in Hs by done. injection Hs as Hs.
  apply Split_signed in Hs as (_ & <- & _); auto using encode_segment_dot_free.
  rewrite decode_claims_encode in Hd1 by done. congruence.
Qed.

(** A signed token whose [exp] lies before [now] is rejected with an
    error by a parser that has a key. *)
Lemma Parse_SignedString_expired (t : Token) (h : hash_alg) (kf : Keyfunc)
    (key key' s : string) (now : Z) :
  (forall t', kf t' = Ret (Ok key')) ->
  Method t = SM_HMAC h -> object_strings_ok marshal_ok (Claims t) ->
  exp_expired (Claims t) now = true ->
  SignedString t key = Ok s ->
  exists e, Parse s kf now = Ret (Err e).
Proof.
  intros Hkf Hm Hc He Hs.
  destruct (Parse_no_panic s kf key' now Hkf) as [[t'|e] Hp]; [|eauto].
  pose proof (Parse_SignedString_claims t t' h kf key s now Hm Hc Hs Hp) as Hct.
  apply Parse_Ok_inv in Hp as (? & ? & ? & ? & ? & _ & _ & _ & _ & _ & _ & _ & _ & _ & _ & _ & He' & _).
  congruence.
Qed.

(** The header [New] writes survives the JSON round trip. *)
Lemma New_header_ok (m : signing_method) :
  object_strings_ok marshal_ok (Header (New m)).
Proof.
  simpl. repeat apply object_strings_ok_insert;
    first [apply object_strings_ok_empty | apply marshal_ok_ascii; by destruct m as [[]|[]|[]|[]|] | done].
Qed.

Lemma New_alg (m : signing_method) : Header (New m) !! "alg" = Some (JString (Alg m)).
Proof. reflexivity. Qed.

(** A token made by [New] with an HMAC method and given claims, signed
    under [key], parses back to those claims under [key]. *)
Lemma Parse_SignedString_New (h : hash_alg) (claims : json_object) (kf : Keyfunc)
    (key s : string) (now : Z) :
  (forall t', kf t' = Ret (Ok key)) ->
  object_strings_ok marshal_ok claims ->
  exp_expired claims now = false -> nbf_pending claims now = false ->
  SignedString (mkToken (Header (New (SM_HMAC h))) claims (SM_HMAC h) "") key = Ok s ->
  exists sig, Parse s kf now = Ret (Ok (mkToken (Header (New (SM_HMAC h))) claims (SM_HMAC h) sig)).
Proof.
  intros Hkf Hc He Hn Hs. eexists. apply (Parse_Accepts _ _ key); [done|].
  apply (SignedString_Accepts (mkToken (Header (New (SM_HMAC h))) claims (SM_HMAC h) "")
           h key s now); try reflexivity; auto; apply New_header_ok.
Qed.

End Proofs.
