(* ===== verification/Http.v ===== *)
(** * net/http: header keys, headers, requests and response effects

    The middleware reads and writes request headers through
    [http.Header] ([map[string][]string]) and
    [http.CanonicalHeaderKey] (= [textproto.CanonicalMIMEHeaderKey]),
    reads one cookie and one form value, and answers through
    [http.Error], [http.Redirect], [http.SetCookie] and [w.Write].  This
    file models those library pieces.  [CanonicalMIMEHeaderKey] is modelled
    the way textproto writes it, a quick scan that falls back to the
    byte-rewriting loop, and is proved equal to its specification
    ([canonical_spec]); the header namespace lemmas the middleware needs
    ([X-Saml] keys stay [X-Saml] keys) are proved on it. *)

From S2P Require Import Prelude.
From Stdlib Require Import Ascii.

(** ** Header keys *)

(** [isTokenTable]: the bytes of an RFC 7230 token. *)
Definition token_specials : string := "!#$%&'*+-.^_`|~".

Definition is_alnum (c : ascii) : bool :=
  let n := N_of_ascii c in
  (N.leb 48 n && N.ltb n 58) || (N.leb 65 n && N.ltb n 91) || (N.leb 97 n && N.ltb n 123).

(** [validHeaderFieldByte(c)]: [c < utf8.RuneSelf && isTokenTable[c]]. *)
Definition validHeaderFieldByte (c : ascii) : bool :=
  is_alnum c || negb (char_free c token_specials).

Definition is_lower (c : ascii) : bool :=
  N.leb 97 (N_of_ascii c) && N.ltb (N_of_ascii c) 123.

Definition is_upper (c : ascii) : bool :=
  N.leb 65 (N_of_ascii c) && N.ltb (N_of_ascii c) 91.

(** [toLower = 'a' - 'A'] *)
Definition toLower : N := 32.

Definition is_dash (c : ascii) : bool := bool_decide (c = "-"%char).

(** One byte of the rewriting loop: [c -= toLower] for a lower-case
    byte where an upper-case one belongs, [c += toLower] for the
    converse. *)
Definition canon_char (upper : bool) (c : ascii) : ascii :=
  if upper && is_lower c then ascii_of_N (N_of_ascii c - toLower)
  else if negb upper && is_upper c then ascii_of_N (N_of_ascii c + toLower)
  else c.

(** The rewriting loop of [canonicalMIMEHeaderKey]: upper case at the
    start and after each dash, lower case elsewhere. *)
Fixpoint canon_loop (upper : bool) (a : string) : string :=
  match a with
  | EmptyString => EmptyString
  | String c a' =>
      let c' := canon_char upper c in
      String c' (canon_loop (is_dash c') a')
  end.

(** [canonicalMIMEHeaderKey(a)]: a key with a byte that is not a token
    byte (a space included) is returned unchanged; otherwise rewritten.
    The [commonHeader] lookup returns an equal, interned string. *)
Definition canonicalMIMEHeaderKey (a : string) : string :=
  if all_chars validHeaderFieldByte a then canon_loop true a else a.

Inductive quick_result : Type := QReturnAsIs | QCanonicalize.

(** The quick check of [CanonicalMIMEHeaderKey]: scan for a byte that is
    not a token byte (return the key as is) or a byte in the wrong case
    (rewrite the key); a key that is already canonical is returned as is. *)
Fixpoint quick_check (upper : bool) (s : string) : quick_result :=
  match s with
  | EmptyString => QReturnAsIs
  | String c s' =>
      if negb (validHeaderFieldByte c) then QReturnAsIs
      else if upper && is_lower c then QCanonicalize
      else if negb upper && is_upper c then QCanonicalize
      else quick_check (is_dash c) s'
  end.

(** [textproto.CanonicalMIMEHeaderKey(s)], also [http.CanonicalHeaderKey]. *)
Definition CanonicalMIMEHeaderKey (s : string) : string :=
  match quick_check true s with
  | QReturnAsIs => s
  | QCanonicalize => canonicalMIMEHeaderKey s
  end.

(** Its specification: token keys are rewritten, other keys kept. *)
Definition canonical_spec (s : string) : string :=
  if all_chars validHeaderFieldByte s then canon_loop true s else s.

(** ** Headers *)

(** [http.Header]. *)
Abbreviation Header := (gmap string (list string)).

(** [Header.Set(key, value)]: the canonical key gets the one value. *)
Definition Header_Set (h : Header) (key value : string) : Header :=
  <[CanonicalMIMEHeaderKey key := [value]]> h.

(** The keys [for name := range h] visits, in some order. *)
Definition header_names (h : Header) : list string := (map_to_list h).*1.

(** ** Requests *)

(** The parts of an [*http.Request] the middleware reads: [r.URL.Path],
    [r.URL.String()], [r.Header], the cookies [r.Cookie] parses from the
    [Cookie] header (name and value, in order) and [r.Form] once
    [r.ParseForm()] has run. *)
Record Request : Type := mkRequest {
  req_path : string;
  req_url : string;
  req_header : Header;
  req_cookies : list (string * string);
  req_form : gmap string (list string)
}.

#[export] Instance Request_eq_dec : EqDecision Request.
Proof.
  intros [p1 u1 h1 c1 f1] [p2 u2 h2 c2 f2].
  destruct (decide (p1 = p2 /\ u1 = u2 /\ h1 = h2 /\ c1 = c2 /\ f1 = f2))
    as [(-> & -> & -> & -> & ->)|Hne]; [by left|right].
  intros [= -> -> -> -> ->]. by apply Hne.
Defined.

Definition set_req_header (r : Request) (h : Header) : Request :=
  {| req_path := req_path r; req_url := req_url r; req_header := h;
     req_cookies := req_cookies r; req_form := req_form r |}.

(** [r.Cookie(name)]: the first cookie of that name, or [ErrNoCookie]. *)
Definition Cookie (r : Request) (name : string) : option string :=
  snd <$> List.find (fun nv => bool_decide (nv.1 = name)) (req_cookies r).

(** [r.Form.Get(key)]: the first value, or [""]. *)
Definition FormGet (r : Request) (key : string) : string :=
  match req_form r !! key with
  | Some (v :: _) => v
  | _ => ""
  end.

(** ** Responses *)

(** [http.Cookie], the fields the middleware sets. *)
Record HttpCookie : Type := mkCookie {
  cookie_name : string;
  cookie_value : string;
  cookie_max_age : Z;
  cookie_http_only : bool;
  cookie_path : string
}.

(** What a handler does to its [http.ResponseWriter], in order, and the
    operator log lines it writes. *)
Inductive effect : Type :=
| WriteBody (body : string)
| HttpError (msg : string) (code : Z)
| SetCookie (c : HttpCookie)
| Redirect (url : string) (code : Z)
| LogInvalidResponse (response now private_err : string).

Definition StatusFound : Z := 302.
Definition StatusForbidden : Z := 403.
Definition StatusNotFound : Z := 404.
Definition StatusInternalServerError : Z := 500.

(** [http.StatusText] on the codes the middleware uses. *)
Definition StatusText (code : Z) : string :=
  if Z.eqb code 403 then "Forbidden"
  else if Z.eqb code 404 then "Not Found"
  else if Z.eqb code 500 then "Internal Server Error"
  else if Z.eqb code 302 then "Found"
  else "".

(** An [http.Handler]: the effects on the response, or a panic. *)
Definition Handler : Type := Request -> go_result (list effect).

(** [http.NotFoundHandler()]. *)
Definition NotFoundHandler : Handler :=
  fun _ => Ret [HttpError "404 page not found" StatusNotFound].

(** The 256 bytes. *)
Definition all_bytes : list ascii := map (fun n => ascii_of_N (N.of_nat n)) (seq 0 256).

(** ** Header keys: the quick path computes the specification *)

Lemma quick_check_as_is (upper : bool) (s : string) :
  quick_check upper s = QReturnAsIs ->
  all_chars validHeaderFieldByte s = false \/ canon_loop upper s = s.
Proof.
  revert upper. induction s as [|c s IH]; intros upper Hq; [by right|].
  cbn [quick_check] in Hq. cbn [all_chars canon_loop]. unfold canon_char.
  destruct (validHeaderFieldByte c); [|by left].
  destruct (upper && is_lower c) eqn:Hl; [done|].
  destruct (negb upper && is_upper c) eqn:Hu; [done|].
  destruct (IH _ Hq) as [Hf | He]; [left; by rewrite Hf, andb_false_r | right; by rewrite He].
Qed.

(** [CanonicalMIMEHeaderKey] (quick check, then the rewriting loop) is
    its specification. *)
Theorem CanonicalMIMEHeaderKey_spec (s : string) :
  CanonicalMIMEHeaderKey s = canonical_spec s.
Proof.
  unfold CanonicalMIMEHeaderKey, canonicalMIMEHeaderKey, canonical_spec.
  destruct (quick_check true s) eqn:Hq; [|done].
  destruct (quick_check_as_is true s Hq) as [Hf | He]; [by rewrite Hf|rewrite He].
  by destruct (all_chars validHeaderFieldByte s).
Qed.

Lemma canon_loop_xsaml (name : string) :
  canon_loop true ("X-Saml-" +:+ name) = "X-Saml-" +:+ canon_loop true name.
Proof. reflexivity. Qed.

(** The key of [X-Saml-<name>] after canonicalization still starts with
    [X-Saml-]: the middleware's headers stay in its namespace. *)
Lemma CanonicalMIMEHeaderKey_xsaml (name : string) :
  exists rest, CanonicalMIMEHeaderKey ("X-Saml-" +:+ name) = "X-Saml-" +:+ rest.
Proof.
  rewrite CanonicalMIMEHeaderKey_spec. unfold canonical_spec.
  destruct (all_chars _ _); [rewrite canon_loop_xsaml|]; eauto.
Qed.

Lemma HasPrefix_CanonicalMIMEHeaderKey_xsaml (name : string) :
  HasPrefix (CanonicalMIMEHeaderKey ("X-Saml-" +:+ name)) "X-Saml" = true.
Proof.
  destruct (CanonicalMIMEHeaderKey_xsaml name) as [rest ->]. unfold HasPrefix.
  change ("X-Saml-" +:+ rest) with ("X-Saml" +:+ String "-" rest). apply prefix_app.
Qed.

Lemma lookup_Header_Set (h : Header) (k v k' : string) :
  Header_Set h k v !! k' =
  if decide (CanonicalMIMEHeaderKey k = k') then Some [v] else h !! k'.
Proof. unfold Header_Set. by rewrite lookup_insert. Qed.

(** The rewriting of one byte keeps token bytes token bytes and is
    idempotent, checked over the 256 bytes. *)

Lemma all_bytes_complete (c : ascii) : In c all_bytes.
Proof.
  unfold all_bytes. apply in_map_iff. exists (N.to_nat (N_of_ascii c)).
  rewrite N2Nat.id, ascii_N_embedding. split; [done|].
  apply in_seq. pose proof (N_ascii_bounded c). lia.
Qed.

Lemma canon_char_table :
  forallb (fun c => forallb (fun upper =>
    implb (validHeaderFieldByte c)
      (validHeaderFieldByte (canon_char upper c) &&
       bool_decide (canon_char upper (canon_char upper c) = canon_char upper c)))
    [true; false]) all_bytes = true.
Proof. vm_compute. reflexivity. Qed.

Lemma canon_char_stable (upper : bool) (c : ascii) :
  validHeaderFieldByte c = true ->
  validHeaderFieldByte (canon_char upper c) = true /\
  canon_char upper (canon_char upper c) = canon_char upper c.
Proof.
  intros Hv. pose proof canon_char_table as Ht.
  rewrite forallb_forall in Ht. specialize (Ht c (all_bytes_complete c)).
  rewrite forallb_forall in Ht. specialize (Ht upper ltac:(destruct upper; simpl; auto)).
  rewrite Hv in Ht. simpl in Ht. apply andb_prop in Ht as [H1 H2].
  split; [done|]. by apply bool_decide_eq_true in H2.
Qed.

Lemma canon_loop_stable (upper : bool) (a : string) :
  all_chars validHeaderFieldByte a = true ->
  all_chars validHeaderFieldByte (canon_loop upper a) = true /\
  canon_loop upper (canon_loop upper a) = canon_loop upper a.
Proof.
  revert upper. induction a as [|c a IH]; intros upper Hv; [done|].
  cbn [all_chars] in Hv. apply andb_prop in Hv as [Hc Ha].
  destruct (canon_char_stable upper c Hc) as [Hc' Hcc].
  destruct (IH (is_dash (canon_char upper c)) Ha) as [Ha' Haa].
  cbn [canon_loop all_chars]. rewrite Hcc, Hc', Ha', Haa. done.
Qed.

(** [CanonicalMIMEHeaderKey] is idempotent: a canonical key is its own
    canonical form, so [Header.Set] and [Header.Get] of a key that has
    been canonicalized once address the same entry. *)
Theorem CanonicalMIMEHeaderKey_idempotent (s : string) :
  CanonicalMIMEHeaderKey (CanonicalMIMEHeaderKey s) = CanonicalMIMEHeaderKey s.
Proof.
  rewrite !CanonicalMIMEHeaderKey_spec. unfold canonical_spec.
  destruct (all_chars validHeaderFieldByte s) eqn:Hv; [|by rewrite Hv].
  destruct (canon_loop_stable true s Hv) as [-> ->]. done.
Qed.
