(* ===== verification/Middleware.v ===== *)
(** * The middleware's data and library calls: src/middleware.go

    The types the handlers share: the SAML engine the code calls
    ([ServiceProvider]: its key, URLs, metadata, [ParseResponse] and
    [MakeRedirectAuthenticationRequest]) as a record of operations, the
    struct [ServiceProviderMiddleware] (lines 30-34), the constants
    (36-37), the panic messages, and the library calls every handler
    makes: [pem.Decode] of the key and [url.Parse] of a configured URL,
    section parameters ([pem_decode] gives the block's bytes, [url_path]
    the parsed URL's path; [None] is Go's [nil], whose dereference
    panics), and [jwt.New(jwt.GetSigningMethod(alg))].  Durations and
    times are nanoseconds, as Go's [time] package counts them; the two
    clocks, [timeNow] of the package and jwt-go's [TimeFunc], are the
    fields of a [Clock].  The handlers are in [Authorize] and [Login]. *)

From S2P Require Import Prelude Codec Jwt Http.

(** ** The SAML engine the middleware calls *)

(** [AssertionAttribute]: one attribute of a verified assertion. *)
Record AssertionAttribute : Type := mkAttribute {
  FriendlyName : string;
  Name : string;
  Value : string
}.

(** The error of [ParseResponse]: an [*InvalidResponseError] (logged with
    its fields) or any other error. *)
Inductive ParseResponseError : Type :=
| InvalidResponseError (Response Now PrivateErr : string)
| OtherResponseError (msg : string).

(** [*ServiceProvider], as far as the middleware uses it. *)
Record ServiceProvider : Type := mkServiceProvider {
  Key : string;
  MetadataURL : string;
  AcsURL : string;
  (** [xml.MarshalIndent(sp.Metadata(), "", "  ")] *)
  Metadata : string;
  ParseResponse : Request -> string -> result (list AssertionAttribute) ParseResponseError;
  MakeRedirectAuthenticationRequest : string -> result string string
}.

(** ** The middleware *)

(** [IsAuthorizedFunc]: the verdict and the request as the function left
    it (it may set headers). *)
Definition IsAuthorizedFn : Type := Request -> go_result (bool * Request).

(** [AuthorizeFunc]: what it does to the response. *)
Definition AuthorizeFn : Type := Request -> list AssertionAttribute -> go_result (list effect).

(** [ServiceProviderMiddleware]; a [nil] callback is [None]. *)
Record ServiceProviderMiddleware : Type := mkMiddleware {
  SP : ServiceProvider;
  IsAuthorizedFunc : option IsAuthorizedFn;
  AuthorizeFunc : option AuthorizeFn
}.

(** [time.Second] and [time.Hour]: a [time.Duration] counts nanoseconds. *)
Definition Second : Z := 1000000000.
Definition Hour : Z := 3600 * Second.

(** A [time.Time] is given by its Unix time in nanoseconds. [t.Add(d)]
    adds the duration; [t.Unix()] is the floor of the seconds; and
    [int(d.Seconds())] truncates the seconds toward zero (for the
    durations of this file the float64 quotient is exact). *)
Definition Time_Add (t d : Z) : Z := t + d.
Definition Time_Unix (t : Z) : Z := t / Second.
Definition Duration_Seconds (d : Z) : Z := Z.quot d Second.

(** The two clocks: the package's [timeNow()] and jwt-go's [TimeFunc()],
    two [time.Time] readings; jwt-go compares the token's times with
    [TimeFunc().Unix()]. *)
Record Clock : Type := mkClock {
  timeNow : Z;
  jwtTimeFunc : Z
}.

Definition jwt_now (clk : Clock) : Z := Time_Unix (jwtTimeFunc clk).

(** [const cookieMaxAge = time.Hour] and [cookieName]. *)
Definition cookieMaxAge : Z := Hour.

Definition cookieName : string := "token".

Definition nil_dereference : string :=
  "runtime error: invalid memory address or nil pointer dereference".

Definition x_saml_panic : string :=
  "X-Saml-* headers should not exist when this function is called".

Definition wrap_panic : string :=
  "don't wrap ServiceProviderMiddleware with RequireAccountMiddleware".

Definition relay_state_panic : string :=
  "interface conversion: interface {} is not string".

Definition signing_panic (e : signing_error) : string :=
  match e with
  | ErrInvalidKey => "key is invalid"
  | NoneSignatureTypeDisallowed => "'none' signature type is not allowed"
  end.

Section Library.
Context {SC : SegmentCodec} {OC : ObjectCodec} {HM : Hmac}.

(** [pem.Decode]: the bytes of the first block, [nil] when there is none. *)
Variable pem_decode : string -> option string.
(** [url.Parse(s)]: the path of the parsed URL, [nil] on a parse error. *)
Variable url_path : string -> option string.

(** [secretBlock.Bytes] with [secretBlock, _ := pem.Decode([]byte(Key))]. *)
Definition secret_bytes (sp : ServiceProvider) : go_result string :=
  match pem_decode (Key sp) with
  | Some b => Ret b
  | None => Panic nil_dereference
  end.

(** The key functions of both [jwt.Parse] calls. *)
Definition secret_keyfunc (sp : ServiceProvider) : Keyfunc :=
  fun _ => b <-? secret_bytes sp ;; Ret (Ok b).

(** [u, _ := url.Parse(s); u.Path]. *)
Definition parse_url_path (s : string) : go_result string :=
  match url_path s with
  | Some p => Ret p
  | None => Panic nil_dereference
  end.

(** [jwt.New(jwt.GetSigningMethod(alg))]; a [nil] method panics in [New]. *)
Definition jwt_New (alg : string) : go_result Token :=
  match GetSigningMethod alg with
  | Some m => Ret (New m)
  | None => Panic nil_dereference
  end.

End Library.

(** ** Lemmas *)

Section Proofs.
Context {SC : SegmentCodec} {OC : ObjectCodec} {HM : Hmac}.
Variable pem_decode : string -> option string.

Lemma secret_keyfunc_key (sp : ServiceProvider) (key : string) :
  pem_decode (Key sp) = Some key -> forall t, secret_keyfunc pem_decode sp t = Ret (Ok key).
Proof. intros Hk t. unfold secret_keyfunc, secret_bytes. by rewrite Hk. Qed.

Lemma secret_bytes_key (sp : ServiceProvider) (key : string) :
  pem_decode (Key sp) = Some key -> secret_bytes pem_decode sp = Ret key.
Proof. intros Hk. unfold secret_bytes. by rewrite Hk. Qed.

Lemma jwt_New_HS256 : jwt_New "HS256" = Ret (New (SM_HMAC SHA256)).
Proof. reflexivity. Qed.

Lemma SignedString_HMAC_Ok (t : Token) (h : hash_alg) (key : string) :
  Method t = SM_HMAC h -> exists s, SignedString t key = Ok s.
Proof. intros Hm. rewrite (SignedString_HMAC t h key Hm). eauto. Qed.

(** The expiry of a session issued at [t]: one hour of whole seconds
    later, whatever the fraction of a second [t] carries. *)
Lemma Time_Unix_Add_cookieMaxAge (t : Z) :
  Time_Unix (Time_Add t cookieMaxAge) = (Time_Unix t + Duration_Seconds cookieMaxAge)%Z.
Proof.
  unfold Time_Unix, Time_Add, cookieMaxAge, Hour, Duration_Seconds.
  rewrite Z.quot_mul by (unfold Second; lia). by rewrite Z.div_add by (unfold Second; lia).
Qed.

Lemma cookieMaxAge_seconds : Duration_Seconds cookieMaxAge = 3600%Z.
Proof. reflexivity. Qed.

End Proofs.
