(* ===== verification/Authorize.v ===== *)
(** * The authorization decision: src/middleware.go:173-201 and 213-228

    [DefaultIsAuthorized] (the session cookie, [jwt.Parse], the panic on
    inbound [X-Saml*] headers, the claims copied to [X-Saml-<claim>]
    headers) and [RequireAttribute], the gate on one trusted header.  The
    order of [range token.Claims], which Go leaves unspecified, is a
    parameter [range_claims], assumed in the proofs only to list the
    bindings of the map.  The theorems characterize the decision against
    the specification [Accepts] of [Jwt], and show what the trusted
    header namespace holds after it. *)

From S2P Require Import Prelude Codec Jwt Http Middleware.

(** ** Claim headers *)

(** The claim headers: [r.Header.Set("X-Saml-"+name, c)] for every string
    claim, in the order the map is visited. *)
Definition set_claim_header (h : Header) (kv : string * json_value) : Header :=
  match kv.2 with
  | JString c => Header_Set h ("X-Saml-" +:+ kv.1) c
  | _ => h
  end.

Definition set_claim_headers (claims : list (string * json_value)) (h : Header) : Header :=
  foldl set_claim_header h claims.

(** [strings.HasPrefix(name, "X-Saml")] for some header of the request. *)
Definition has_x_saml_header (h : Header) : bool :=
  existsb (fun n => HasPrefix n "X-Saml") (header_names h).

Section Authorize.
Context {SC : SegmentCodec} {OC : ObjectCodec} {HM : Hmac}.
Variable pem_decode : string -> option string.
(** The order in which [range token.Claims] visits the claims, which Go
    leaves unspecified; the theorems hold for every order that lists the
    bindings of the map. *)
Variable range_claims : json_object -> list (string * json_value).

(** [DefaultIsAuthorized] (src/middleware.go:173-201). *)
Definition DefaultIsAuthorized (m : ServiceProviderMiddleware) (clk : Clock)
    : IsAuthorizedFn :=
  fun r =>
    match Cookie r cookieName with
    | None => Ret (false, r)
    | Some v =>
        res <-? Parse v (secret_keyfunc pem_decode (SP m)) (jwt_now clk) ;;
        match res with
        | Err _ => Ret (false, r)
        | Ok token =>
            if has_x_saml_header (req_header r) then Panic x_saml_panic
            else Ret (true, set_req_header r
                              (set_claim_headers (range_claims (Claims token)) (req_header r)))
        end
    end.

End Authorize.

(** [RequireAttribute(name, value)(handler)] (src/middleware.go:213-228). *)
Definition RequireAttribute (name value : string) (handler : Handler) : Handler :=
  fun r =>
    match req_header r !! CanonicalMIMEHeaderKey ("X-Saml-" +:+ name) with
    | Some values =>
        if existsb (fun v => bool_decide (v = value)) values then handler r
        else Ret [HttpError (StatusText StatusForbidden) StatusForbidden]
    | None => Ret [HttpError (StatusText StatusForbidden) StatusForbidden]
    end.

(** ** Lemmas on the claim headers *)

Lemma has_x_saml_header_spec (h : Header) :
  has_x_saml_header h = true <->
  exists k vs, h !! k = Some vs /\ HasPrefix k "X-Saml" = true.
Proof.
  unfold has_x_saml_header, header_names. rewrite existsb_exists. split.
  - intros (k & Hk & Hp). apply list_elem_of_In in Hk.
    apply list_elem_of_fmap in Hk as ([k' vs] & -> & Hin).
    apply elem_of_map_to_list in Hin. eauto.
  - intros (k & vs & Hk & Hp). exists k. split; [|done].
    apply list_elem_of_In, list_elem_of_fmap. exists (k, vs).
    split; [done|]. by apply elem_of_map_to_list.
Qed.

Lemma has_x_saml_header_false (h : Header) (k : string) :
  has_x_saml_header h = false -> HasPrefix k "X-Saml" = true -> h !! k = None.
Proof.
  intros Hh Hk. destruct (h !! k) as [vs|] eqn:E; [|done].
  assert (has_x_saml_header h = true) by (apply has_x_saml_header_spec; eauto).
  congruence.
Qed.

Lemma set_claim_headers_app (l1 l2 : list (string * json_value)) (h : Header) :
  set_claim_headers (l1 ++ l2) h = set_claim_headers l2 (set_claim_headers l1 h).
Proof. unfold set_claim_headers. by rewrite foldl_app. Qed.

(** A header after the claims are copied is either an inbound one or the
    value of a string claim whose [X-Saml-] key canonicalizes to it. *)
Lemma set_claim_headers_lookup_inv (l : list (string * json_value)) (h : Header)
    (k : string) (vs : list string) :
  set_claim_headers l h !! k = Some vs ->
  h !! k = Some vs \/
  exists n c, In (n, JString c) l /\ CanonicalMIMEHeaderKey ("X-Saml-" +:+ n) = k /\ vs = [c].
Proof.
  revert h. induction l as [|[n v] l IH]; intros h Hk; [by left|].
  cbn [set_claim_headers foldl] in Hk. fold (set_claim_headers l) in Hk.
  destruct (IH _ Hk) as [Hh | (n' & c & Hin & Hc & ->)].
  - unfold set_claim_header in Hh. cbn [fst snd] in Hh.
    destruct v as [c| | |]; try by left.
    rewrite lookup_Header_Set in Hh. case_decide as Heq.
    + right. exists n, c. injection Hh as <-. split; [by left | done].
    + by left.
  - right. exists n', c. split; [by right | done].
Qed.

(** When the string claims whose key canonicalizes to [k] all carry [c]
    and there is one, the header [k] is [[c]], whatever the order. *)
Lemma set_claim_headers_lookup (l : list (string * json_value)) (h : Header)
    (k c : string) :
  (exists n, In (n, JString c) l /\ CanonicalMIMEHeaderKey ("X-Saml-" +:+ n) = k) ->
  (forall n c', In (n, JString c') l -> CanonicalMIMEHeaderKey ("X-Saml-" +:+ n) = k -> c' = c) ->
  set_claim_headers l h !! k = Some [c].
Proof.
  revert h. induction l as [|kv l IH] using rev_ind; intros h Hex Hall.
  { destruct Hex as (n & [] & _). }
  rewrite set_claim_headers_app. cbn [set_claim_headers foldl].
  destruct kv as [n v]. unfold set_claim_header. cbn [fst snd].
  assert ((exists n', In (n', JString c) l /\ CanonicalMIMEHeaderKey ("X-Saml-" +:+ n') = k) ->
          set_claim_headers l h !! k = Some [c]) as Hl.
  { intros Hex'. apply IH; [done|]. intros n' c' Hin Hk.
    apply (Hall n' c'); [apply in_or_app; by left | done]. }
  destruct Hex as (n' & Hin & Hk').
  apply in_app_or in Hin as [Hin|[Heq|[]]]; [|injection Heq as -> ->].
  - destruct v as [c'| | |]; [|apply Hl; eauto..].
    rewrite lookup_Header_Set. case_decide as Hk.
    + rewrite (Hall n c'); [done| |done]. apply in_or_app. right. by left.
    + apply Hl. eauto.
  - by rewrite lookup_Header_Set, decide_True.
Qed.

(** Headers no string claim maps to keep their inbound value. *)
Lemma set_claim_headers_lookup_other (l : list (string * json_value)) (h : Header)
    (k : string) :
  (forall n c, In (n, JString c) l -> CanonicalMIMEHeaderKey ("X-Saml-" +:+ n) <> k) ->
  set_claim_headers l h !! k = h !! k.
Proof.
  unfold set_claim_headers.
  revert h. induction l as [|[n v] l IH]; intros h Hno; [done|].
  cbn [foldl]. rewrite IH by (intros n' c Hin; apply (Hno n' c); by right).
  unfold set_claim_header. cbn [fst snd]. destruct v as [c| | |]; try done.
  rewrite lookup_Header_Set, decide_False; [done|]. apply (Hno n c). by left.
Qed.

(** C19: When no two string claims whose keys canonicalize alike disagree,
    the order in which [range token.Claims] visits them does not matter:
    the headers are the same. *)
Theorem set_claim_headers_order_independent (l1 l2 : list (string * json_value)) (h : Header) :
  l1 ≡ₚ l2 ->
  (forall n1 n2 c1 c2, In (n1, JString c1) l1 -> In (n2, JString c2) l1 ->
     CanonicalMIMEHeaderKey ("X-Saml-" +:+ n1) = CanonicalMIMEHeaderKey ("X-Saml-" +:+ n2) ->
     c1 = c2) ->
  set_claim_headers l1 h = set_claim_headers l2 h.
Proof.
  intros Hp Huniq. apply map_eq. intros k.
  assert (forall kv, In kv l1 <-> In kv l2) as Hin.
  { intros kv. rewrite <- !list_elem_of_In. by rewrite Hp. }
  destruct (existsb (fun kv => match kv.2 with
                               | JString _ => bool_decide (CanonicalMIMEHeaderKey ("X-Saml-" +:+ kv.1) = k)
                               | _ => false end) l1) eqn:He.
  - apply existsb_exists in He as [[n [c| | |]] [Hn Hk]]; try done.
    apply bool_decide_eq_true in Hk. cbn in Hk.
    rewrite !(set_claim_headers_lookup _ _ k c); try done.
    + exists n. split; [by apply Hin|done].
    + intros n' c' Hn' Hk'. apply (Huniq n' n); [by apply Hin|done|congruence].
    + eauto.
    + intros n' c' Hn' Hk'. apply (Huniq n' n); [done|done|congruence].
  - assert (forall n c, In (n, JString c) l1 -> CanonicalMIMEHeaderKey ("X-Saml-" +:+ n) <> k)
      as Hno.
    { intros n c Hn Hk. apply not_true_iff_false in He. apply He, existsb_exists.
      exists (n, JString c). split; [done|]. cbn. by apply bool_decide_eq_true. }
    rewrite !set_claim_headers_lookup_other; [done| |].
    + intros n c Hn. apply (Hno n c). by apply Hin.
    + done.
Qed.

(** The claim visited last decides a header. *)
Lemma set_claim_headers_last (l : list (string * json_value)) (h : Header) (n c : string) :
  set_claim_headers (l ++ [(n, JString c)]) h !! CanonicalMIMEHeaderKey ("X-Saml-" +:+ n) = Some [c].
Proof.
  rewrite set_claim_headers_app. unfold set_claim_headers, set_claim_header. cbn.
  by rewrite lookup_Header_Set, decide_True.
Qed.

(** C20: Claims whose header keys collide (as [uid] and [UID], which both
    become [X-Saml-Uid]) are written in the order [range token.Claims]
    visits them, which Go leaves unspecified: for any two distinct string
    claims of a token whose keys collide, one visiting order of the
    token's claims leaves the first claim's value in the header and
    another the second's, so the identity the wrapped handler sees is
    decided by the map iteration order. *)
Theorem claim_header_collision (o : json_object) (h : Header) (n1 n2 c1 c2 : string) :
  o !! n1 = Some (JString c1) -> o !! n2 = Some (JString c2) -> n1 <> n2 ->
  CanonicalMIMEHeaderKey ("X-Saml-" +:+ n1) = CanonicalMIMEHeaderKey ("X-Saml-" +:+ n2) ->
  exists l1 l2, l1 ≡ₚ map_to_list o /\ l2 ≡ₚ map_to_list o /\
    set_claim_headers l1 h !! CanonicalMIMEHeaderKey ("X-Saml-" +:+ n1) = Some [c1] /\
    set_claim_headers l2 h !! CanonicalMIMEHeaderKey ("X-Saml-" +:+ n1) = Some [c2].
Proof.
  intros H1 H2 Hne Hkey.
  set (rest := map_to_list (delete n2 (delete n1 o))).
  assert (map_to_list o ≡ₚ (n1, JString c1) :: (n2, JString c2) :: rest) as Hp.
  { rewrite <- (map_to_list_delete o n1 _ H1). constructor.
    symmetry. apply map_to_list_delete. by rewrite lookup_delete_ne. }
  exists ((rest ++ [(n2, JString c2)]) ++ [(n1, JString c1)]),
    ((rest ++ [(n1, JString c1)]) ++ [(n2, JString c2)]).
  rewrite Hp. split_and!; [solve_Permutation|solve_Permutation| |].
  - apply set_claim_headers_last.
  - rewrite Hkey. apply set_claim_headers_last.
Qed.

(** ** The decision *)

Section Proofs.
Context {SC : SegmentCodec} {OC : ObjectCodec} {HM : Hmac}.
Variable pem_decode : string -> option string.
Variable range_claims : json_object -> list (string * json_value).
(** [range] visits each binding of the map once. *)
Hypothesis range_claims_perm : forall o, range_claims o ≡ₚ map_to_list o.

Lemma range_claims_In (o : json_object) (n : string) (x : json_value) :
  In (n, x) (range_claims o) <-> o !! n = Some x.
Proof. by rewrite <- list_elem_of_In, range_claims_perm, elem_of_map_to_list. Qed.

(** [DefaultIsAuthorized] once the cookie has been parsed. *)
Lemma DefaultIsAuthorized_parsed (m : ServiceProviderMiddleware) (clk : Clock) (r : Request)
    (v : string) (res : result Token validation_error) :
  Cookie r cookieName = Some v ->
  Parse v (secret_keyfunc pem_decode (SP m)) (jwt_now clk) = Ret res ->
  DefaultIsAuthorized pem_decode range_claims m clk r =
    match res with
    | Err _ => Ret (false, r)
    | Ok t => if has_x_saml_header (req_header r) then Panic x_saml_panic
              else Ret (true, set_req_header r
                                (set_claim_headers (range_claims (Claims t)) (req_header r)))
    end.
Proof. intros Hc Hp. unfold DefaultIsAuthorized. by rewrite Hc, Hp. Qed.

(** [DefaultIsAuthorized] never panics on a request whose headers are
    clean, and says yes exactly for a cookie the parser accepts. *)
(** [RequireAttribute] on the request [DefaultIsAuthorized] passes on:
    when no other string claim shares the header key of [name], the
    route is served exactly when the claim [name] is the string [value]. *)
Lemma RequireAttribute_claim_headers (c : json_object) (name value : string)
    (handler : Handler) (r : Request) :
  has_x_saml_header (req_header r) = false ->
  (forall n x, c !! n = Some (JString x) ->
     CanonicalMIMEHeaderKey ("X-Saml-" +:+ n) = CanonicalMIMEHeaderKey ("X-Saml-" +:+ name) ->
     n = name) ->
  RequireAttribute name value handler
    (set_req_header r (set_claim_headers (range_claims c) (req_header r))) =
  if bool_decide (c !! name = Some (JString value))
  then handler (set_req_header r (set_claim_headers (range_claims c) (req_header r)))
  else Ret [HttpError "Forbidden" 403].
Proof.
  intros Hx Huniq. unfold RequireAttribute. cbn [req_header set_req_header].
  destruct (set_claim_headers _ _ !! _) as [vs|] eqn:Hl.
  - apply set_claim_headers_lookup_inv in Hl as [Hin | (n & x & Hin & Hkey & ->)].
    { by rewrite (has_x_saml_header_false _ _ Hx (HasPrefix_CanonicalMIMEHeaderKey_xsaml name))
        in Hin. }
    apply range_claims_In in Hin. rewrite (Huniq n x Hin Hkey) in Hin. rewrite Hin.
    cbn. rewrite orb_false_r. by repeat case_bool_decide; simplify_eq.
  - rewrite bool_decide_eq_false_2; [done|]. intros Hc.
    rewrite (set_claim_headers_lookup _ _ _ value) in Hl; [done| |].
    + exists name. split; [by apply range_claims_In|done].
    + intros n x Hin Hkey. apply range_claims_In in Hin.
      rewrite (Huniq n x Hin Hkey) in Hin. congruence.
Qed.

Lemma DefaultIsAuthorized_true_inv (m : ServiceProviderMiddleware) (clk : Clock)
    (r r' : Request) (key : string) :
  pem_decode (Key (SP m)) = Some key ->
  DefaultIsAuthorized pem_decode range_claims m clk r = Ret (true, r') ->
  exists v t, Cookie r cookieName = Some v /\ Accepts key (jwt_now clk) v t /\
    has_x_saml_header (req_header r) = false /\
    r' = set_req_header r (set_claim_headers (range_claims (Claims t)) (req_header r)).
Proof.
  intros Hk. pose proof (secret_keyfunc_key pem_decode _ _ Hk) as Hkf.
  unfold DefaultIsAuthorized. destruct (Cookie r cookieName) as [v|]; [|discriminate].
  destruct (Parse_no_panic v _ key (jwt_now clk) Hkf) as [[t|e] Hp]; rewrite Hp;
    simpl; [|discriminate].
  destruct (has_x_saml_header (req_header r)) eqn:Hx; [discriminate|].
  intros [= <-]. exists v, t. repeat split; try done.
  by apply (Parse_Accepts _ (secret_keyfunc pem_decode (SP m)) key).
Qed.

Lemma DefaultIsAuthorized_true_intro (m : ServiceProviderMiddleware) (clk : Clock)
    (r : Request) (key v : string) (t : Token) :
  pem_decode (Key (SP m)) = Some key ->
  Cookie r cookieName = Some v -> Accepts key (jwt_now clk) v t ->
  DefaultIsAuthorized pem_decode range_claims m clk r =
    if has_x_saml_header (req_header r) then Panic x_saml_panic
    else Ret (true, set_req_header r (set_claim_headers (range_claims (Claims t)) (req_header r))).
Proof.
  intros Hk Hc Ha. unfold DefaultIsAuthorized. rewrite Hc.
  apply (Parse_Accepts _ (secret_keyfunc pem_decode (SP m)) key) in Ha;
    [|by apply secret_keyfunc_key].
  by rewrite Ha.
Qed.

(** C2: The default authorization says yes exactly when the session cookie
    is a token the parser accepts under the configured key (spec §4.2
    steps 1-2) and the request carries no [X-Saml*] header (step 3); the
    request it passes on has the inbound headers and the claim headers. *)
Theorem DefaultIsAuthorized_spec (m : ServiceProviderMiddleware) (clk : Clock)
    (r r' : Request) (key : string) :
  pem_decode (Key (SP m)) = Some key ->
  DefaultIsAuthorized pem_decode range_claims m clk r = Ret (true, r') <->
  exists v t, Cookie r cookieName = Some v /\ Accepts key (jwt_now clk) v t /\
    has_x_saml_header (req_header r) = false /\
    r' = set_req_header r (set_claim_headers (range_claims (Claims t)) (req_header r)).
Proof.
  intros Hk. split; [by apply DefaultIsAuthorized_true_inv|].
  intros (v & t & Hc & Ha & Hx & ->).
  by rewrite (DefaultIsAuthorized_true_intro _ _ _ key v t), Hx.
Qed.

(** C6: Every [X-Saml*] header of an authorized request carries the value of
    a string claim of the verified session token, under the canonical
    [X-Saml-<claim>] key: nothing of the inbound request survives in the
    trusted namespace (spec §3, TrustedAttributeSet). *)
Theorem DefaultIsAuthorized_trusted_namespace (m : ServiceProviderMiddleware)
    (clk : Clock) (r r' : Request) (key k : string) (vs : list string) :
  pem_decode (Key (SP m)) = Some key ->
  DefaultIsAuthorized pem_decode range_claims m clk r = Ret (true, r') ->
  HasPrefix k "X-Saml" = true ->
  req_header r' !! k = Some vs ->
  exists v t n c, Cookie r cookieName = Some v /\ Accepts key (jwt_now clk) v t /\
    Claims t !! n = Some (JString c) /\
    CanonicalMIMEHeaderKey ("X-Saml-" +:+ n) = k /\ vs = [c].
Proof.
  intros Hk Ha Hp Hl.
  destruct (DefaultIsAuthorized_true_inv _ _ _ _ _ Hk Ha) as (v & t & Hc & Hacc & Hx & ->).
  apply set_claim_headers_lookup_inv in Hl as [Hin | (n & c & Hin & Hkey & ->)].
  - by rewrite (has_x_saml_header_false _ _ Hx Hp) in Hin.
  - exists v, t, n, c. repeat split; try done.
    by apply range_claims_In.
Qed.

(** C7: A request that carries an [X-Saml*] header and a session cookie the
    parser accepts aborts with the panic of line 191 (spec §4.2 step 3). *)
Theorem DefaultIsAuthorized_inbound_panic (m : ServiceProviderMiddleware) (clk : Clock)
    (r : Request) (key v : string) (t : Token) :
  pem_decode (Key (SP m)) = Some key ->
  Cookie r cookieName = Some v -> Accepts key (jwt_now clk) v t ->
  has_x_saml_header (req_header r) = true ->
  DefaultIsAuthorized pem_decode range_claims m clk r = Panic x_saml_panic.
Proof.
  intros Hk Hc Ha Hx. by rewrite (DefaultIsAuthorized_true_intro _ _ _ key v t), Hx.
Qed.

(** C8: The header check runs only after the cookie verifies: a request with
    an [X-Saml*] header and no acceptable session cookie is not aborted;
    it is simply unauthorized, and goes on to the login redirect. *)
Theorem DefaultIsAuthorized_inbound_unchecked (m : ServiceProviderMiddleware)
    (clk : Clock) (r : Request) (key : string) :
  pem_decode (Key (SP m)) = Some key ->
  has_x_saml_header (req_header r) = true ->
  (forall v, Cookie r cookieName = Some v -> forall t, ~ Accepts key (jwt_now clk) v t) ->
  DefaultIsAuthorized pem_decode range_claims m clk r = Ret (false, r).
Proof.
  intros Hk Hx Hno. pose proof (secret_keyfunc_key pem_decode _ _ Hk) as Hkf.
  unfold DefaultIsAuthorized. destruct (Cookie r cookieName) as [v|] eqn:Hc; [|done].
  destruct (Parse_no_panic v _ key (jwt_now clk) Hkf) as [[t|e] Hp]; rewrite Hp; [|done].
  exfalso. apply (Hno v eq_refl t). by apply (Parse_Accepts _ _ key _ _ Hkf) in Hp.
Qed.

(** C17: Given a session cookie the parser accepts and a clean request, the
    request is authorized and each string claim whose header key no
    other string claim shares is copied to [X-Saml-<claim>] (spec §8,
    fifth property). *)
Theorem DefaultIsAuthorized_claim_header (m : ServiceProviderMiddleware) (clk : Clock)
    (r : Request) (key v n c : string) (t : Token) :
  pem_decode (Key (SP m)) = Some key ->
  Cookie r cookieName = Some v -> Accepts key (jwt_now clk) v t ->
  has_x_saml_header (req_header r) = false ->
  Claims t !! n = Some (JString c) ->
  (forall n' c', Claims t !! n' = Some (JString c') ->
     CanonicalMIMEHeaderKey ("X-Saml-" +:+ n') = CanonicalMIMEHeaderKey ("X-Saml-" +:+ n) ->
     c' = c) ->
  exists r', DefaultIsAuthorized pem_decode range_claims m clk r = Ret (true, r') /\
    req_header r' !! CanonicalMIMEHeaderKey ("X-Saml-" +:+ n) = Some [c].
Proof.
  intros Hk Hc Ha Hx Hn Huniq.
  rewrite (DefaultIsAuthorized_true_intro _ _ _ key v t), Hx by done.
  eexists. split; [reflexivity|]. simpl. apply set_claim_headers_lookup.
  - exists n. split; [|done]. by apply range_claims_In.
  - intros n' c' Hin Hkey. apply (Huniq n'); [|done].
    by apply range_claims_In.
Qed.

(** C9: A session cookie signed under another key whose HMAC differs is not
    a session: [DefaultIsAuthorized] says no and leaves the request as it
    is, whatever its headers (forging a session needs the key). *)
Theorem DefaultIsAuthorized_wrong_key (m : ServiceProviderMiddleware) (clk : Clock)
    (r : Request) (t : Token) (h : hash_alg) (key key' s : string) :
  pem_decode (Key (SP m)) = Some key ->
  Method t = SM_HMAC h -> Jwt.Header t !! "alg" = Some (JString (Alg (SM_HMAC h))) ->
  object_strings_ok marshal_ok (Jwt.Header t) ->
  hmac h key (SigningString t) <> hmac h key' (SigningString t) ->
  SignedString t key' = Ok s -> Cookie r cookieName = Some s ->
  DefaultIsAuthorized pem_decode range_claims m clk r = Ret (false, r).
Proof.
  intros Hk Hm Ha Hh Hne Hs Hc.
  destruct (Parse_wrong_key t h (secret_keyfunc pem_decode (SP m)) key' key s (jwt_now clk))
    as [e Hp]; try done; [by apply secret_keyfunc_key|].
  unfold DefaultIsAuthorized. by rewrite Hc, Hp.
Qed.


(** C15: The middleware issues HS256 tokens, but [jwt.Parse] takes the
    algorithm from the token's header: a session token signed under the
    key with any HMAC of the library (HS384, HS512) is accepted just the
    same (spec §2 asks for the algorithm to be fixed server-side). *)
Theorem DefaultIsAuthorized_any_hmac (m : ServiceProviderMiddleware) (clk : Clock)
    (r : Request) (h : hash_alg) (claims : json_object) (key s : string) :
  pem_decode (Key (SP m)) = Some key ->
  object_strings_ok marshal_ok claims ->
  exp_expired claims (jwt_now clk) = false -> nbf_pending claims (jwt_now clk) = false ->
  SignedString (mkToken (Jwt.Header (New (SM_HMAC h))) claims (SM_HMAC h) "") key = Ok s ->
  Cookie r cookieName = Some s -> has_x_saml_header (req_header r) = false ->
  DefaultIsAuthorized pem_decode range_claims m clk r =
    Ret (true, set_req_header r (set_claim_headers (range_claims claims) (req_header r))).
Proof.
  intros Hk Hok He Hn Hs Hc Hx.
  destruct (Parse_SignedString_New h claims (secret_keyfunc pem_decode (SP m)) key s
              (jwt_now clk)) as [sig Hparse]; try done; [by apply secret_keyfunc_key|].
  by rewrite (DefaultIsAuthorized_parsed _ _ _ _ _ Hc Hparse), Hx.
Qed.

End Proofs.
