(* ===== verification/Login.v ===== *)
(** * The login: src/middleware.go:42-159

    [RequireAccountMiddleware] (the authorization callback, the signed
    relay state, the redirect to the identity provider and the ACS loop
    guard), [DefaultAuthorizeFunc] (the relay state checked, the session
    token signed and set as a cookie) and [ServeHTTP] (the metadata and
    ACS routes).  The theorems cover every branch of the three handlers,
    then compose them the way a deployment composes them: the session a
    login establishes and how long it lasts, the attribute gate behind
    the account middleware, and the relay state of the login redirect
    used as a session cookie. *)

From S2P Require Import Prelude Codec Jwt Http Middleware Authorize.

(** The session token's claims: one per attribute, then [exp]. *)
Definition attribute_claims (t : Token) (attrs : list AssertionAttribute) : Token :=
  foldl (fun t a => SetClaim t (FriendlyName a) (JString (Value a))) t attrs.

Section Login.
Context {SC : SegmentCodec} {OC : ObjectCodec} {HM : Hmac}.
Variable pem_decode : string -> option string.
Variable url_path : string -> option string.
Variable range_claims : json_object -> list (string * json_value).

(** [RequireAccountMiddleware(handler)] (src/middleware.go:81-119). *)
Definition RequireAccountMiddleware (m : ServiceProviderMiddleware) (clk : Clock)
    (handler : Handler) : Handler :=
  fun r0 =>
    let isAuthorized := match IsAuthorizedFunc m with
                        | Some f => f
                        | None => DefaultIsAuthorized pem_decode range_claims m clk
                        end in
    res <-? isAuthorized r0 ;;
    let '(ok, r) := res in
    if ok then handler r
    else
      relayState <-? jwt_New "HS256" ;;
      let relayState := SetClaim relayState "uri" (JString (req_url r)) in
      key <-? secret_bytes pem_decode (SP m) ;;
      match SignedString relayState key with
      | Err e => Panic (signing_panic e)
      | Ok signedRelayState =>
          match MakeRedirectAuthenticationRequest (SP m) signedRelayState with
          | Err msg => Ret [HttpError msg StatusInternalServerError]
          | Ok redirectURL =>
              acsPath <-? parse_url_path url_path (AcsURL (SP m)) ;;
              if decide (req_path r = acsPath) then Panic wrap_panic
              else Ret [Redirect redirectURL StatusFound]
          end
      end.

(** [DefaultAuthorizeFunc] (src/middleware.go:125-159).  The relay state
    gives [Some uri], or [None] for the early 403 return. *)
Definition relay_redirect_uri (m : ServiceProviderMiddleware) (clk : Clock)
    (r : Request) : go_result (option string) :=
  if decide (FormGet r "RelayState" <> "") then
    res <-? Parse (FormGet r "RelayState") (secret_keyfunc pem_decode (SP m)) (jwt_now clk) ;;
    match res with
    | Err _ => Ret None
    | Ok relayState =>
        match Claims relayState !! "uri" with
        | Some (JString u) => Ret (Some u)
        | _ => Panic relay_state_panic
        end
    end
  else Ret (Some "/").

Definition session_cookie (signedToken : string) : HttpCookie :=
  {| cookie_name := cookieName; cookie_value := signedToken;
     cookie_max_age := Duration_Seconds cookieMaxAge; cookie_http_only := false; cookie_path := "/" |}.

Definition DefaultAuthorizeFunc (m : ServiceProviderMiddleware) (clk : Clock)
    : AuthorizeFn :=
  fun r attrs =>
    rd <-? relay_redirect_uri m clk r ;;
    match rd with
    | None => Ret [HttpError (StatusText StatusForbidden) StatusForbidden]
    | Some redirectURI =>
        token <-? jwt_New "HS256" ;;
        let token := SetClaim (attribute_claims token attrs) "exp"
                              (JNumber (Time_Unix (Time_Add (timeNow clk) cookieMaxAge))) in
        key <-? secret_bytes pem_decode (SP m) ;;
        match SignedString token key with
        | Err e => Panic (signing_panic e)
        | Ok signedToken =>
            Ret [SetCookie (session_cookie signedToken); Redirect redirectURI StatusFound]
        end
    end.

(** The log line of a failed [ParseResponse]. *)
Definition response_log (e : ParseResponseError) : list effect :=
  match e with
  | InvalidResponseError resp now priv => [LogInvalidResponse resp now priv]
  | OtherResponseError _ => []
  end.

(** [ServeHTTP] (src/middleware.go:42-75); [r.ParseForm()] has filled
    [req_form], and the request ID is [""]. *)
Definition ServeHTTP (m : ServiceProviderMiddleware) (clk : Clock) : Handler :=
  fun r =>
    metadataPath <-? parse_url_path url_path (MetadataURL (SP m)) ;;
    if decide (req_path r = metadataPath) then Ret [WriteBody (Metadata (SP m))]
    else
      acsPath <-? parse_url_path url_path (AcsURL (SP m)) ;;
      if decide (req_path r = acsPath) then
        match ParseResponse (SP m) r "" with
        | Err e => Ret (response_log e ++ [HttpError (StatusText StatusForbidden) StatusForbidden])
        | Ok attrs =>
            let authorizeFunc := match AuthorizeFunc m with
                                 | Some f => f
                                 | None => DefaultAuthorizeFunc m clk
                                 end in
            authorizeFunc r attrs
        end
      else NotFoundHandler r.

End Login.

(** ** The tokens the middleware issues, as data

    The claims [DefaultAuthorizeFunc] writes (lines 141-144): each
    attribute's value under its friendly name, a later attribute of the
    same name winning, then [exp]. *)
Definition attribute_map (o : json_object) (attrs : list AssertionAttribute) : json_object :=
  foldl (fun o a => <[FriendlyName a := JString (Value a)]> o) o attrs.

Definition session_claims (attrs : list AssertionAttribute) (exp : Z) : json_object :=
  <["exp" := JNumber exp]> (attribute_map ∅ attrs).

(** The attributes survive the JSON encoding. *)
Definition attributes_ok `{ObjectCodec} (attrs : list AssertionAttribute) : Prop :=
  Forall (fun a => marshal_ok (FriendlyName a) = true /\ marshal_ok (Value a) = true) attrs.

(** The redirect target: the site root without a relay state, the
    [uri] claim of a relay state the parser accepts. *)
Definition relay_target `{SegmentCodec} `{ObjectCodec} `{Hmac} (key : string) (now : Z) (r : Request) (u : string) : Prop :=
  (FormGet r "RelayState" = "" /\ u = "/") \/
  (FormGet r "RelayState" <> "" /\
   exists t, Accepts key now (FormGet r "RelayState") t /\ Claims t !! "uri" = Some (JString u)).

(** ** Lemmas *)

Section Proofs.
Context {SC : SegmentCodec} {OC : ObjectCodec} {HM : Hmac}.
Variable pem_decode : string -> option string.
Variable url_path : string -> option string.
Variable range_claims : json_object -> list (string * json_value).
Hypothesis range_claims_perm : forall o, range_claims o ≡ₚ map_to_list o.

Lemma lookup_uri_exp (u : string) (now : Z) :
  exp_expired (<["uri" := JString u]> ∅) now = false /\
  nbf_pending (<["uri" := JString u]> ∅) now = false.
Proof. split; reflexivity. Qed.

(** The relay state of a login redirect: it parses back, under the key
    and at any time whatever, to the one claim [uri]. *)
Lemma relay_state_parses (u key rs : string) (kf : Keyfunc) (now : Z) :
  (forall t, kf t = Ret (Ok key)) -> marshal_ok u = true ->
  SignedString (SetClaim (New (SM_HMAC SHA256)) "uri" (JString u)) key = Ok rs ->
  exists sig, Parse rs kf now =
    Ret (Ok (mkToken (Jwt.Header (New (SM_HMAC SHA256))) (<["uri" := JString u]> ∅)
                     (SM_HMAC SHA256) sig)).
Proof.
  intros Hkf Hu Hs. destruct (lookup_uri_exp u now) as [He Hn].
  apply (Parse_SignedString_New SHA256 _ kf key rs now Hkf); try done.
  apply object_strings_ok_insert; [apply object_strings_ok_empty| |done].
  by apply marshal_ok_ascii.
Qed.

(** The whole unauthorized branch of [RequireAccountMiddleware]. *)
Lemma RequireAccountMiddleware_unauthorized (m : ServiceProviderMiddleware) (clk : Clock)
    (handler : Handler) (r r' : Request) (key acs : string) :
  pem_decode (Key (SP m)) = Some key ->
  url_path (AcsURL (SP m)) = Some acs ->
  (match IsAuthorizedFunc m with Some f => f | None => DefaultIsAuthorized pem_decode range_claims m clk end)
    r = Ret (false, r') ->
  exists rs,
    SignedString (SetClaim (New (SM_HMAC SHA256)) "uri" (JString (req_url r'))) key = Ok rs /\
    RequireAccountMiddleware pem_decode url_path range_claims m clk handler r =
      match MakeRedirectAuthenticationRequest (SP m) rs with
      | Err msg => Ret [HttpError msg StatusInternalServerError]
      | Ok url => if decide (req_path r' = acs) then Panic wrap_panic
                  else Ret [Redirect url StatusFound]
      end.
Proof.
  intros Hk Ha Hauth.
  destruct (SignedString_HMAC_Ok (SetClaim (New (SM_HMAC SHA256)) "uri" (JString (req_url r')))
              SHA256 key eq_refl) as [rs Hrs].
  exists rs. split; [done|].
  unfold RequireAccountMiddleware. rewrite Hauth. cbn [go_bind].
  rewrite jwt_New_HS256. cbn [go_bind].
  rewrite (secret_bytes_key pem_decode _ key Hk). cbn [go_bind]. rewrite Hrs.
  destruct (MakeRedirectAuthenticationRequest (SP m) rs); [|done].
  unfold parse_url_path. by rewrite Ha.
Qed.

Lemma RequireAccountMiddleware_authorized (m : ServiceProviderMiddleware) (clk : Clock)
    (handler : Handler) (r r' : Request) :
  (match IsAuthorizedFunc m with Some f => f | None => DefaultIsAuthorized pem_decode range_claims m clk end)
    r = Ret (true, r') ->
  RequireAccountMiddleware pem_decode url_path range_claims m clk handler r = handler r'.
Proof. intros Ha. unfold RequireAccountMiddleware. by rewrite Ha. Qed.

Lemma attribute_claims_mk (h c : json_object) (meth : signing_method) (sig : string)
    (attrs : list AssertionAttribute) :
  attribute_claims (mkToken h c meth sig) attrs = mkToken h (attribute_map c attrs) meth sig.
Proof. revert c. induction attrs as [|a attrs IH]; intros c; [done|]. apply IH. Qed.

Lemma attribute_map_ok (c : json_object) (attrs : list AssertionAttribute) :
  object_strings_ok marshal_ok c -> attributes_ok attrs ->
  object_strings_ok marshal_ok (attribute_map c attrs).
Proof.
  revert c. induction attrs as [|a attrs IH]; intros c Hc Ha; [done|].
  apply Forall_cons in Ha as [[Hn Hv] Ha]. apply IH; [|done].
  by apply object_strings_ok_insert.
Qed.

Lemma attribute_map_strings (c : json_object) (attrs : list AssertionAttribute) (k : string)
    (v : json_value) :
  (forall v', c !! k = Some v' -> exists s, v' = JString s) ->
  attribute_map c attrs !! k = Some v -> exists s, v = JString s.
Proof.
  revert c. induction attrs as [|a attrs IH]; intros c Hc Hk; [eauto|].
  apply (IH (<[FriendlyName a := JString (Value a)]> c)); [|done].
  intros v'. rewrite lookup_insert. case_decide; [|auto].
  intros [= <-]. eauto.
Qed.

(** The claim of a name is the value of the last attribute of that name:
    the loop of lines 141-143 overwrites earlier values. *)
Lemma attribute_map_lookup (c : json_object) (attrs : list AssertionAttribute) (n : string) :
  attribute_map c attrs !! n =
    match last (filter (fun a => FriendlyName a = n) attrs) with
    | Some a => Some (JString (Value a))
    | None => c !! n
    end.
Proof.
  induction attrs as [|a attrs IH] using rev_ind; [done|].
  unfold attribute_map. rewrite foldl_app. fold (attribute_map c attrs). cbn [foldl].
  rewrite filter_app, filter_cons, filter_nil. case_decide as Hn.
  - by rewrite last_snoc, Hn, lookup_insert_eq.
  - by rewrite app_nil_r, lookup_insert_ne by congruence.
Qed.

(** A string claim of a session names an attribute. *)
Lemma session_claims_unique (attrs : list AssertionAttribute) (e : Z) (name : string) :
  name <> "exp" ->
  (forall a, In a attrs ->
     CanonicalMIMEHeaderKey ("X-Saml-" +:+ FriendlyName a) =
       CanonicalMIMEHeaderKey ("X-Saml-" +:+ name) -> FriendlyName a = name) ->
  forall n x, session_claims attrs e !! n = Some (JString x) ->
    CanonicalMIMEHeaderKey ("X-Saml-" +:+ n) = CanonicalMIMEHeaderKey ("X-Saml-" +:+ name) ->
    n = name.
Proof.
  intros _ Huniq n x. unfold session_claims. rewrite lookup_insert.
  case_decide; [done|]. rewrite attribute_map_lookup, lookup_empty.
  destruct (last _) as [a|] eqn:Hl; [|done]. intros _ Hkey.
  apply last_Some_elem_of, list_elem_of_filter in Hl as [<- Hin].
  apply Huniq; [by apply list_elem_of_In|done].
Qed.

(** The session claims hold the expiry and no numeric [nbf]. *)
Lemma session_claims_time (attrs : list AssertionAttribute) (exp now : Z) :
  exp_expired (session_claims attrs exp) now = Z.gtb now exp /\
  nbf_pending (session_claims attrs exp) now = false.
Proof.
  unfold session_claims, exp_expired, nbf_pending.
  rewrite lookup_insert_eq, lookup_insert_ne by done. split; [done|].
  destruct (attribute_map ∅ attrs !! "nbf") as [v|] eqn:Hv; [|done].
  destruct (attribute_map_strings ∅ attrs "nbf" v) as [s ->]; [|done|done].
  intros v'. by rewrite lookup_empty.
Qed.

Lemma session_claims_ok (attrs : list AssertionAttribute) (exp : Z) :
  attributes_ok attrs -> object_strings_ok marshal_ok (session_claims attrs exp).
Proof.
  intros Ha. apply object_strings_ok_insert; [|by apply marshal_ok_ascii|done].
  apply attribute_map_ok; [apply object_strings_ok_empty|done].
Qed.

Lemma SignedString_nonempty (t : Token) (key s : string) :
  SignedString t key = Ok s -> s <> "".
Proof.
  unfold SignedString. destruct (Sign _ _ _); [|discriminate]. intros [= <-] He.
  apply (f_equal String.length) in He. rewrite string_length_app in He. simpl in He. lia.
Qed.

(** The relay state signed for [u], posted back, designates [u]. *)
Lemma relay_state_target (u key rs : string) (now : Z) (r : Request) :
  is_ascii u = true ->
  SignedString (SetClaim (New (SM_HMAC SHA256)) "uri" (JString u)) key = Ok rs ->
  FormGet r "RelayState" = rs -> relay_target key now r u.
Proof.
  intros Hu Hs Hf. right. rewrite Hf. split; [exact (SignedString_nonempty _ key rs Hs)|].
  destruct (relay_state_parses u key rs (fun _ => Ret (Ok key)) now) as [sig Hp];
    [done|by apply marshal_ok_ascii|done|].
  eexists. split; [by apply (Parse_Accepts _ (fun _ => Ret (Ok key)) key _ _ (fun _ => eq_refl))|].
  cbn. by rewrite lookup_insert_eq.
Qed.

Lemma relay_redirect_uri_forged (m : ServiceProviderMiddleware) (clk : Clock) (r : Request)
    (key : string) :
  pem_decode (Key (SP m)) = Some key ->
  FormGet r "RelayState" <> "" ->
  (forall t, ~ Accepts key (jwt_now clk) (FormGet r "RelayState") t) ->
  relay_redirect_uri pem_decode m clk r = Ret None.
Proof.
  intros Hk Hne Hno. pose proof (secret_keyfunc_key pem_decode _ _ Hk) as Hkf.
  unfold relay_redirect_uri. rewrite decide_True by done.
  destruct (Parse_no_panic (FormGet r "RelayState") _ key (jwt_now clk) Hkf)
    as [[t|e] Hp]; rewrite Hp; [|done].
  exfalso. apply (Hno t). by apply (Parse_Accepts _ _ key _ _ Hkf) in Hp.
Qed.

Lemma relay_redirect_uri_target (m : ServiceProviderMiddleware) (clk : Clock) (r : Request)
    (key u : string) :
  pem_decode (Key (SP m)) = Some key ->
  relay_target key (jwt_now clk) r u ->
  relay_redirect_uri pem_decode m clk r = Ret (Some u).
Proof.
  intros Hk [[He ->] | [Hne (t & Ha & Hu)]]; unfold relay_redirect_uri.
  - rewrite He. by destruct (decide _).
  - rewrite decide_True by done.
    apply (Parse_Accepts _ (secret_keyfunc pem_decode (SP m)) key) in Ha;
      [|by apply secret_keyfunc_key].
    rewrite Ha. cbn [go_bind]. by rewrite Hu.
Qed.

Lemma session_token_eq (attrs : list AssertionAttribute) (e : Z) :
  SetClaim (attribute_claims (New (SM_HMAC SHA256)) attrs) "exp" (JNumber e) =
  mkToken (Jwt.Header (New (SM_HMAC SHA256))) (session_claims attrs e) (SM_HMAC SHA256) "".
Proof. unfold New. by rewrite attribute_claims_mk. Qed.

(** The issuing branch of [DefaultAuthorizeFunc]. *)
Lemma DefaultAuthorizeFunc_issue (m : ServiceProviderMiddleware) (clk : Clock) (r : Request)
    (attrs : list AssertionAttribute) (key u : string) :
  pem_decode (Key (SP m)) = Some key ->
  relay_redirect_uri pem_decode m clk r = Ret (Some u) ->
  exists s,
    SignedString (mkToken (Jwt.Header (New (SM_HMAC SHA256)))
                    (session_claims attrs (Time_Unix (Time_Add (timeNow clk) cookieMaxAge))) (SM_HMAC SHA256) "")
                 key = Ok s /\
    DefaultAuthorizeFunc pem_decode m clk r attrs =
      Ret [SetCookie (session_cookie s); Redirect u StatusFound].
Proof.
  intros Hk Hr.
  destruct (SignedString_HMAC_Ok (mkToken (Jwt.Header (New (SM_HMAC SHA256)))
              (session_claims attrs (Time_Unix (Time_Add (timeNow clk) cookieMaxAge))) (SM_HMAC SHA256) "")
              SHA256 key eq_refl) as [s Hs].
  exists s. split; [done|].
  unfold DefaultAuthorizeFunc. rewrite Hr. cbn [go_bind].
  rewrite jwt_New_HS256. cbn [go_bind]. rewrite session_token_eq.
  rewrite (secret_bytes_key pem_decode _ key Hk). cbn [go_bind]. by rewrite Hs.
Qed.

(** A cookie [DefaultAuthorizeFunc] sets is the signed session token. *)
Lemma DefaultAuthorizeFunc_cookie_inv (m : ServiceProviderMiddleware) (clk : Clock) (r : Request)
    (attrs : list AssertionAttribute) (effs : list effect) (c : HttpCookie) :
  DefaultAuthorizeFunc pem_decode m clk r attrs = Ret effs -> In (SetCookie c) effs ->
  exists key, pem_decode (Key (SP m)) = Some key /\ c = session_cookie (cookie_value c) /\
    SignedString (mkToken (Jwt.Header (New (SM_HMAC SHA256)))
                    (session_claims attrs (Time_Unix (Time_Add (timeNow clk) cookieMaxAge))) (SM_HMAC SHA256) "")
                 key = Ok (cookie_value c).
Proof.
  unfold DefaultAuthorizeFunc.
  destruct (relay_redirect_uri pem_decode m clk r) as [[u|]|]; cbn [go_bind]; [|by intros [= <-] [?|[]]|done].
  rewrite jwt_New_HS256. cbn [go_bind]. rewrite session_token_eq. unfold secret_bytes.
  destruct (pem_decode (Key (SP m))) as [key|]; cbn [go_bind]; [|done].
  destruct (SignedString _ key) as [s|e] eqn:Hs; [|done].
  intros [= <-] [Hc|[Hc|[]]]; [|done]. injection Hc as <-. by exists key.
Qed.

(** The ACS branch of [ServeHTTP]. *)
Lemma ServeHTTP_acs (m : ServiceProviderMiddleware) (clk : Clock) (r : Request) (mp ap : string) :
  url_path (MetadataURL (SP m)) = Some mp -> url_path (AcsURL (SP m)) = Some ap ->
  req_path r <> mp -> req_path r = ap ->
  ServeHTTP pem_decode url_path m clk r =
    match ParseResponse (SP m) r "" with
    | Err e => Ret (response_log e ++ [HttpError (StatusText StatusForbidden) StatusForbidden])
    | Ok attrs => (match AuthorizeFunc m with
                   | Some f => f
                   | None => DefaultAuthorizeFunc pem_decode m clk
                   end) r attrs
    end.
Proof.
  intros Hm Ha Hnm Hap. unfold ServeHTTP, parse_url_path. rewrite Hm. cbn [go_bind].
  rewrite decide_False by done. rewrite Ha. cbn [go_bind]. by rewrite decide_True.
Qed.

(** A session token parses to its claims up to its [exp] and is rejected
    after it. *)
Lemma session_token_parse (attrs : list AssertionAttribute) (kf : Keyfunc)
    (key s : string) (exp now : Z) :
  (forall t, kf t = Ret (Ok key)) -> attributes_ok attrs ->
  SignedString (mkToken (Jwt.Header (New (SM_HMAC SHA256))) (session_claims attrs exp)
                  (SM_HMAC SHA256) "") key = Ok s ->
  ((now <= exp)%Z -> exists sig, Parse s kf now =
     Ret (Ok (mkToken (Jwt.Header (New (SM_HMAC SHA256))) (session_claims attrs exp)
                      (SM_HMAC SHA256) sig))) /\
  ((exp < now)%Z -> exists e, Parse s kf now = Ret (Err e)).
Proof.
  intros Hkf Ha Hs. destruct (session_claims_time attrs exp now) as [He Hn].
  pose proof (session_claims_ok attrs exp Ha) as Hok. split; intros Hnow.
  - apply (Parse_SignedString_New SHA256 _ kf key); try done.
    rewrite He, Z.gtb_ltb. by apply Z.ltb_ge.
  - apply (Parse_SignedString_expired (mkToken (Jwt.Header (New (SM_HMAC SHA256)))
             (session_claims attrs exp) (SM_HMAC SHA256) "") SHA256 kf key key); try done.
    cbn [Claims]. rewrite He, Z.gtb_ltb. by apply Z.ltb_lt.
Qed.

(** The header map of a token with the single claim [uri]. *)
Lemma set_claim_headers_uri (u : string) (h : Header) :
  set_claim_headers (range_claims (<["uri" := JString u]> (∅ : json_object))) h =
  Header_Set h "X-Saml-uri" u.
Proof.
  assert (range_claims (<["uri" := JString u]> ∅) = [("uri", JString u)]) as ->; [|done].
  apply Permutation_singleton_r. by rewrite range_claims_perm, insert_empty, map_to_list_singleton.
Qed.

(** ** The handlers, branch by branch *)

(** C11: An unauthorized request away from the ACS path is redirected to the
    URL the SAML engine builds from a relay state that carries the request
    URI and parses back under the key (spec §4.3, §8 sixth property); a
    failure to build the URL is a 500. *)
Theorem RequireAccountMiddleware_redirect (m : ServiceProviderMiddleware) (clk : Clock)
    (handler : Handler) (r r' : Request) (key acs : string) :
  pem_decode (Key (SP m)) = Some key ->
  url_path (AcsURL (SP m)) = Some acs ->
  (match IsAuthorizedFunc m with Some f => f | None => DefaultIsAuthorized pem_decode range_claims m clk end)
    r = Ret (false, r') ->
  req_path r' <> acs ->
  marshal_ok (req_url r') = true ->
  exists rs,
    (forall now, exists sig,
       Parse rs (secret_keyfunc pem_decode (SP m)) now =
       Ret (Ok (mkToken (Jwt.Header (New (SM_HMAC SHA256))) (<["uri" := JString (req_url r')]> ∅)
                        (SM_HMAC SHA256) sig))) /\
    RequireAccountMiddleware pem_decode url_path range_claims m clk handler r =
      match MakeRedirectAuthenticationRequest (SP m) rs with
      | Err msg => Ret [HttpError msg StatusInternalServerError]
      | Ok url => Ret [Redirect url StatusFound]
      end.
Proof.
  intros Hk Ha Hauth Hp Hu.
  destruct (RequireAccountMiddleware_unauthorized m clk handler r r' key acs Hk Ha Hauth)
    as (rs & Hrs & ->).
  exists rs. split.
  - intros now. apply (relay_state_parses _ key); [by apply secret_keyfunc_key|done|done].
  - destruct (MakeRedirectAuthenticationRequest (SP m) rs); [|done].
    by rewrite decide_False.
Qed.

(** C12: Wrapping the ACS endpoint itself: the unauthorized request for the
    ACS path panics with the loop message instead of redirecting (spec
    §4.3 step 3), but only once the redirect URL has been built: when the
    SAML engine fails, the answer is an ordinary 500. *)
Theorem RequireAccountMiddleware_acs_loop (m : ServiceProviderMiddleware) (clk : Clock)
    (handler : Handler) (r r' : Request) (key acs : string) :
  pem_decode (Key (SP m)) = Some key ->
  url_path (AcsURL (SP m)) = Some acs ->
  (match IsAuthorizedFunc m with Some f => f | None => DefaultIsAuthorized pem_decode range_claims m clk end)
    r = Ret (false, r') ->
  req_path r' = acs ->
  exists rs,
    RequireAccountMiddleware pem_decode url_path range_claims m clk handler r =
      match MakeRedirectAuthenticationRequest (SP m) rs with
      | Err msg => Ret [HttpError msg StatusInternalServerError]
      | Ok _ => Panic wrap_panic
      end.
Proof.
  intros Hk Ha Hauth Hp.
  destruct (RequireAccountMiddleware_unauthorized m clk handler r r' key acs Hk Ha Hauth)
    as (rs & _ & ->).
  exists rs. destruct (MakeRedirectAuthenticationRequest (SP m) rs); [|done].
  by rewrite decide_True.
Qed.

(** C21: A key that is not PEM ([pem.Decode] returns [nil]) makes the login
    redirect dereference [nil]: an unauthorized request panics instead
    of being redirected with a relay state signed by an unusable key. *)
Theorem RequireAccountMiddleware_nil_key (m : ServiceProviderMiddleware) (clk : Clock)
    (handler : Handler) (r r' : Request) :
  pem_decode (Key (SP m)) = None ->
  (match IsAuthorizedFunc m with Some f => f | None => DefaultIsAuthorized pem_decode range_claims m clk end)
    r = Ret (false, r') ->
  RequireAccountMiddleware pem_decode url_path range_claims m clk handler r = Panic nil_dereference.
Proof.
  intros Hk Hauth. unfold RequireAccountMiddleware. rewrite Hauth. cbn [go_bind].
  rewrite jwt_New_HS256. cbn [go_bind]. unfold secret_bytes. by rewrite Hk.
Qed.

(** C18: Routing of [ServeHTTP]: the metadata path serves the metadata, the
    ACS path answers a rejected assertion with the log line of an
    [InvalidResponseError] and a generic 403 (no detail to the client,
    spec §5), and every other path is 404. *)
Theorem ServeHTTP_routes (m : ServiceProviderMiddleware) (clk : Clock) (r : Request)
    (mp ap : string) :
  url_path (MetadataURL (SP m)) = Some mp -> url_path (AcsURL (SP m)) = Some ap ->
  (req_path r = mp -> ServeHTTP pem_decode url_path m clk r = Ret [WriteBody (Metadata (SP m))]) /\
  (forall e, req_path r <> mp -> req_path r = ap -> ParseResponse (SP m) r "" = Err e ->
     ServeHTTP pem_decode url_path m clk r =
       Ret (response_log e ++ [HttpError "Forbidden" 403])) /\
  (req_path r <> mp -> req_path r <> ap ->
     ServeHTTP pem_decode url_path m clk r = Ret [HttpError "404 page not found" 404]).
Proof.
  intros Hm Ha. split_and!.
  - intros Hp. unfold ServeHTTP, parse_url_path. rewrite Hm. cbn [go_bind].
    by rewrite decide_True.
  - intros e Hnm Hap He. by rewrite (ServeHTTP_acs m clk r mp ap), He.
  - intros Hnm Hna. unfold ServeHTTP, parse_url_path. rewrite Hm. cbn [go_bind].
    rewrite decide_False by done. rewrite Ha. cbn [go_bind]. by rewrite decide_False.
Qed.

(** C32: A configured URL that [url.Parse] rejects is dereferenced as
    [nil] (lines 43-44 and 51-52 drop the error): with a bad metadata URL
    every request to [ServeHTTP] panics, the ACS callback included; with
    a bad ACS URL every request off the metadata path does.  A login can
    then never complete, and the failure is a nil-pointer panic rather
    than a configuration error. *)
Theorem ServeHTTP_bad_url (m : ServiceProviderMiddleware) (clk : Clock) (r : Request) :
  (url_path (MetadataURL (SP m)) = None ->
   ServeHTTP pem_decode url_path m clk r = Panic nil_dereference) /\
  (forall mp, url_path (MetadataURL (SP m)) = Some mp -> req_path r <> mp ->
   url_path (AcsURL (SP m)) = None ->
   ServeHTTP pem_decode url_path m clk r = Panic nil_dereference).
Proof.
  split; [intros Hm|intros mp Hm Hn Ha]; unfold ServeHTTP, parse_url_path; rewrite Hm; [done|].
  cbn [go_bind]. rewrite decide_False by done. by rewrite Ha.
Qed.

(** C10: A callback with a verified assertion but a relay state the parser
    does not accept (forged, expired or signed with another key) is
    answered 403, not redirected to the root (spec §4.4 step 2, §8). *)
Theorem ServeHTTP_forged_relay_state (m : ServiceProviderMiddleware) (clk : Clock)
    (r : Request) (attrs : list AssertionAttribute) (key mp ap : string) :
  pem_decode (Key (SP m)) = Some key ->
  url_path (MetadataURL (SP m)) = Some mp -> url_path (AcsURL (SP m)) = Some ap ->
  req_path r <> mp -> req_path r = ap ->
  ParseResponse (SP m) r "" = Ok attrs -> AuthorizeFunc m = None ->
  FormGet r "RelayState" <> "" ->
  (forall t, ~ Accepts key (jwt_now clk) (FormGet r "RelayState") t) ->
  ServeHTTP pem_decode url_path m clk r = Ret [HttpError "Forbidden" 403].
Proof.
  intros Hk Hm Ha Hnm Hap Hp Hf Hne Hno.
  rewrite (ServeHTTP_acs m clk r mp ap) by done. rewrite Hp, Hf.
  unfold DefaultAuthorizeFunc. by rewrite (relay_redirect_uri_forged m clk r key).
Qed.

(** C16: The callback reads [relayState.Claims["uri"].(string)] without the
    comma-ok form: a relay state that verifies but has no string [uri]
    claim (a session cookie replayed as [RelayState], say) makes the type
    assertion panic, where a rejected relay state gets a 403. *)
Theorem ServeHTTP_relay_state_without_uri (m : ServiceProviderMiddleware) (clk : Clock)
    (r : Request) (attrs : list AssertionAttribute) (key mp ap : string) (t : Token) :
  pem_decode (Key (SP m)) = Some key ->
  url_path (MetadataURL (SP m)) = Some mp -> url_path (AcsURL (SP m)) = Some ap ->
  req_path r <> mp -> req_path r = ap ->
  ParseResponse (SP m) r "" = Ok attrs -> AuthorizeFunc m = None ->
  FormGet r "RelayState" <> "" ->
  Accepts key (jwt_now clk) (FormGet r "RelayState") t ->
  (forall u, Claims t !! "uri" <> Some (JString u)) ->
  ServeHTTP pem_decode url_path m clk r = Panic relay_state_panic.
Proof.
  intros Hk Hm Ha Hnm Hap Hp Hauth Hne Hacc Hnu.
  rewrite (ServeHTTP_acs _ _ _ mp ap), Hp, Hauth by done.
  unfold DefaultAuthorizeFunc, relay_redirect_uri. rewrite decide_True by done.
  apply (Parse_Accepts _ (secret_keyfunc pem_decode (SP m)) key) in Hacc;
    [|by apply secret_keyfunc_key].
  rewrite Hacc. cbn [go_bind].
  destruct (Claims t !! "uri") as [[u| | |]|] eqn:Hu; try done.
  by destruct (Hnu u).
Qed.

(** ** The claims of a session *)

(** C27: The claims of a session token are typed as spec §9 asks: [exp]
    is the integer expiry, and every other claim is the string value of
    an attribute of that friendly name (so [DefaultIsAuthorized] copies
    the attributes and nothing else to [X-Saml-] headers); an attribute
    named [exp] is overwritten by the expiry. *)
Theorem session_claims_typed (attrs : list AssertionAttribute) (e : Z) (n : string)
    (v : json_value) :
  session_claims attrs e !! n = Some v ->
  (n = "exp" /\ v = JNumber e) \/
  (n <> "exp" /\ exists a, In a attrs /\ FriendlyName a = n /\ v = JString (Value a)).
Proof.
  unfold session_claims. rewrite lookup_insert. case_decide as Hn; [intros [= <-]; by left|].
  rewrite attribute_map_lookup, lookup_empty.
  destruct (last _) as [a|] eqn:Hl; [|done]. intros [= <-]. right. split; [done|].
  apply last_Some_elem_of, list_elem_of_filter in Hl as [Ha Hin].
  exists a. split_and!; [by apply list_elem_of_In|done|done].
Qed.

(** ** Round trips *)

(** C25: Round trip of the session token (spec §8, first property;
    §4.4 step 3): a cookie [DefaultAuthorizeFunc] sets is named [token],
    lives [cookieMaxAge] seconds, and decodes under the key function of
    [DefaultIsAuthorized] to exactly the claims it was built from, the
    attributes and [exp = timeNow + cookieMaxAge], at every time up to
    [exp]; after [exp] it is rejected. *)
Theorem DefaultAuthorizeFunc_cookie_roundtrip (m : ServiceProviderMiddleware) (clk : Clock)
    (r : Request) (attrs : list AssertionAttribute) (effs : list effect) (c : HttpCookie) :
  attributes_ok attrs ->
  DefaultAuthorizeFunc pem_decode m clk r attrs = Ret effs -> In (SetCookie c) effs ->
  cookie_name c = cookieName /\ cookie_max_age c = Duration_Seconds cookieMaxAge /\
  forall now,
    ((now <= Time_Unix (Time_Add (timeNow clk) cookieMaxAge))%Z ->
     exists t, Parse (cookie_value c) (secret_keyfunc pem_decode (SP m)) now = Ret (Ok t) /\
       Claims t = session_claims attrs (Time_Unix (Time_Add (timeNow clk) cookieMaxAge)) /\ Method t = SM_HMAC SHA256) /\
    ((Time_Unix (Time_Add (timeNow clk) cookieMaxAge) < now)%Z ->
     exists e, Parse (cookie_value c) (secret_keyfunc pem_decode (SP m)) now = Ret (Err e)).
Proof.
  intros Ha Hd Hin.
  destruct (DefaultAuthorizeFunc_cookie_inv m clk r attrs effs c Hd Hin) as (key & Hk & Hc & Hs).
  rewrite Hc. split_and!; [done|done|]. intros now.
  destruct (session_token_parse attrs _ key _ _ now (secret_keyfunc_key pem_decode _ _ Hk) Ha Hs)
    as [Hlive Hdead].
  split; [|done]. intros Hnow. destruct (Hlive Hnow) as [sig Hp]. by eexists.
Qed.

(** C28: The cookie and the token it carries expire together (spec
    §4.4 step 3, Max-Age matching the session lifetime): a cookie
    [DefaultAuthorizeFunc] sets has Max-Age [int(cookieMaxAge.Seconds())
    = 3600] and carries a token whose [exp] is [timeNow().Unix()] plus
    that Max-Age; since [Unix()] drops the fraction of a second, [exp]
    lies in the second before the instant [timeNow().Add(cookieMaxAge)]. *)
Theorem DefaultAuthorizeFunc_expiry_bounds (m : ServiceProviderMiddleware) (clk : Clock)
    (r : Request) (attrs : list AssertionAttribute) (effs : list effect) (c : HttpCookie) :
  DefaultAuthorizeFunc pem_decode m clk r attrs = Ret effs -> In (SetCookie c) effs ->
  cookie_max_age c = 3600%Z /\
  exists key t e, pem_decode (Key (SP m)) = Some key /\ SignedString t key = Ok (cookie_value c) /\
    Claims t !! "exp" = Some (JNumber e) /\
    e = (Time_Unix (timeNow clk) + cookie_max_age c)%Z /\
    (Time_Add (timeNow clk) cookieMaxAge - Second < e * Second <= Time_Add (timeNow clk) cookieMaxAge)%Z.
Proof.
  intros Hd Hin.
  destruct (DefaultAuthorizeFunc_cookie_inv m clk r attrs effs c Hd Hin) as (key & Hk & Hc & Hs).
  rewrite Hc. split; [done|]. do 3 eexists. split; [done|]. split; [exact Hs|].
  split; [cbn; unfold session_claims; by rewrite lookup_insert_eq|].
  split; [by rewrite Time_Unix_Add_cookieMaxAge|].
  unfold Time_Unix, Second. set (x := Time_Add _ _).
  pose proof (Z.mod_pos_bound x 1000000000). pose proof (Z.div_mod x 1000000000). lia.
Qed.

(** C26: Round trip of the relay state (spec §4.3 step 1, §4.4 step 2):
    the relay state [RequireAccountMiddleware] signs for an unauthorized
    request, posted back to the ACS path by the identity provider at any
    later time, makes [DefaultAuthorizeFunc] redirect to the URL of that
    request, query included. *)
Theorem relay_state_roundtrip (m : ServiceProviderMiddleware) (clk : Clock) (handler : Handler)
    (r r' : Request) (key acs : string) :
  pem_decode (Key (SP m)) = Some key -> url_path (AcsURL (SP m)) = Some acs ->
  (match IsAuthorizedFunc m with Some f => f | None => DefaultIsAuthorized pem_decode range_claims m clk end)
    r = Ret (false, r') ->
  req_path r' <> acs -> is_ascii (req_url r') = true ->
  exists rs,
    RequireAccountMiddleware pem_decode url_path range_claims m clk handler r =
      match MakeRedirectAuthenticationRequest (SP m) rs with
      | Err msg => Ret [HttpError msg StatusInternalServerError]
      | Ok url => Ret [Redirect url StatusFound]
      end /\
    forall clk' r2 attrs, FormGet r2 "RelayState" = rs ->
      exists s, DefaultAuthorizeFunc pem_decode m clk' r2 attrs =
        Ret [SetCookie (session_cookie s); Redirect (req_url r') StatusFound].
Proof.
  intros Hk Ha Hno Hp Hu.
  destruct (RequireAccountMiddleware_unauthorized m clk handler r r' key acs Hk Ha Hno)
    as (rs & Hrs & ->).
  exists rs. split.
  { destruct (MakeRedirectAuthenticationRequest (SP m) rs); [|done]. by rewrite decide_False. }
  intros clk' r2 attrs Hf.
  destruct (DefaultAuthorizeFunc_issue m clk' r2 attrs key (req_url r') Hk) as (s & _ & Hiss);
    [by apply (relay_redirect_uri_target _ _ _ key), (relay_state_target _ key rs)|].
  by exists s.
Qed.

(** ** Overridden callbacks *)

(** C29: The trusted namespace is checked only by the default callback:
    with an [IsAuthorizedFunc] of the caller's own (spec §4.2 allows one)
    that lets a request through without touching its headers, an inbound
    [X-Saml-<name>] header carrying [value] opens the route guarded by
    [RequireAttribute name value], although spec §3 and §4.5 say the gate
    reads only headers the middleware populated after proving the
    namespace absent from the inbound request. *)
Theorem RequireAttribute_custom_authorizer (m : ServiceProviderMiddleware) (clk : Clock)
    (handler : Handler) (r : Request) (f : IsAuthorizedFn) (name value : string)
    (vs : list string) :
  IsAuthorizedFunc m = Some f -> f r = Ret (true, r) ->
  req_header r !! CanonicalMIMEHeaderKey ("X-Saml-" +:+ name) = Some vs -> In value vs ->
  RequireAccountMiddleware pem_decode url_path range_claims m clk
    (RequireAttribute name value handler) r = handler r.
Proof.
  intros Hf Hr Hl Hin. unfold RequireAccountMiddleware. rewrite Hf, Hr. cbn.
  unfold RequireAttribute. rewrite Hl.
  replace (existsb _ vs) with true; [done|]. symmetry. apply existsb_exists.
  exists value. split; [done|]. by apply bool_decide_eq_true_2.
Qed.

(** ** Sessions *)

(** The login callback, and the cookie it sets as [DefaultIsAuthorized]
    sees it at a later time. *)
Lemma login_cookie (m : ServiceProviderMiddleware) (clk : Clock) (r : Request)
    (attrs : list AssertionAttribute) (key mp ap u : string) :
  pem_decode (Key (SP m)) = Some key ->
  url_path (MetadataURL (SP m)) = Some mp -> url_path (AcsURL (SP m)) = Some ap ->
  req_path r <> mp -> req_path r = ap ->
  ParseResponse (SP m) r "" = Ok attrs -> AuthorizeFunc m = None ->
  relay_target key (jwt_now clk) r u -> attributes_ok attrs ->
  exists s,
    ServeHTTP pem_decode url_path m clk r = Ret [SetCookie (session_cookie s); Redirect u StatusFound] /\
    forall clk' r2, Cookie r2 cookieName = Some s ->
      ((jwt_now clk' <= Time_Unix (Time_Add (timeNow clk) cookieMaxAge))%Z ->
       DefaultIsAuthorized pem_decode range_claims m clk' r2 =
         if has_x_saml_header (req_header r2) then Panic x_saml_panic
         else Ret (true, set_req_header r2 (set_claim_headers
                (range_claims (session_claims attrs (Time_Unix (Time_Add (timeNow clk) cookieMaxAge))))
                (req_header r2)))) /\
      ((Time_Unix (Time_Add (timeNow clk) cookieMaxAge) < jwt_now clk')%Z ->
       DefaultIsAuthorized pem_decode range_claims m clk' r2 = Ret (false, r2)).
Proof.
  intros Hk Hm Ha Hnm Hap Hp Hauth Hrt Hattrs.
  destruct (DefaultAuthorizeFunc_issue m clk r attrs key u Hk)
    as (s & Hs & Hiss); [by apply (relay_redirect_uri_target _ _ _ key)|].
  exists s. split.
  { by rewrite (ServeHTTP_acs _ _ _ mp ap), Hp, Hauth. }
  intros clk' r2 Hc.
  destruct (session_token_parse attrs _ key s (Time_Unix (Time_Add (timeNow clk) cookieMaxAge)) (jwt_now clk')
              (secret_keyfunc_key pem_decode _ _ Hk) Hattrs Hs) as [Hlive Hdead].
  split; intros Hnow.
  - destruct (Hlive Hnow) as [sig Hparse].
    by rewrite (DefaultIsAuthorized_parsed pem_decode range_claims _ _ _ _ _ Hc Hparse).
  - destruct (Hdead Hnow) as [e Hparse].
    by rewrite (DefaultIsAuthorized_parsed pem_decode range_claims _ _ _ _ _ Hc Hparse).
Qed.

(** C4: Login, then use: a callback with a verified assertion and a relay
    state for [u] sets a session cookie and redirects to [u]; a later
    request that carries that cookie and no [X-Saml*] header reaches the
    wrapped handler, with its string claims (the attributes) as [X-Saml-]
    headers, as long as jwt-go's clock reads at most [timeNow + cookieMaxAge]
    (the bound is inclusive: jwt-go rejects [now > exp]), and is sent to
    the login redirect after that (spec §4.4, §8). *)
Theorem login_session (m : ServiceProviderMiddleware) (clk : Clock) (r : Request)
    (attrs : list AssertionAttribute) (key mp ap u : string) :
  pem_decode (Key (SP m)) = Some key ->
  url_path (MetadataURL (SP m)) = Some mp -> url_path (AcsURL (SP m)) = Some ap ->
  req_path r <> mp -> req_path r = ap ->
  ParseResponse (SP m) r "" = Ok attrs -> AuthorizeFunc m = None ->
  IsAuthorizedFunc m = None ->
  relay_target key (jwt_now clk) r u -> attributes_ok attrs ->
  exists s,
    ServeHTTP pem_decode url_path m clk r = Ret [SetCookie (session_cookie s); Redirect u StatusFound] /\
    forall clk' handler r2,
      Cookie r2 cookieName = Some s -> has_x_saml_header (req_header r2) = false ->
      ((jwt_now clk' <= Time_Unix (Time_Add (timeNow clk) cookieMaxAge))%Z ->
       RequireAccountMiddleware pem_decode url_path range_claims m clk' handler r2 =
         handler (set_req_header r2 (set_claim_headers
                    (range_claims (session_claims attrs (Time_Unix (Time_Add (timeNow clk) cookieMaxAge))))
                    (req_header r2)))) /\
      ((Time_Unix (Time_Add (timeNow clk) cookieMaxAge) < jwt_now clk')%Z ->
       DefaultIsAuthorized pem_decode range_claims m clk' r2 = Ret (false, r2)).
Proof.
  intros Hk Hm Ha Hnm Hap Hp Hauth Hisa Hrt Hattrs.
  destruct (login_cookie m clk r attrs key mp ap u) as (s & Hsv & Huse); try done.
  exists s. split; [done|]. intros clk' handler r2 Hc Hx.
  destruct (Huse clk' r2 Hc) as [Hlive Hdead]. split; intros Hnow; [|by apply Hdead].
  apply RequireAccountMiddleware_authorized. by rewrite Hisa, (Hlive Hnow), Hx.
Qed.

(** C24: The attribute gate after a login keeps one value per attribute
    name: behind [RequireAccountMiddleware], [RequireAttribute name value]
    serves the holder of the session cookie exactly when the LAST
    attribute of the assertion named [name] has the value [value]; an
    earlier attribute of the same name with that value does not count
    (the claims are a map, lines 141-143, and [Header.Set] keeps one
    value, line 197), although spec §4.5 asks for "at least one value".
    The attribute names must not collide under the header-key
    canonicalization, and [name] is not the [exp] claim. *)
Theorem login_attribute_gate (m : ServiceProviderMiddleware) (clk : Clock) (r : Request)
    (attrs : list AssertionAttribute) (key mp ap u name value : string) :
  pem_decode (Key (SP m)) = Some key ->
  url_path (MetadataURL (SP m)) = Some mp -> url_path (AcsURL (SP m)) = Some ap ->
  req_path r <> mp -> req_path r = ap ->
  ParseResponse (SP m) r "" = Ok attrs -> AuthorizeFunc m = None ->
  IsAuthorizedFunc m = None ->
  relay_target key (jwt_now clk) r u -> attributes_ok attrs ->
  name <> "exp" ->
  (forall a, In a attrs ->
     CanonicalMIMEHeaderKey ("X-Saml-" +:+ FriendlyName a) =
       CanonicalMIMEHeaderKey ("X-Saml-" +:+ name) -> FriendlyName a = name) ->
  exists s,
    ServeHTTP pem_decode url_path m clk r = Ret [SetCookie (session_cookie s); Redirect u StatusFound] /\
    forall clk' handler r2,
      Cookie r2 cookieName = Some s -> has_x_saml_header (req_header r2) = false ->
      (jwt_now clk' <= Time_Unix (Time_Add (timeNow clk) cookieMaxAge))%Z ->
      RequireAccountMiddleware pem_decode url_path range_claims m clk'
        (RequireAttribute name value handler) r2 =
        if bool_decide (Value <$> last (filter (fun a => FriendlyName a = name) attrs) = Some value)
        then handler (set_req_header r2 (set_claim_headers
                (range_claims (session_claims attrs (Time_Unix (Time_Add (timeNow clk) cookieMaxAge))))
                (req_header r2)))
        else Ret [HttpError "Forbidden" 403].
Proof.
  intros Hk Hm Ha Hnm Hap Hp Hauth Hisa Hrt Hattrs Hexp Huniq.
  destruct (login_cookie m clk r attrs key mp ap u) as (s & Hsv & Huse); try done.
  exists s. split; [done|]. intros clk' handler r2 Hc Hx Hnow.
  destruct (Huse clk' r2 Hc) as [Hlive _].
  rewrite (RequireAccountMiddleware_authorized m clk' _ r2
             (set_req_header r2 (set_claim_headers
                (range_claims (session_claims attrs (Time_Unix (Time_Add (timeNow clk) cookieMaxAge)))) (req_header r2))))
    by (by rewrite Hisa, (Hlive Hnow), Hx).
  rewrite (RequireAttribute_claim_headers range_claims range_claims_perm) by
    (first [done | apply session_claims_unique; auto]).
  unfold session_claims. rewrite lookup_insert_ne by congruence.
  rewrite attribute_map_lookup, lookup_empty.
  destruct (last _) as [a|]; cbn; [|done].
  by repeat case_bool_decide; simplify_eq.
Qed.

(** ** The relay state is a session token *)

(** C1: Token confusion: the relay state [RequireAccountMiddleware] signs
    for an unauthenticated request (claims [{uri}] only, no [exp], the
    session key and algorithm) and hands to the client in the redirect is
    accepted as a session cookie, at every later time: set as cookie
    [token], it takes any request to the wrapped handler, authenticated
    as a user whose only attribute is [X-Saml-Uri]. *)
Theorem relay_state_is_session_token (m : ServiceProviderMiddleware) (clk : Clock)
    (handler : Handler) (r r' : Request) (key acs : string) :
  pem_decode (Key (SP m)) = Some key -> url_path (AcsURL (SP m)) = Some acs ->
  IsAuthorizedFunc m = None ->
  DefaultIsAuthorized pem_decode range_claims m clk r = Ret (false, r') ->
  req_path r' <> acs -> is_ascii (req_url r') = true ->
  exists rs,
    RequireAccountMiddleware pem_decode url_path range_claims m clk handler r =
      match MakeRedirectAuthenticationRequest (SP m) rs with
      | Err msg => Ret [HttpError msg StatusInternalServerError]
      | Ok url => Ret [Redirect url StatusFound]
      end /\
    forall clk' handler' r2,
      Cookie r2 cookieName = Some rs -> has_x_saml_header (req_header r2) = false ->
      RequireAccountMiddleware pem_decode url_path range_claims m clk' handler' r2 =
        handler' (set_req_header r2 (Header_Set (req_header r2) "X-Saml-uri" (req_url r'))).
Proof.
  intros Hk Ha Hisa Hno Hp Hu.
  destruct (RequireAccountMiddleware_unauthorized m clk handler r r' key acs
              Hk Ha) as (rs & Hrs & ->); [by rewrite Hisa|].
  exists rs. split.
  { destruct (MakeRedirectAuthenticationRequest (SP m) rs); [|done]. by rewrite decide_False. }
  intros clk' handler' r2 Hc Hx.
  destruct (relay_state_parses (req_url r') key rs (secret_keyfunc pem_decode (SP m))
              (jwt_now clk')) as [sig Hparse];
    [by apply secret_keyfunc_key|by apply marshal_ok_ascii|done|].
  apply RequireAccountMiddleware_authorized. rewrite Hisa.
  rewrite (DefaultIsAuthorized_parsed pem_decode range_claims _ _ _ _ _ Hc Hparse), Hx. cbn [Claims].
  by rewrite set_claim_headers_uri.
Qed.

(** ** Attribute guards behind the session check *)

Section Guard.
Variables (m : ServiceProviderMiddleware) (clk : Clock) (r : Request) (key v : string) (t : Token).

Hypothesis Hk : pem_decode (Key (SP m)) = Some key.

Hypothesis Hisa : IsAuthorizedFunc m = None.

Hypothesis Hc : Cookie r cookieName = Some v.

Hypothesis Hacc : Accepts key (jwt_now clk) v t.

Hypothesis Hx : has_x_saml_header (req_header r) = false.

Lemma guarded_request (handler : Handler) :
  RequireAccountMiddleware pem_decode url_path range_claims m clk handler r =
    handler (set_req_header r (set_claim_headers (range_claims (Claims t)) (req_header r))).
Proof.
  apply RequireAccountMiddleware_authorized. rewrite Hisa.
  by rewrite (DefaultIsAuthorized_true_intro pem_decode range_claims _ _ _ key v t), Hx.
Qed.

(** C13: A route guarded by [RequireAttribute name value] behind
    [RequireAccountMiddleware] is served when the verified session token
    has the string claim [name = value] and no other string claim whose
    header key collides with it disagrees (spec §8, sixth property). *)
Theorem RequireAttribute_session_admits (name value : string) (handler : Handler) :
  Claims t !! name = Some (JString value) ->
  (forall n c, Claims t !! n = Some (JString c) ->
     CanonicalMIMEHeaderKey ("X-Saml-" +:+ n) = CanonicalMIMEHeaderKey ("X-Saml-" +:+ name) ->
     c = value) ->
  RequireAccountMiddleware pem_decode url_path range_claims m clk (RequireAttribute name value handler) r =
    handler (set_req_header r (set_claim_headers (range_claims (Claims t)) (req_header r))).
Proof.
  intros Hn Huniq. rewrite guarded_request. unfold RequireAttribute. cbn [req_header set_req_header].
  rewrite (set_claim_headers_lookup _ _ _ value).
  - cbn. by rewrite bool_decide_eq_true_2.
  - exists name. split; [|done]. by apply (range_claims_In _ range_claims_perm).
  - intros n c Hin Hkey. apply (Huniq n); [|done].
    by apply (range_claims_In _ range_claims_perm).
Qed.

(** C14: The same route answers 403 when no string claim of the verified
    session token whose header key is [X-Saml-<name>] has the value: an
    inbound [X-Saml-] header cannot supply it, since the request that
    reached the guard has only the token's headers in that namespace. *)
Theorem RequireAttribute_session_denies (name value : string) (handler : Handler) :
  (forall n c, Claims t !! n = Some (JString c) ->
     CanonicalMIMEHeaderKey ("X-Saml-" +:+ n) = CanonicalMIMEHeaderKey ("X-Saml-" +:+ name) ->
     c <> value) ->
  RequireAccountMiddleware pem_decode url_path range_claims m clk (RequireAttribute name value handler) r =
    Ret [HttpError "Forbidden" 403].
Proof.
  intros Hno. rewrite guarded_request. unfold RequireAttribute. cbn [req_header set_req_header].
  destruct (set_claim_headers _ _ !! _) as [vs|] eqn:Hl; [|done].
  apply set_claim_headers_lookup_inv in Hl as [Hin | (n & c & Hin & Hkey & ->)].
  - by rewrite (has_x_saml_header_false _ _ Hx (HasPrefix_CanonicalMIMEHeaderKey_xsaml name)) in Hin.
  - apply (range_claims_In _ range_claims_perm) in Hin.
    cbn. rewrite bool_decide_eq_false_2; [done|]. by apply (Hno n).
Qed.

End Guard.

End Proofs.
