(* ===== verification/Session.v ===== *)
(** * The session state machine of the specification, and its refinement

    The spec describes a client's session as a state machine (§3):
    unauthenticated, redirected to the identity provider, authenticated
    (cookie set, redirected back) or rejected, and unauthenticated again
    once the session token expires.  [spec_step] is that
    machine, with what the client observes at each step; it keeps the
    session (attributes and expiry) and the pending request URI.

    [browser_step] is the same client against the code: a browser that
    holds a cookie jar and, during a login, the relay state the identity
    provider will post back, and that visits protected pages through
    [RequireAccountMiddleware] and returns to the ACS path of
    [ServeHTTP].  Its steps are defined by the responses of the modelled
    handlers.  [browser_trace_refines] is a forward simulation: for a
    client that sends no [X-Saml] header, every run of the code is a run
    of the specification with the same observations, as long as the two
    clocks of the code agree; [browser_step_progress] shows the code
    always answers such a client, without panicking.  [last_login] is the
    session a run of the specification holds, computed from the run;
    [served_last_login] transports that invariant to the code, and
    [login_reaches_page] shows a login runs to the served page.
    [login_loop] is a browser that follows the redirects, on fuel:
    [login_loop_terminates] and [login_loop_diverges] say when it reaches
    the page and when it logs in forever. *)

From S2P Require Import Prelude Codec Jwt Http Middleware Authorize Login.

(** ** The specification *)

(** A session: the attributes of the assertion and the expiry. *)
Definition session : Type := (list AssertionAttribute * Z)%type.

(** The session lifetime of §3: one hour, in seconds. *)
Definition session_lifetime : Z := 3600.

Record spec_state : Type := mkSpec {
  spec_session : option session;
  spec_pending : option string
}.

(** What the client does: visit a protected page (path and URL), or come
    back to the ACS path with the identity provider's verdict. *)
Inductive event : Type :=
| Visit (path url : string)
| Callback (verdict : result (list AssertionAttribute) ParseResponseError).

(** What the client sees: the protected page served with these request
    headers, a redirect to the identity provider, a session cookie and a
    redirect to a URI, or a 403 (with the operator log line). *)
Inductive observation : Type :=
| Served (h : Header)
| LoginRedirect
| SessionRedirect (uri : string)
| Forbidden.

Section Spec.
(** The trusted headers of a claim set. *)
Variable claim_headers : json_object -> Header.

(** §4.2-§4.4 at time [now]: a visit with a live session is served with
    the session's headers; any other visit starts a login for its URL; a
    verified assertion starts a session of [session_lifetime] and redirects
    to the pending URI (the root when there is none); a rejected
    assertion is a 403.  Either callback consumes the pending URI. *)
Inductive spec_step (now : Z) : spec_state -> event -> observation -> spec_state -> Prop :=
| spec_visit_served attrs e pend p u :
    (now <= e)%Z ->
    spec_step now (mkSpec (Some (attrs, e)) pend) (Visit p u)
      (Served (claim_headers (session_claims attrs e))) (mkSpec (Some (attrs, e)) pend)
| spec_visit_login s pend p u :
    (forall attrs e, s = Some (attrs, e) -> (e < now)%Z) ->
    spec_step now (mkSpec s pend) (Visit p u) LoginRedirect (mkSpec s (Some u))
| spec_callback_session s pend attrs :
    spec_step now (mkSpec s pend) (Callback (Ok attrs))
      (SessionRedirect (default "/" pend))
      (mkSpec (Some (attrs, now + session_lifetime)%Z) None)
| spec_callback_rejected s pend err :
    spec_step now (mkSpec s pend) (Callback (Err err)) Forbidden (mkSpec s None).

(** Runs of the specification: each step at its own time. *)
Inductive spec_trace : spec_state -> list (Z * event * observation) -> spec_state -> Prop :=
| spec_trace_nil a : spec_trace a [] a
| spec_trace_cons a now ev o a' tr a'' :
    spec_step now a ev o a' -> spec_trace a' tr a'' -> spec_trace a ((now, ev, o) :: tr) a''.
(** The session the machine holds after a run: the one the last
    verified assertion started, computed from the run alone. *)
Definition login_step (s : option session) (x : Z * event * observation) : option session :=
  match x with
  | (now, Callback (Ok attrs), _) => Some (attrs, now + session_lifetime)%Z
  | _ => s
  end.

Definition last_login (tr : list (Z * event * observation)) : option session :=
  foldl login_step None tr.
End Spec.

(** ** The code *)

(** A browser: the cookie it was given (name and value) and the relay
    state of a login under way. *)
Record browser : Type := mkBrowser {
  jar : option (string * string);
  relay : option string
}.

Definition jar_cookies (b : browser) : list (string * string) :=
  match jar b with Some nv => [nv] | None => [] end.

(** A visit: no headers, the jar's cookie. *)
Definition visit_request (b : browser) (path url : string) : Request :=
  mkRequest path url ∅ (jar_cookies b) ∅.

(** The identity provider posting back to the ACS path, with the relay
    state it was given. *)
Definition callback_request (b : browser) (acs : string) : Request :=
  mkRequest acs acs ∅ (jar_cookies b)
    (match relay b with Some rs => <["RelayState" := [rs]]> ∅ | None => ∅ end).

Section Browser.
Context {SC : SegmentCodec} {OC : ObjectCodec} {HM : Hmac}.
Variables pem_decode url_path : string -> option string.
Variable range_claims : json_object -> list (string * json_value).
Variable m : ServiceProviderMiddleware.
(** What the identity provider posts back as [RelayState] after a
    redirect to [target]. *)
Variable idp_relay : string -> string.

(** One step of the browser against the code at the clock [clk]: the
    observation is read off the response the handlers give.  A visit is
    served when, whatever the wrapped handler, the middleware runs it on
    [r']; it is a login when the middleware redirects, the browser then
    following the redirect to the identity provider. *)
Inductive browser_step (clk : Clock) : browser -> event -> observation -> browser -> Prop :=
| browser_served b p u r' :
    (forall h, RequireAccountMiddleware pem_decode url_path range_claims m clk h
                 (visit_request b p u) = h r') ->
    browser_step clk b (Visit p u) (Served (req_header r')) b
| browser_login b p u target :
    (forall h, RequireAccountMiddleware pem_decode url_path range_claims m clk h
                 (visit_request b p u) = Ret [Redirect target StatusFound]) ->
    browser_step clk b (Visit p u) LoginRedirect (mkBrowser (jar b) (Some (idp_relay target)))
| browser_session b acs attrs c u :
    url_path (AcsURL (SP m)) = Some acs ->
    ParseResponse (SP m) (callback_request b acs) "" = Ok attrs ->
    ServeHTTP pem_decode url_path m clk (callback_request b acs) =
      Ret [SetCookie c; Redirect u StatusFound] ->
    browser_step clk b (Callback (Ok attrs)) (SessionRedirect u)
      (mkBrowser (Some (cookie_name c, cookie_value c)) None)
| browser_rejected b acs err :
    url_path (AcsURL (SP m)) = Some acs ->
    ParseResponse (SP m) (callback_request b acs) "" = Err err ->
    ServeHTTP pem_decode url_path m clk (callback_request b acs) =
      Ret (response_log err ++ [HttpError "Forbidden" 403]) ->
    browser_step clk b (Callback (Err err)) Forbidden (mkBrowser (jar b) None).

(** Runs of the browser: each step at its own clock. *)
Inductive browser_trace : browser -> list (Clock * event * observation) -> browser -> Prop :=
| browser_trace_nil b : browser_trace b [] b
| browser_trace_cons b clk ev o b' tr b'' :
    browser_step clk b ev o b' -> browser_trace b' tr b'' ->
    browser_trace b ((clk, ev, o) :: tr) b''.
End Browser.

(** ** A browser following the redirects *)

Section Loop.
Context {SC : SegmentCodec} {OC : ObjectCodec} {HM : Hmac}.
Variables pem_decode url_path : string -> option string.
Variable range_claims : json_object -> list (string * json_value).
Variable m : ServiceProviderMiddleware.
Variable idp_relay : string -> string.
Variable acs : string.

(** The page behind [RequireAccountMiddleware]. *)
Definition served_probe : Handler := fun _ => Ret [WriteBody "served"].

(** What a browser following the redirects ends with: the page, a
    response that is neither the page, a login redirect nor a completed
    login (the loop is stuck), or the fuel spent after [n] completed
    logins. *)
Inductive loop_result : Type :=
| LoopServed (b : browser)
| LoopStuck
| LoopLogins (n : nat).

(** One more completed login. *)
Definition login_count (r : loop_result) : loop_result :=
  match r with
  | LoopLogins n => LoopLogins (S n)
  | _ => r
  end.

(** A browser asking for the page [u] at the clock [clk] and following
    the redirects: when the middleware sends it to the identity
    provider, the identity provider posts back to the ACS path, and when
    the callback sets a cookie and redirects (a completed login), the
    browser takes the cookie and follows the redirect back to [u]. One
    unit of fuel per round. *)
Fixpoint login_loop (fuel : nat) (clk : Clock) (b : browser) (p u : string) : loop_result :=
  match fuel with
  | O => LoopLogins 0
  | S fuel' =>
      match RequireAccountMiddleware pem_decode url_path range_claims m clk served_probe
              (visit_request b p u) with
      | Ret [WriteBody _] => LoopServed b
      | Ret [Redirect target _] =>
          match ServeHTTP pem_decode url_path m clk
                  (callback_request (mkBrowser (jar b) (Some (idp_relay target))) acs) with
          | Ret [SetCookie c; Redirect _ _] =>
              login_count
                (login_loop fuel' clk (mkBrowser (Some (cookie_name c, cookie_value c)) None) p u)
          | _ => LoopStuck
          end
      | _ => LoopStuck
      end
  end.
End Loop.

(** ** The simulation relation *)

Section Relation.
Context {SC : SegmentCodec} {OC : ObjectCodec} {HM : Hmac}.

(** The session token [DefaultAuthorizeFunc] signs, and the relay state
    [RequireAccountMiddleware] signs. *)
Definition session_token (attrs : list AssertionAttribute) (e : Z) : Token :=
  mkToken (Jwt.Header (New (SM_HMAC SHA256))) (session_claims attrs e) (SM_HMAC SHA256) "".

Definition relay_token (u : string) : Token :=
  SetClaim (New (SM_HMAC SHA256)) "uri" (JString u).

(** The browser's cookie is the signed session token of the spec's
    session, and its relay state the signed relay token of the pending
    URI. *)
Definition related (key : string) (b : browser) (a : spec_state) : Prop :=
  match spec_session a, jar b with
  | None, None => True
  | Some (attrs, e), Some (n, s) =>
      n = cookieName /\ attributes_ok attrs /\ SignedString (session_token attrs e) key = Ok s
  | _, _ => False
  end /\
  match spec_pending a, relay b with
  | None, None => True
  | Some u, Some rs => is_ascii u = true /\ SignedString (relay_token u) key = Ok rs
  | _, _ => False
  end.

(** The events an honest client produces: visits away from the ACS
    path to ASCII URLs, and assertions with ASCII attributes. *)
Definition honest (acs : string) (ev : event) : Prop :=
  match ev with
  | Visit p u => p <> acs /\ is_ascii u = true
  | Callback (Ok attrs) => attributes_ok attrs
  | Callback (Err _) => True
  end.
End Relation.

(** ** Runs of the specification *)

Section Runs.
Variable claim_headers : json_object -> Header.

(** Each step of the specification updates the session as [login_step]
    says. *)
Lemma spec_step_session (now : Z) (a a' : spec_state) (ev : event) (o : observation) :
  spec_step claim_headers now a ev o a' -> spec_session a' = login_step (spec_session a) (now, ev, o).
Proof. by destruct 1. Qed.

(** A page served in a run of the specification carries the headers of
    the session the run holds at that point, which is live. *)
Lemma spec_trace_served (a a' : spec_state) (pre post : list (Z * event * observation))
    (now : Z) (p u : string) (h : Header) :
  spec_trace claim_headers a (pre ++ (now, Visit p u, Served h) :: post) a' ->
  exists attrs e, foldl login_step (spec_session a) pre = Some (attrs, e) /\
    (now <= e)%Z /\ h = claim_headers (session_claims attrs e).
Proof.
  revert a. induction pre as [|[[t ev] o] pre IH]; intros a Htr; cbn [foldl app] in Htr |- *.
  - inversion Htr as [|? ? ? ? a1 ? ? Hs]; subst.
    inversion Hs; subst. by eexists _, _.
  - inversion Htr as [|? ? ? ? a1 ? ? Hs Htr']; subst.
    rewrite <- (spec_step_session _ _ _ _ _ Hs). by apply (IH a1).
Qed.
End Runs.

(** ** Refinement *)

Section Simulation.
Context {SC : SegmentCodec} {OC : ObjectCodec} {HM : Hmac}.
Variables pem_decode url_path : string -> option string.
Variable range_claims : json_object -> list (string * json_value).
Hypothesis range_claims_perm : forall o, range_claims o ≡ₚ map_to_list o.
Variable m : ServiceProviderMiddleware.
Variable idp_relay : string -> string.
Variables key acs md : string.
(** The deployment: a PEM key, distinct metadata and ACS paths, the
    default callbacks. *)
Hypothesis Hkey : pem_decode (Key (SP m)) = Some key.
Hypothesis Hacs : url_path (AcsURL (SP m)) = Some acs.
Hypothesis Hmd : url_path (MetadataURL (SP m)) = Some md.
Hypothesis Hmd_acs : md <> acs.
Hypothesis Hisa : IsAuthorizedFunc m = None.
Hypothesis Hauth : AuthorizeFunc m = None.
(** An identity provider that builds a redirect for every relay state
    and posts that relay state back. *)
Hypothesis Hidp : forall rs, exists target,
  MakeRedirectAuthenticationRequest (SP m) rs = Ok target /\ idp_relay target = rs.

Lemma served_request_unique (r1 r2 : Request) :
  (forall h : Handler, h r1 = h r2) -> r1 = r2.
Proof.
  intros H. specialize (H (fun r => if decide (r = r1) then Ret [] else Panic "")).
  cbn beta in H. rewrite decide_True in H by done. by destruct (decide (r2 = r1)).
Qed.

Lemma redirect_not_served (target : string) (r : Request) :
  ~ (forall h : Handler, h r = Ret [Redirect target StatusFound]).
Proof. intros H. by specialize (H (fun _ => Panic "")). Qed.

Lemma visit_cookie (b : browser) (p u s : string) :
  jar b = Some (cookieName, s) -> Cookie (visit_request b p u) cookieName = Some s.
Proof. intros Hj. unfold Cookie, visit_request, jar_cookies. rewrite Hj. reflexivity. Qed.

(** A visit with a live session is authorized, with the session's
    headers. *)
Lemma visit_authorized (clk : Clock) (b : browser) (a : spec_state) (attrs : list AssertionAttribute)
    (e : Z) (p u : string) :
  related key b a -> spec_session a = Some (attrs, e) -> (jwt_now clk <= e)%Z ->
  DefaultIsAuthorized pem_decode range_claims m clk (visit_request b p u) =
    Ret (true, set_req_header (visit_request b p u)
                 (set_claim_headers (range_claims (session_claims attrs e)) ∅)).
Proof.
  intros [Hs _] Ha Hnow. rewrite Ha in Hs.
  destruct (jar b) as [[n s]|] eqn:Hj; [|done]. destruct Hs as (-> & Hok & Hsig).
  destruct (session_token_parse attrs (secret_keyfunc pem_decode (SP m)) key s e
              (jwt_now clk) (secret_keyfunc_key pem_decode _ _ Hkey) Hok Hsig)
    as [Hlive _].
  destruct (Hlive Hnow) as [sig Hp].
  by rewrite (DefaultIsAuthorized_parsed pem_decode range_claims m clk _ s _ (visit_cookie b p u s Hj) Hp).
Qed.

(** A visit without a live session is not. *)
Lemma visit_unauthorized (clk : Clock) (b : browser) (a : spec_state) (p u : string) :
  related key b a ->
  (forall attrs e, spec_session a = Some (attrs, e) -> (e < jwt_now clk)%Z) ->
  DefaultIsAuthorized pem_decode range_claims m clk (visit_request b p u) =
    Ret (false, visit_request b p u).
Proof.
  intros [Hs _] Hexp. destruct (spec_session a) as [[attrs e]|] eqn:Ha.
  - destruct (jar b) as [[n s]|] eqn:Hj; [|done]. destruct Hs as (-> & Hok & Hsig).
    destruct (session_token_parse attrs (secret_keyfunc pem_decode (SP m)) key s e
                (jwt_now clk) (secret_keyfunc_key pem_decode _ _ Hkey) Hok Hsig)
      as [_ Hdead].
    destruct (Hdead (Hexp attrs e eq_refl)) as [err Hp].
    by rewrite (DefaultIsAuthorized_parsed pem_decode range_claims m clk _ s _ (visit_cookie b p u s Hj) Hp).
  - destruct (jar b) eqn:Hj; [done|].
    unfold DefaultIsAuthorized, Cookie, visit_request, jar_cookies. by rewrite Hj.
Qed.

(** The login redirect of an unauthorized visit, whatever the wrapped
    handler, and the relay state the identity provider posts back. *)
Lemma visit_login (clk : Clock) (b : browser) (p u : string) :
  DefaultIsAuthorized pem_decode range_claims m clk (visit_request b p u) =
    Ret (false, visit_request b p u) ->
  p <> acs ->
  exists target rs,
    (forall h, RequireAccountMiddleware pem_decode url_path range_claims m clk h
                 (visit_request b p u) = Ret [Redirect target StatusFound]) /\
    idp_relay target = rs /\ SignedString (relay_token u) key = Ok rs.
Proof.
  intros Hno Hp.
  destruct (SignedString_HMAC_Ok (relay_token u) SHA256 key eq_refl) as [rs Hrs].
  destruct (Hidp rs) as (target & Htarget & Hrel). exists target, rs.
  split_and!; [|done|done]. intros h.
  destruct (RequireAccountMiddleware_unauthorized pem_decode url_path range_claims m clk h
              (visit_request b p u) (visit_request b p u) key acs Hkey Hacs)
    as (rs' & Hrs' & ->); [by rewrite Hisa|].
  assert (rs' = rs) as -> by (unfold relay_token in Hrs; cbn [req_url visit_request] in Hrs'; congruence).
  by rewrite Htarget, decide_False.
Qed.

(** The relay state the browser brings back designates the pending URI,
    the root when there is none. *)
Lemma callback_relay_target (clk : Clock) (b : browser) (a : spec_state) :
  related key b a ->
  relay_target key (jwt_now clk) (callback_request b acs) (default "/" (spec_pending a)).
Proof.
  intros [_ Hr]. destruct b as [j [rs|]]; cbn [relay] in Hr;
    destruct (spec_pending a) as [u|]; try done.
  - destruct Hr as [Hu Hs]. apply (relay_state_target _ key rs); [done|done|].
    unfold FormGet. cbn. by rewrite lookup_insert_eq.
  - left. by unfold FormGet.
Qed.

(** The callback with a verified assertion sets the session cookie and
    redirects to the pending URI. *)
Lemma callback_session (clk : Clock) (b : browser) (a : spec_state)
    (attrs : list AssertionAttribute) :
  related key b a -> ParseResponse (SP m) (callback_request b acs) "" = Ok attrs ->
  exists s, SignedString (session_token attrs (Time_Unix (Time_Add (timeNow clk) cookieMaxAge))) key = Ok s /\
    ServeHTTP pem_decode url_path m clk (callback_request b acs) =
      Ret [SetCookie (session_cookie s); Redirect (default "/" (spec_pending a)) StatusFound].
Proof.
  intros Hrel Hp.
  destruct (DefaultAuthorizeFunc_issue pem_decode m clk (callback_request b acs) attrs key
              (default "/" (spec_pending a)) Hkey) as (s & Hs & Hiss);
    [apply (relay_redirect_uri_target pem_decode _ _ _ key); [done|by apply callback_relay_target]|].
  exists s. split; [done|].
  rewrite (ServeHTTP_acs pem_decode url_path m clk _ md acs Hmd Hacs); [|cbn; congruence|done].
  by rewrite Hp, Hauth.
Qed.

(** The callback with a rejected assertion is a 403. *)
Lemma callback_rejected (clk : Clock) (b : browser) (err : ParseResponseError) :
  ParseResponse (SP m) (callback_request b acs) "" = Err err ->
  ServeHTTP pem_decode url_path m clk (callback_request b acs) =
    Ret (response_log err ++ [HttpError "Forbidden" 403]).
Proof.
  intros Hp. rewrite (ServeHTTP_acs pem_decode url_path m clk _ md acs Hmd Hacs);
    [|cbn; congruence|done].
  by rewrite Hp.
Qed.

(** A visit either has a live session and runs the wrapped handler with
    the session's headers, or redirects to the identity provider, for
    every wrapped handler. *)
Lemma visit_cases (clk : Clock) (b : browser) (a : spec_state) (p u : string) :
  related key b a -> p <> acs ->
  (exists attrs e, spec_session a = Some (attrs, e) /\ (jwt_now clk <= e)%Z /\
     forall h, RequireAccountMiddleware pem_decode url_path range_claims m clk h
                 (visit_request b p u) =
               h (set_req_header (visit_request b p u)
                    (set_claim_headers (range_claims (session_claims attrs e)) ∅))) \/
  ((forall attrs e, spec_session a = Some (attrs, e) -> (e < jwt_now clk)%Z) /\
   exists target rs,
     (forall h, RequireAccountMiddleware pem_decode url_path range_claims m clk h
                  (visit_request b p u) = Ret [Redirect target StatusFound]) /\
     idp_relay target = rs /\ SignedString (relay_token u) key = Ok rs).
Proof.
  intros Hrel Hp.
  destruct (spec_session a) as [[attrs e]|] eqn:Hs;
    [destruct (Z_le_gt_dec (jwt_now clk) e) as [Hlive|Hdead]|].
  - left. exists attrs, e. split_and!; [done|done|]. intros h.
    apply RequireAccountMiddleware_authorized. rewrite Hisa.
    by apply (visit_authorized _ _ a).
  - right. assert (forall attrs' e', spec_session a = Some (attrs', e') ->
                     (e' < jwt_now clk)%Z) as Hexp by (rewrite Hs; intros ?? [= <- <-]; lia).
    split; [rewrite <- Hs; done|]. apply visit_login; [|done].
    by apply (visit_unauthorized _ _ a).
  - right. assert (forall attrs' e', spec_session a = Some (attrs', e') ->
                     (e' < jwt_now clk)%Z) as Hexp by (by rewrite Hs).
    split; [done|]. apply visit_login; [|done]. by apply (visit_unauthorized _ _ a).
Qed.

(** One step of the simulation: a step of the code for an honest event
    from a related state is a step of the specification with the same
    observation, to a related state, when the two clocks agree. *)
Lemma browser_step_simulation (clk : Clock) (b b' : browser) (a : spec_state) (ev : event)
    (o : observation) :
  related key b a -> honest acs ev -> Time_Unix (timeNow clk) = jwt_now clk ->
  browser_step pem_decode url_path range_claims m idp_relay clk b ev o b' ->
  exists a', spec_step (fun c => set_claim_headers (range_claims c) ∅) (jwt_now clk) a ev o a' /\
    related key b' a'.
Proof.
  intros Hrel Hh Hclk Hstep. revert Hrel Hh. destruct a as [sess pend].
  destruct Hstep as [b p u r' Hrun | b p u target Hrun | b acs' attrs s u Hacs' Hp Hsv |
                     b acs' err Hacs' Hp Hsv];
    intros Hrel Hh; pose proof Hrel as [Hjar Hpend]; cbn [honest spec_session spec_pending] in *.
  - destruct (visit_cases clk _ _ p u Hrel (proj1 Hh))
      as [(attrs & e & Hs & Hlive & Hrun') | (_ & target & _ & Hrun' & _)];
      cbn [spec_session] in *.
    + assert (r' = set_req_header (visit_request b p u)
                     (set_claim_headers (range_claims (session_claims attrs e)) ∅)) as ->.
      { apply served_request_unique. intros h. by rewrite <- Hrun, <- Hrun'. }
      subst sess. eexists. split; [by constructor|done].
    + specialize (Hrun (fun _ => Panic "")). specialize (Hrun' (fun _ => Panic "")).
      cbn beta in *. congruence.
  - destruct (visit_cases clk _ _ p u Hrel (proj1 Hh))
      as [(attrs & e & _ & _ & Hrun') | (Hdead & target' & rs & Hrun' & Hidp' & Hrs)];
      cbn [spec_session] in *.
    + specialize (Hrun (fun _ => Panic "")). specialize (Hrun' (fun _ => Panic "")).
      cbn beta in *. congruence.
    + specialize (Hrun (fun _ => Panic "")). specialize (Hrun' (fun _ => Panic "")).
      rewrite Hrun' in Hrun. injection Hrun as ->. exists (mkSpec sess (Some u)).
      split; [by constructor|]. split; [done|]. cbn. rewrite Hidp'. split; [apply Hh|done].
  - assert (acs' = acs) as -> by congruence.
    destruct (callback_session clk _ _ attrs Hrel Hp) as (s0 & Hs0 & Hsv0).
    rewrite Hsv0 in Hsv. injection Hsv as Hc Hu. subst.
    eexists. split; [by constructor|]. split; [|done]. cbn.
    rewrite <- Hclk, <- Time_Unix_Add_cookieMaxAge. by split.
  - assert (acs' = acs) as -> by congruence.
    eexists. split; [by constructor|]. by split.
Qed.

(** The runs of the code from a related state are runs of the
    specification, by induction on the run. *)
Lemma browser_trace_simulation (b b' : browser) (a : spec_state)
    (tr : list (Clock * event * observation)) :
  related key b a ->
  Forall (fun '(clk, ev, _) => honest acs ev /\ Time_Unix (timeNow clk) = jwt_now clk) tr ->
  browser_trace pem_decode url_path range_claims m idp_relay b tr b' ->
  exists a', spec_trace (fun c => set_claim_headers (range_claims c) ∅) a
               (map (fun '(clk, ev, o) => (jwt_now clk, ev, o)) tr) a' /\
    related key b' a'.
Proof.
  intros Hrel Hh Htr. revert a Hrel Hh.
  induction Htr as [b|b clk ev o b1 tr b2 Hs Htr IH]; intros a Hrel Hh.
  - exists a. split; [constructor|done].
  - apply Forall_cons in Hh as [[Hev Hclk] Hh].
    destruct (browser_step_simulation clk b b1 a ev o Hrel Hev Hclk Hs) as (a1 & Ha1 & Hrel1).
    destruct (IH a1 Hrel1 Hh) as (a2 & Ha2 & Hrel2).
    exists a2. split; [by econstructor|done].
Qed.

(** C3: Refinement of the session state machine of the specification
    (§3, §4.2-§4.4): every run of the code for a client that sends no
    [X-Saml] header, visits pages away from the ACS path and brings back
    ASCII attributes is a run of [spec_step] with the same observations,
    and the browser stays related to the specification's state (its
    cookie is the signed session of the specification, its relay state
    the signed pending URI), provided the two clocks of the code read
    the same time at each step. *)
Theorem browser_trace_refines (b b' : browser) (a : spec_state)
    (tr : list (Clock * event * observation)) :
  related key b a ->
  Forall (fun '(clk, ev, _) => honest acs ev /\ Time_Unix (timeNow clk) = jwt_now clk) tr ->
  browser_trace pem_decode url_path range_claims m idp_relay b tr b' ->
  exists a', spec_trace (fun c => set_claim_headers (range_claims c) ∅) a
               (map (fun '(clk, ev, o) => (jwt_now clk, ev, o)) tr) a' /\
    related key b' a'.
Proof. exact (browser_trace_simulation b b' a tr). Qed.

(** C5: The code answers every event of an honest client from a related
    state: a visit is served or redirected, a callback sets the session
    or is refused, and no handler panics or fails with a 500 on the way
    (the ACS loop guard, the nil key, the relay state without [uri] and
    a failing redirect request cannot arise). *)
Theorem browser_step_progress (clk : Clock) (b : browser) (a : spec_state) (ev : event) :
  related key b a -> honest acs ev ->
  (forall v, ev = Callback v -> ParseResponse (SP m) (callback_request b acs) "" = v) ->
  exists o b', browser_step pem_decode url_path range_claims m idp_relay clk b ev o b'.
Proof.
  intros Hrel Hh Hv. destruct ev as [p u | v]; cbn [honest] in Hh.
  - destruct (visit_cases clk b a p u Hrel (proj1 Hh))
      as [(attrs & e & _ & _ & Hrun) | (_ & target & _ & Hrun & _)];
      eexists _, _; [apply browser_served, Hrun | apply browser_login, Hrun].
  - specialize (Hv v eq_refl). destruct v as [attrs|err].
    + destruct (callback_session clk b a attrs Hrel Hv) as (s & _ & Hsv).
      eexists _, _. by eapply browser_session.
    + eexists _, _. eapply browser_rejected; [done|done|by apply callback_rejected].
Qed.

(** C22: The trusted headers come from the last login only: in every
    run of the code from a browser without cookie or relay state, for an
    honest client whose two clocks agree, each page served carries
    exactly the [X-Saml-] headers of the session the LAST verified
    assertion of the run started ([last_login]), and that session is
    still live at the time of the visit (spec §3, TrustedAttributeSet:
    populated only after signature and expiration verification). *)
Theorem served_last_login (b' : browser) (tr pre post : list (Clock * event * observation))
    (clk : Clock) (p u : string) (h : Header) :
  Forall (fun '(clk, ev, _) => honest acs ev /\ Time_Unix (timeNow clk) = jwt_now clk) tr ->
  browser_trace pem_decode url_path range_claims m idp_relay (mkBrowser None None) tr b' ->
  tr = pre ++ (clk, Visit p u, Served h) :: post ->
  exists attrs e,
    last_login (map (fun '(clk, ev, o) => (jwt_now clk, ev, o)) pre) = Some (attrs, e) /\
    (jwt_now clk <= e)%Z /\ h = set_claim_headers (range_claims (session_claims attrs e)) ∅.
Proof.
  intros Hh Htr ->.
  destruct (browser_trace_simulation (mkBrowser None None) _ (mkSpec None None) _ (conj I I) Hh Htr)
    as (a' & Hspec & _).
  rewrite map_app in Hspec. exact (spec_trace_served _ _ _ _ _ _ _ _ _ Hspec).
Qed.

(** C23: A login completes: from a browser without cookie, a visit to a
    protected page [u] is redirected to the identity provider; when the
    identity provider asserts the user, the callback sets the session
    and redirects back to [u]; and a visit within [cookieMaxAge] of the
    callback is served with the asserted attributes as trusted headers
    (spec §2, control flow, and §4.4). *)
Theorem login_reaches_page (clk clk' clk'' : Clock) (p u : string)
    (attrs : list AssertionAttribute) :
  p <> acs -> is_ascii u = true -> attributes_ok attrs ->
  (forall b, ParseResponse (SP m) (callback_request b acs) "" = Ok attrs) ->
  (jwt_now clk'' <= Time_Unix (Time_Add (timeNow clk') cookieMaxAge))%Z ->
  exists b',
    browser_trace pem_decode url_path range_claims m idp_relay (mkBrowser None None)
      [(clk, Visit p u, LoginRedirect); (clk', Callback (Ok attrs), SessionRedirect u);
       (clk'', Visit p u,
        Served (set_claim_headers (range_claims (session_claims attrs (Time_Unix (Time_Add (timeNow clk') cookieMaxAge)))) ∅))]
      b'.
Proof.
  intros Hp Hu Ha Hidp_ok Hnow.
  destruct (visit_cases clk (mkBrowser None None) (mkSpec None None) p u (conj I I) Hp)
    as [(? & ? & [=] & _) | (_ & target & rs & Hrun & Hrel & Hrs)].
  set (b1 := mkBrowser None (Some (idp_relay target))).
  destruct (callback_session clk' b1 (mkSpec None (Some u)) attrs) as (s & Hs & Hsv);
    [split; [done|]; cbn; by rewrite Hrel|done|].
  set (b2 := mkBrowser (Some (cookieName, s)) None).
  destruct (visit_cases clk'' b2 (mkSpec (Some (attrs, Time_Unix (Time_Add (timeNow clk') cookieMaxAge))%Z) None) p u)
    as [(attrs' & e & [= <- <-] & _ & Hrun') | (Hdead & _)];
    [by split|done| |by specialize (Hdead _ _ eq_refl); lia].
  exists b2. econstructor; [by apply browser_login|].
  econstructor; [by eapply browser_session|].
  econstructor; [exact (browser_served _ _ _ _ _ _ _ _ _ _ Hrun')|constructor].
Qed.

(** The session of the state is live at [clk], or it is not. *)
Lemma session_live_cases (clk : Clock) (a : spec_state) :
  (exists attrs e, spec_session a = Some (attrs, e) /\ (jwt_now clk <= e)%Z) \/
  (forall attrs e, spec_session a = Some (attrs, e) -> (e < jwt_now clk)%Z).
Proof.
  destruct (spec_session a) as [[attrs e]|]; [|right; done].
  destruct (Z_le_gt_dec (jwt_now clk) e); [left; eauto|right; intros ?? [= <- <-]; lia].
Qed.

(** With a live session, the loop reaches the page at once. *)
Lemma login_loop_served (n : nat) (clk : Clock) (b : browser) (a : spec_state)
    (attrs : list AssertionAttribute) (e : Z) (p u : string) :
  related key b a -> spec_session a = Some (attrs, e) -> (jwt_now clk <= e)%Z ->
  login_loop pem_decode url_path range_claims m idp_relay acs (S n) clk b p u = LoopServed b.
Proof.
  intros Hrel Hs Hnow. cbn [login_loop].
  erewrite RequireAccountMiddleware_authorized; [reflexivity|].
  rewrite Hisa. by apply (visit_authorized _ _ a).
Qed.

(** Without one, a round of the loop is a login: the browser comes back
    with the cookie of a session that ends one hour after [timeNow]. *)
Lemma login_loop_round (n : nat) (clk : Clock) (b : browser) (a : spec_state)
    (attrs : list AssertionAttribute) (p u : string) :
  related key b a -> p <> acs -> is_ascii u = true -> attributes_ok attrs ->
  (forall b', ParseResponse (SP m) (callback_request b' acs) "" = Ok attrs) ->
  (forall attrs' e, spec_session a = Some (attrs', e) -> (e < jwt_now clk)%Z) ->
  exists s,
    related key (mkBrowser (Some (cookieName, s)) None)
      (mkSpec (Some (attrs, Time_Unix (Time_Add (timeNow clk) cookieMaxAge))) None) /\
    login_loop pem_decode url_path range_claims m idp_relay acs (S n) clk b p u =
      login_count (login_loop pem_decode url_path range_claims m idp_relay acs n clk
                     (mkBrowser (Some (cookieName, s)) None) p u).
Proof.
  intros Hrel Hp Hu Ha Hok Hdead.
  destruct (visit_login clk b p u) as (target & rs & Hrun & Hidp' & Hrs);
    [by apply (visit_unauthorized _ _ a)|done|].
  destruct (callback_session clk (mkBrowser (jar b) (Some (idp_relay target)))
              (mkSpec (spec_session a) (Some u)) attrs) as (s & Hs & Hsv);
    [split; [exact (proj1 Hrel)|cbn; by rewrite Hidp']|apply Hok|].
  exists s. split; [split; [by split|done]|]. cbn [login_loop]. by rewrite Hrun, Hsv.
Qed.




(** C30: Termination of the login: a browser related to the
    specification that asks for a page and follows the redirects reaches
    the page after at most one login, when the identity provider asserts
    the user and the two clocks read the same second: two rounds of the
    loop are enough. *)
Theorem login_loop_terminates (n : nat) (clk : Clock) (b : browser) (a : spec_state)
    (attrs : list AssertionAttribute) (p u : string) :
  related key b a -> p <> acs -> is_ascii u = true -> attributes_ok attrs ->
  (forall b', ParseResponse (SP m) (callback_request b' acs) "" = Ok attrs) ->
  Time_Unix (timeNow clk) = jwt_now clk ->
  exists b', login_loop pem_decode url_path range_claims m idp_relay acs (S (S n)) clk b p u = LoopServed b'.
Proof.
  intros Hrel Hp Hu Ha Hok Hclk.
  destruct (session_live_cases clk a) as [(attrs0 & e & Hs & Hnow) | Hdead].
  - eexists. by apply (login_loop_served _ _ _ a attrs0 e).
  - destruct (login_loop_round (S n) clk b a attrs p u) as (s & Hrel' & ->); try done.
    rewrite (login_loop_served _ _ _ _ attrs _ _ _ Hrel' eq_refl); [by eexists|].
    rewrite Time_Unix_Add_cookieMaxAge, cookieMaxAge_seconds. lia.
Qed.

(** C31: Non-termination under clock skew: when jwt-go's [TimeFunc] is
    more than [cookieMaxAge] ahead of the package's [timeNow], every
    session cookie is born expired, and a browser that follows the
    redirects is never served: each round of the loop is a completed
    login (redirect to the identity provider, callback setting a new
    cookie), for as many rounds as there is fuel. *)
Theorem login_loop_diverges (clk : Clock) (attrs : list AssertionAttribute) (p u : string) :
  p <> acs -> is_ascii u = true -> attributes_ok attrs ->
  (forall b', ParseResponse (SP m) (callback_request b' acs) "" = Ok attrs) ->
  (Time_Unix (Time_Add (timeNow clk) cookieMaxAge) < jwt_now clk)%Z ->
  forall fuel, login_loop pem_decode url_path range_claims m idp_relay acs fuel clk
                 (mkBrowser None None) p u = LoopLogins fuel.
Proof.
  intros Hp Hu Ha Hok Hskew fuel.
  enough (forall b a, related key b a ->
            (forall attrs' e, spec_session a = Some (attrs', e) -> (e < jwt_now clk)%Z) ->
            login_loop pem_decode url_path range_claims m idp_relay acs fuel clk b p u =
              LoopLogins fuel) as H
    by (apply (H _ (mkSpec None None)); [done|discriminate]).
  induction fuel as [|n IH]; intros b a Hrel Hdead; [done|].
  destruct (login_loop_round n clk b a attrs p u) as (s & Hrel' & ->); try done.
  rewrite (IH _ _ Hrel'); [done|]. by intros ?? [= <- <-].
Qed.

End Simulation.
