(* ===== verification/Witnesses.v ===== *)
(** * A concrete deployment, and the theorems applied to it

    A service provider with the key [secret], the paths [/saml/metadata]
    and [/saml/acs], an identity provider that asserts
    [uid = alice@example.com], and both clocks at Unix time 1000 s.  The HMAC is a
    stand-in that depends on the key and the message ([key|message]);
    the codecs are the models of [Base64] and [Json].  Each lemma below
    applies one theorem of the development at these inputs, with its
    hypotheses discharged by evaluation. *)

From S2P Require Import Prelude Codec Base64 Json Jwt Http Middleware Authorize Login Session.
From Stdlib Require Import Ascii.

(** ** The deployment *)

#[export] Instance fixture_hmac : Hmac := {| hmac h k m := k +:+ String "|"%char m |}.

Definition pem_fixture (s : string) : option string :=
  if bool_decide (s = "KEYPEM") then Some "secret" else None.

Definition url_fixture (s : string) : option string := Some s.

(** [range] over the claims visits them in the order of [map_to_list]. *)
Definition range_fixture : json_object -> list (string * json_value) := map_to_list.

Definition sp_fixture : ServiceProvider := {|
  Key := "KEYPEM"; MetadataURL := "/saml/metadata"; AcsURL := "/saml/acs";
  Metadata := "<md/>";
  ParseResponse := fun _ _ => Ok [mkAttribute "uid" "urn:oid:0.9.2342.19200300.100.1.1"
                                              "alice@example.com"];
  MakeRedirectAuthenticationRequest := fun rs => Ok ("https://idp/sso?RelayState=" +:+ rs) |}.

Definition mw_fixture : ServiceProviderMiddleware := mkMiddleware sp_fixture None None.

Definition clk_fixture : Clock := mkClock (1000 * Second) (1000 * Second).

Definition ok_handler : Handler := fun _ => Ret [WriteBody "ok"].

(** A request for a protected page, without a cookie. *)
Definition req_anon : Request := mkRequest "/protected" "/protected?x=1" ∅ [] ∅.

(** The same request with a [token] cookie. *)
Definition req_cookie (c : string) : Request :=
  mkRequest "/protected" "/protected?x=1" ∅ [(cookieName, c)] ∅.

(** A session token as [DefaultAuthorizeFunc] issues it at time 1000. *)
Definition session_fixture : Token :=
  mkToken (Jwt.Header (New (SM_HMAC SHA256)))
          (session_claims [mkAttribute "uid" "urn:oid:0.9.2342.19200300.100.1.1"
                                       "alice@example.com"] 4600)
          (SM_HMAC SHA256) "".

Definition signed_or_empty (t : Token) (key : string) : string :=
  match SignedString t key with Ok s => s | Err _ => "" end.

Definition parsed_or_none (s : string) (key : string) (now : Z) : Token :=
  match Parse s (fun _ => Ret (Ok key)) now with Ret (Ok t) => t | _ => New SM_None end.

(** The session cookie of [session_fixture] under the deployment's key. *)
Definition session_cookie_fixture : string := signed_or_empty session_fixture "secret".

(** The session token as the parser returns it, and the request it
    authorizes. *)
Definition session_parsed : Token := parsed_or_none session_cookie_fixture "secret" 1000.

Definition req_authorized : Request :=
  set_req_header (req_cookie session_cookie_fixture)
    (set_claim_headers (range_fixture (Claims session_parsed)) ∅).

(** Requests for the ACS path, the metadata path and the protected page
    with a header of the trusted namespace. *)
Definition req_acs (relay : option string) : Request :=
  mkRequest "/saml/acs" "/saml/acs" ∅ []
    (match relay with Some rs => <["RelayState" := [rs]]> ∅ | None => ∅ end).

Definition req_spoofed (cookie : option string) : Request :=
  mkRequest "/protected" "/protected?x=1" (<["X-Saml-Uid" := ["mallory"]]> ∅)
    (match cookie with Some c => [(cookieName, c)] | None => [] end) ∅.

(** A middleware whose key is not PEM. *)
Definition mw_badkey : ServiceProviderMiddleware :=
  mkMiddleware {| Key := "not a key"; MetadataURL := "/saml/metadata"; AcsURL := "/saml/acs";
                  Metadata := "<md/>"; ParseResponse := ParseResponse sp_fixture;
                  MakeRedirectAuthenticationRequest := MakeRedirectAuthenticationRequest sp_fixture |}
               None None.

(** A deployment whose identity provider asserts two affiliations. *)
Definition groups_attrs : list AssertionAttribute :=
  [mkAttribute "uid" "urn:oid:0.9.2342.19200300.100.1.1" "alice@example.com";
   mkAttribute "eduPersonAffiliation" "urn:oid:1.3.6.1.4.1.5923.1.1.1.1" "Staff";
   mkAttribute "eduPersonAffiliation" "urn:oid:1.3.6.1.4.1.5923.1.1.1.1" "Member"].

Definition mw_groups : ServiceProviderMiddleware :=
  mkMiddleware {| Key := "KEYPEM"; MetadataURL := "/saml/metadata"; AcsURL := "/saml/acs";
                  Metadata := "<md/>"; ParseResponse := fun _ _ => Ok groups_attrs;
                  MakeRedirectAuthenticationRequest := MakeRedirectAuthenticationRequest sp_fixture |}
               None None.

(** A deployment whose own authorizer lets every request through, and a
    request that brings its own affiliation header. *)
Definition mw_custom : ServiceProviderMiddleware :=
  mkMiddleware sp_fixture (Some (fun r => Ret (true, r))) None.

Definition req_forged_group : Request :=
  mkRequest "/staff" "/staff" (<["X-Saml-Edupersonaffiliation" := ["Staff"]]> ∅) [] ∅.

(** A token signed with HS512 under the deployment's key. *)
Definition hs512_cookie : string :=
  signed_or_empty (mkToken (Jwt.Header (New (SM_HMAC SHA512))) (<["uid" := JString "alice"]> ∅)
                           (SM_HMAC SHA512) "") "secret".

(** The identity provider of the deployment: it reads the relay state
    back from the redirect URL it was sent to. *)
Fixpoint drop_prefix (p s : string) : string :=
  match p, s with
  | String _ p', String _ s' => drop_prefix p' s'
  | _, _ => s
  end.

Definition idp_fixture (target : string) : string :=
  drop_prefix "https://idp/sso?RelayState=" target.

(** A login, as a run of the browser: a visit redirected to the identity
    provider, the callback that sets the session cookie, and a visit at a
    later time that is served. *)
Definition flow_b0 : browser := mkBrowser None None.

Definition flow_attrs : list AssertionAttribute :=
  [mkAttribute "uid" "urn:oid:0.9.2342.19200300.100.1.1" "alice@example.com"].

Definition flow_login_target : string := Eval vm_compute in
  match RequireAccountMiddleware pem_fixture url_fixture range_fixture mw_fixture clk_fixture
          ok_handler (visit_request flow_b0 "/protected" "/protected?x=1") with
  | Ret [Redirect t _] => t
  | _ => ""
  end.

Definition flow_b1 : browser := mkBrowser None (Some (idp_fixture flow_login_target)).

Definition flow_session : string := Eval vm_compute in
  match ServeHTTP pem_fixture url_fixture mw_fixture clk_fixture
          (callback_request flow_b1 "/saml/acs") with
  | Ret (SetCookie c :: _) => cookie_value c
  | _ => ""
  end.

Definition flow_b2 : browser := mkBrowser (Some (cookieName, flow_session)) None.

Definition flow_clk2 : Clock := mkClock (2000 * Second) (2000 * Second).

(** A clock whose [TimeFunc] is 4000 s ahead of [timeNow]. *)
Definition clk_skew : Clock := mkClock (1000 * Second) (5000 * Second).

Definition flow_served : Request := Eval vm_compute in
  set_req_header (visit_request flow_b2 "/protected" "/protected?x=1")
    (set_claim_headers (range_fixture (session_claims flow_attrs 4600)) ∅).

Definition flow_trace : list (Clock * event * observation) :=
  [(clk_fixture, Visit "/protected" "/protected?x=1", LoginRedirect);
   (clk_fixture, Callback (Ok flow_attrs), SessionRedirect "/protected?x=1");
   (flow_clk2, Visit "/protected" "/protected?x=1", Served (req_header flow_served))].

(** A URL parser that rejects the metadata URL. *)
Definition url_bad_metadata (s : string) : option string :=
  if bool_decide (s = "/saml/metadata") then None else Some s.

(** ** Helpers *)

Lemma drop_prefix_app (p s : string) : drop_prefix p (p +:+ s) = s.
Proof. induction p as [|c p IH]; [done|]. by rewrite string_app_cons. Qed.

Lemma idp_fixture_honest (rs : string) :
  exists target, MakeRedirectAuthenticationRequest (SP mw_fixture) rs = Ok target /\
    idp_fixture target = rs.
Proof. eexists. split; [reflexivity|apply drop_prefix_app]. Qed.


Lemma range_fixture_perm (o : json_object) : range_fixture o ≡ₚ map_to_list o.
Proof. done. Qed.

Lemma parsed_accepts (s key : string) (now : Z) :
  Parse s (fun _ => Ret (Ok key)) now = Ret (Ok (parsed_or_none s key now)) ->
  Accepts key now s (parsed_or_none s key now).
Proof. intros H. by apply (Parse_Accepts s (fun _ => Ret (Ok key)) key now). Qed.

Lemma session_parsed_claims :
  Claims session_parsed =
    <["exp" := JNumber 4600]> (<["uid" := JString "alice@example.com"]> ∅).
Proof. vm_compute. reflexivity. Qed.

Lemma session_parsed_accepts : Accepts "secret" 1000 session_cookie_fixture session_parsed.
Proof. apply parsed_accepts. vm_compute. reflexivity. Qed.

(** ** Jwt *)

Lemma Parse_SignedString_witness :
  Parse (signed_or_empty session_fixture "secret") (fun _ => Ret (Ok "secret")) 1000 =
    Ret (Ok (mkToken (Jwt.Header session_fixture) (Claims session_fixture) (SM_HMAC SHA256)
               (encode_segment (hmac SHA256 "secret" (SigningString session_fixture))))).
Proof.
  apply (Parse_SignedString session_fixture SHA256 _ "secret");
    [intros; reflexivity|reflexivity|vm_compute; reflexivity|..|vm_compute; reflexivity].
  - apply New_header_ok.
  - apply session_claims_ok. repeat constructor.
  - vm_compute. reflexivity.
  - vm_compute. reflexivity.
Defined.

Lemma Parse_wrong_key_witness :
  exists e, Parse session_cookie_fixture (fun _ => Ret (Ok "guess")) 1000 = Ret (Err e).
Proof.
  apply (Parse_wrong_key session_fixture SHA256 _ "secret" "guess");
    [intros; reflexivity|reflexivity|vm_compute; reflexivity|apply New_header_ok| |
     vm_compute; reflexivity].
  vm_compute. congruence.
Defined.

Lemma Parse_rejects_expired_witness : (1000 <= 4600)%Z.
Proof.
  apply (Parse_rejects_expired session_cookie_fixture (fun _ => Ret (Ok "secret")) 1000 4600
           (parsed_or_none session_cookie_fixture "secret" 1000));
    vm_compute; reflexivity.
Defined.

(** ** Middleware *)

Lemma DefaultIsAuthorized_spec_witness :
  DefaultIsAuthorized pem_fixture range_fixture mw_fixture clk_fixture (req_cookie session_cookie_fixture) =
    Ret (true, req_authorized) <->
  exists v t, Cookie (req_cookie session_cookie_fixture) cookieName = Some v /\
    Accepts "secret" 1000 v t /\ has_x_saml_header ∅ = false /\
    req_authorized = set_req_header (req_cookie session_cookie_fixture)
                       (set_claim_headers (range_fixture (Claims t)) ∅).
Proof.
  exact (DefaultIsAuthorized_spec pem_fixture range_fixture mw_fixture clk_fixture
           (req_cookie session_cookie_fixture) req_authorized "secret" eq_refl).
Defined.

Lemma DefaultIsAuthorized_trusted_namespace_witness :
  exists v t n c, Cookie (req_cookie session_cookie_fixture) cookieName = Some v /\
    Accepts "secret" 1000 v t /\ Claims t !! n = Some (JString c) /\
    CanonicalMIMEHeaderKey ("X-Saml-" +:+ n) = "X-Saml-Uid" /\ ["alice@example.com"] = [c].
Proof.
  apply (DefaultIsAuthorized_trusted_namespace pem_fixture range_fixture range_fixture_perm mw_fixture clk_fixture
           (req_cookie session_cookie_fixture) req_authorized "secret");
    vm_compute; reflexivity.
Defined.

Lemma DefaultIsAuthorized_inbound_panic_witness :
  DefaultIsAuthorized pem_fixture range_fixture mw_fixture clk_fixture (req_spoofed (Some session_cookie_fixture)) =
    Panic x_saml_panic.
Proof.
  apply (DefaultIsAuthorized_inbound_panic pem_fixture range_fixture mw_fixture clk_fixture _ "secret"
           session_cookie_fixture session_parsed);
    [reflexivity|reflexivity|apply session_parsed_accepts|reflexivity].
Defined.

Lemma DefaultIsAuthorized_inbound_unchecked_witness :
  DefaultIsAuthorized pem_fixture range_fixture mw_fixture clk_fixture (req_spoofed None) =
    Ret (false, req_spoofed None).
Proof.
  apply (DefaultIsAuthorized_inbound_unchecked pem_fixture range_fixture mw_fixture clk_fixture _ "secret");
    [reflexivity|reflexivity|].
  intros v Hv. discriminate.
Defined.

Lemma DefaultIsAuthorized_claim_header_witness :
  exists r', DefaultIsAuthorized pem_fixture range_fixture mw_fixture clk_fixture
               (req_cookie session_cookie_fixture) = Ret (true, r') /\
    req_header r' !! CanonicalMIMEHeaderKey ("X-Saml-" +:+ "uid") = Some ["alice@example.com"].
Proof.
  apply (DefaultIsAuthorized_claim_header pem_fixture range_fixture range_fixture_perm mw_fixture clk_fixture _ "secret"
           session_cookie_fixture "uid" "alice@example.com" session_parsed);
    [reflexivity|reflexivity|apply session_parsed_accepts|reflexivity|vm_compute; reflexivity|].
  intros n c Hn _. rewrite session_parsed_claims, !lookup_insert, lookup_empty in Hn.
  repeat case_decide; congruence.
Defined.

Lemma RequireAccountMiddleware_redirect_witness :
  exists rs,
    (forall now, exists sig,
       Parse rs (secret_keyfunc pem_fixture sp_fixture) now =
       Ret (Ok (mkToken (Jwt.Header (New (SM_HMAC SHA256)))
                        (<["uri" := JString "/protected?x=1"]> ∅) (SM_HMAC SHA256) sig))) /\
    RequireAccountMiddleware pem_fixture url_fixture range_fixture mw_fixture clk_fixture ok_handler req_anon =
      Ret [Redirect ("https://idp/sso?RelayState=" +:+ rs) StatusFound].
Proof.
  apply (RequireAccountMiddleware_redirect pem_fixture url_fixture range_fixture mw_fixture clk_fixture
           ok_handler req_anon req_anon "secret" "/saml/acs");
    vm_compute; try reflexivity; congruence.
Defined.

Lemma RequireAccountMiddleware_acs_loop_witness :
  exists rs,
    RequireAccountMiddleware pem_fixture url_fixture range_fixture mw_fixture clk_fixture ok_handler
      (req_acs None) =
      match MakeRedirectAuthenticationRequest sp_fixture rs with
      | Err msg => Ret [HttpError msg StatusInternalServerError]
      | Ok _ => Panic wrap_panic
      end.
Proof.
  apply (RequireAccountMiddleware_acs_loop pem_fixture url_fixture range_fixture mw_fixture clk_fixture
           ok_handler (req_acs None) (req_acs None) "secret" "/saml/acs");
    vm_compute; reflexivity.
Defined.

Lemma ServeHTTP_forged_relay_state_witness :
  ServeHTTP pem_fixture url_fixture mw_fixture clk_fixture (req_acs (Some "forged")) =
    Ret [HttpError "Forbidden" 403].
Proof.
  apply (ServeHTTP_forged_relay_state pem_fixture url_fixture mw_fixture clk_fixture _
           [mkAttribute "uid" "urn:oid:0.9.2342.19200300.100.1.1" "alice@example.com"]
           "secret" "/saml/metadata" "/saml/acs");
    [reflexivity|reflexivity|reflexivity|vm_compute; congruence|reflexivity|reflexivity|
     reflexivity|vm_compute; congruence|].
  intros t Ha. apply (Parse_Accepts _ (fun _ => Ret (Ok "secret"))) in Ha; [|done].
  vm_compute in Ha. discriminate.
Defined.

Lemma ServeHTTP_routes_witness :
  (req_path req_anon = "/saml/metadata" ->
   ServeHTTP pem_fixture url_fixture mw_fixture clk_fixture req_anon = Ret [WriteBody "<md/>"]) /\
  (forall e, req_path req_anon <> "/saml/metadata" -> req_path req_anon = "/saml/acs" ->
     ParseResponse sp_fixture req_anon "" = Err e ->
     ServeHTTP pem_fixture url_fixture mw_fixture clk_fixture req_anon =
       Ret (response_log e ++ [HttpError "Forbidden" 403])) /\
  (req_path req_anon <> "/saml/metadata" -> req_path req_anon <> "/saml/acs" ->
   ServeHTTP pem_fixture url_fixture mw_fixture clk_fixture req_anon =
     Ret [HttpError "404 page not found" 404]).
Proof.
  exact (ServeHTTP_routes pem_fixture url_fixture mw_fixture clk_fixture req_anon
           "/saml/metadata" "/saml/acs" eq_refl eq_refl).
Defined.

Lemma RequireAccountMiddleware_nil_key_witness :
  RequireAccountMiddleware pem_fixture url_fixture range_fixture mw_badkey clk_fixture ok_handler req_anon =
    Panic nil_dereference.
Proof.
  apply (RequireAccountMiddleware_nil_key pem_fixture url_fixture range_fixture mw_badkey clk_fixture
           ok_handler req_anon req_anon); vm_compute; reflexivity.
Defined.

Lemma set_claim_headers_order_independent_witness :
  set_claim_headers [("uid", JString "alice"); ("exp", JNumber 4600)] ∅ =
  set_claim_headers [("exp", JNumber 4600); ("uid", JString "alice")] ∅.
Proof.
  apply set_claim_headers_order_independent; [apply Permutation_swap|].
  intros n1 n2 c1 c2 H1 H2 _.
  destruct H1 as [H1|[H1|[]]]; destruct H2 as [H2|[H2|[]]]; congruence.
Defined.

(** ** Flows *)

Lemma relay_state_is_session_token_witness :
  exists rs,
    RequireAccountMiddleware pem_fixture url_fixture range_fixture mw_fixture clk_fixture ok_handler req_anon =
      Ret [Redirect ("https://idp/sso?RelayState=" +:+ rs) StatusFound] /\
    forall clk' handler' r2,
      Cookie r2 cookieName = Some rs -> has_x_saml_header (req_header r2) = false ->
      RequireAccountMiddleware pem_fixture url_fixture range_fixture mw_fixture clk' handler' r2 =
        handler' (set_req_header r2 (Header_Set (req_header r2) "X-Saml-uri" "/protected?x=1")).
Proof.
  apply (relay_state_is_session_token pem_fixture url_fixture range_fixture range_fixture_perm mw_fixture clk_fixture ok_handler
           req_anon req_anon "secret" "/saml/acs");
    vm_compute; try reflexivity; congruence.
Defined.

Lemma login_session_witness :
  exists s,
    ServeHTTP pem_fixture url_fixture mw_fixture clk_fixture (req_acs None) =
      Ret [SetCookie (session_cookie s); Redirect "/" StatusFound] /\
    forall clk' handler r2,
      Cookie r2 cookieName = Some s -> has_x_saml_header (req_header r2) = false ->
      ((jwt_now clk' <= 4600)%Z ->
       RequireAccountMiddleware pem_fixture url_fixture range_fixture mw_fixture clk' handler r2 =
         handler (set_req_header r2 (set_claim_headers
                    (range_fixture (session_claims [mkAttribute "uid"
                       "urn:oid:0.9.2342.19200300.100.1.1" "alice@example.com"] 4600))
                    (req_header r2)))) /\
      ((4600 < jwt_now clk')%Z ->
       DefaultIsAuthorized pem_fixture range_fixture mw_fixture clk' r2 = Ret (false, r2)).
Proof.
  apply (login_session pem_fixture url_fixture range_fixture mw_fixture clk_fixture (req_acs None)
           [mkAttribute "uid" "urn:oid:0.9.2342.19200300.100.1.1" "alice@example.com"]
           "secret" "/saml/metadata" "/saml/acs" "/");
    [reflexivity|reflexivity|reflexivity|vm_compute; congruence|reflexivity|reflexivity|
     reflexivity|reflexivity| |repeat constructor].
  left. split; reflexivity.
Defined.

(** Alice is Staff and Member; the route for Staff refuses her. *)
Lemma login_attribute_gate_witness :
  exists s,
    ServeHTTP pem_fixture url_fixture mw_groups clk_fixture (req_acs None) =
      Ret [SetCookie (session_cookie s); Redirect "/" StatusFound] /\
    forall clk' handler r2,
      Cookie r2 cookieName = Some s -> has_x_saml_header (req_header r2) = false ->
      (jwt_now clk' <= 4600)%Z ->
      RequireAccountMiddleware pem_fixture url_fixture range_fixture mw_groups clk'
        (RequireAttribute "eduPersonAffiliation" "Staff" handler) r2 =
        Ret [HttpError "Forbidden" 403].
Proof.
  destruct (login_attribute_gate pem_fixture url_fixture range_fixture range_fixture_perm mw_groups
              clk_fixture (req_acs None) groups_attrs "secret" "/saml/metadata" "/saml/acs" "/"
              "eduPersonAffiliation" "Staff") as (s & Hsv & Hgate);
    [reflexivity|reflexivity|reflexivity|vm_compute; congruence|reflexivity|reflexivity|
     reflexivity|reflexivity|left; split; reflexivity|repeat constructor|discriminate| |].
  - intros a Ha. destruct Ha as [<-|[<-|[<-|[]]]]; vm_compute; congruence.
  - exists s. split; [exact Hsv|]. intros clk' handler r2 Hc Hx Hnow.
    rewrite (Hgate clk' handler r2 Hc Hx Hnow). vm_compute. reflexivity.
Defined.

Lemma DefaultAuthorizeFunc_cookie_roundtrip_witness :
  cookie_name (session_cookie flow_session) = cookieName /\
  cookie_max_age (session_cookie flow_session) = Duration_Seconds cookieMaxAge /\
  forall now,
    ((now <= 4600)%Z ->
     exists t, Parse flow_session (secret_keyfunc pem_fixture sp_fixture) now = Ret (Ok t) /\
       Claims t = session_claims flow_attrs 4600 /\ Method t = SM_HMAC SHA256) /\
    ((4600 < now)%Z ->
     exists e, Parse flow_session (secret_keyfunc pem_fixture sp_fixture) now = Ret (Err e)).
Proof.
  apply (DefaultAuthorizeFunc_cookie_roundtrip pem_fixture mw_fixture clk_fixture
           (callback_request flow_b1 "/saml/acs") flow_attrs
           [SetCookie (session_cookie flow_session); Redirect "/protected?x=1" StatusFound]
           (session_cookie flow_session));
    [repeat constructor|vm_compute; reflexivity|left; reflexivity].
Defined.

Lemma relay_state_roundtrip_witness :
  exists rs,
    RequireAccountMiddleware pem_fixture url_fixture range_fixture mw_fixture clk_fixture ok_handler req_anon =
      Ret [Redirect ("https://idp/sso?RelayState=" +:+ rs) StatusFound] /\
    forall clk' r2 attrs, FormGet r2 "RelayState" = rs ->
      exists s, DefaultAuthorizeFunc pem_fixture mw_fixture clk' r2 attrs =
        Ret [SetCookie (session_cookie s); Redirect "/protected?x=1" StatusFound].
Proof.
  apply (relay_state_roundtrip pem_fixture url_fixture range_fixture mw_fixture clk_fixture ok_handler
           req_anon req_anon "secret" "/saml/acs");
    vm_compute; try reflexivity; congruence.
Defined.

Lemma DefaultIsAuthorized_any_hmac_witness :
  DefaultIsAuthorized pem_fixture range_fixture mw_fixture clk_fixture (req_cookie hs512_cookie) =
    Ret (true, set_req_header (req_cookie hs512_cookie)
                 (set_claim_headers (range_fixture (<["uid" := JString "alice"]> ∅))
                    (req_header (req_cookie hs512_cookie)))).
Proof.
  apply (DefaultIsAuthorized_any_hmac pem_fixture range_fixture mw_fixture clk_fixture _ SHA512
           (<["uid" := JString "alice"]> ∅) "secret"
           hs512_cookie);
    [reflexivity| |reflexivity|reflexivity|vm_compute; reflexivity|reflexivity|reflexivity].
  apply object_strings_ok_insert; [apply object_strings_ok_empty|reflexivity|reflexivity].
Defined.

Lemma RequireAttribute_session_admits_witness :
  RequireAccountMiddleware pem_fixture url_fixture range_fixture mw_fixture clk_fixture
    (RequireAttribute "uid" "alice@example.com" ok_handler) (req_cookie session_cookie_fixture) =
  ok_handler (set_req_header (req_cookie session_cookie_fixture)
                (set_claim_headers (range_fixture (Claims session_parsed))
                   (req_header (req_cookie session_cookie_fixture)))).
Proof.
  refine (RequireAttribute_session_admits pem_fixture url_fixture range_fixture range_fixture_perm mw_fixture clk_fixture
            (req_cookie session_cookie_fixture) "secret" session_cookie_fixture session_parsed
            eq_refl eq_refl eq_refl session_parsed_accepts eq_refl
            "uid" "alice@example.com" ok_handler _ _).
  - rewrite session_parsed_claims. reflexivity.
  - intros n c Hn _. rewrite session_parsed_claims, !lookup_insert, lookup_empty in Hn.
    repeat case_decide; congruence.
Defined.

Lemma RequireAttribute_session_denies_witness :
  RequireAccountMiddleware pem_fixture url_fixture range_fixture mw_fixture clk_fixture
    (RequireAttribute "eduPersonAffiliation" "Staff" ok_handler)
    (req_cookie session_cookie_fixture) = Ret [HttpError "Forbidden" 403].
Proof.
  refine (RequireAttribute_session_denies pem_fixture url_fixture range_fixture range_fixture_perm mw_fixture clk_fixture
            (req_cookie session_cookie_fixture) "secret" session_cookie_fixture session_parsed
            eq_refl eq_refl eq_refl session_parsed_accepts eq_refl
            "eduPersonAffiliation" "Staff" ok_handler _).
  intros n c Hn _. rewrite session_parsed_claims, !lookup_insert, lookup_empty in Hn.
  repeat case_decide; congruence.
Defined.

Lemma ServeHTTP_relay_state_without_uri_witness :
  ServeHTTP pem_fixture url_fixture mw_fixture clk_fixture (req_acs (Some session_cookie_fixture)) =
    Panic relay_state_panic.
Proof.
  refine (ServeHTTP_relay_state_without_uri pem_fixture url_fixture mw_fixture clk_fixture
            (req_acs (Some session_cookie_fixture))
            [mkAttribute "uid" "urn:oid:0.9.2342.19200300.100.1.1" "alice@example.com"]
            "secret" "/saml/metadata" "/saml/acs" session_parsed
            eq_refl eq_refl eq_refl _ eq_refl eq_refl eq_refl _ session_parsed_accepts _).
  - discriminate.
  - vm_compute. congruence.
  - intros u. rewrite session_parsed_claims, !lookup_insert, lookup_empty.
    repeat case_decide; congruence.
Defined.

Lemma DefaultIsAuthorized_wrong_key_witness :
  DefaultIsAuthorized pem_fixture range_fixture mw_fixture clk_fixture
    (req_cookie (signed_or_empty session_fixture "guess")) =
  Ret (false, req_cookie (signed_or_empty session_fixture "guess")).
Proof.
  refine (DefaultIsAuthorized_wrong_key pem_fixture range_fixture mw_fixture clk_fixture
            (req_cookie (signed_or_empty session_fixture "guess")) session_fixture
            SHA256 "secret" "guess" (signed_or_empty session_fixture "guess")
            eq_refl eq_refl _ (New_header_ok _) _ _ eq_refl).
  - vm_compute. reflexivity.
  - vm_compute. congruence.
  - vm_compute. reflexivity.
Defined.

(** ** Session *)

Lemma browser_trace_refines_witness :
  exists a', spec_trace (fun c => set_claim_headers (range_fixture c) ∅) (mkSpec None None)
               (map (fun '(clk, ev, o) => (jwt_now clk, ev, o)) flow_trace) a' /\
    related "secret" flow_b2 a'.
Proof.
  refine (browser_trace_refines pem_fixture url_fixture range_fixture mw_fixture idp_fixture
            "secret" "/saml/acs" "/saml/metadata" eq_refl eq_refl eq_refl _ eq_refl eq_refl
            idp_fixture_honest flow_b0 flow_b2 (mkSpec None None) flow_trace _ _ _).
  - discriminate.
  - split; done.
  - repeat constructor; try discriminate.
  - econstructor; [apply browser_login; intros h; vm_compute; reflexivity|].
    econstructor; [eapply browser_session; [reflexivity|reflexivity|vm_compute; reflexivity]|].
    econstructor; [apply browser_served; intros h; vm_compute; reflexivity|].
    constructor.
Defined.

Lemma browser_step_progress_witness :
  exists o b', browser_step pem_fixture url_fixture range_fixture mw_fixture idp_fixture
                 clk_fixture flow_b0 (Visit "/protected" "/protected?x=1") o b'.
Proof.
  refine (browser_step_progress pem_fixture url_fixture range_fixture mw_fixture idp_fixture
            "secret" "/saml/acs" "/saml/metadata" eq_refl eq_refl eq_refl _ eq_refl eq_refl
            idp_fixture_honest clk_fixture flow_b0 (mkSpec None None) _ _ _ _).
  - discriminate.
  - split; done.
  - split; [discriminate|reflexivity].
  - discriminate.
Defined.

Lemma served_last_login_witness :
  exists attrs e,
    last_login (map (fun '(clk, ev, o) => (jwt_now clk, ev, o))
                  [(clk_fixture, Visit "/protected" "/protected?x=1", LoginRedirect);
                   (clk_fixture, Callback (Ok flow_attrs), SessionRedirect "/protected?x=1")]) =
      Some (attrs, e) /\
    (jwt_now flow_clk2 <= e)%Z /\
    req_header flow_served = set_claim_headers (range_fixture (session_claims attrs e)) ∅.
Proof.
  refine (served_last_login pem_fixture url_fixture range_fixture mw_fixture idp_fixture
            "secret" "/saml/acs" "/saml/metadata" eq_refl eq_refl eq_refl _ eq_refl eq_refl
            idp_fixture_honest flow_b2 flow_trace
            [(clk_fixture, Visit "/protected" "/protected?x=1", LoginRedirect);
             (clk_fixture, Callback (Ok flow_attrs), SessionRedirect "/protected?x=1")] [] flow_clk2 "/protected" "/protected?x=1"
            (req_header flow_served) _ _ eq_refl).
  - discriminate.
  - repeat constructor; try discriminate.
  - econstructor; [apply browser_login; intros h; vm_compute; reflexivity|].
    econstructor; [eapply browser_session; [reflexivity|reflexivity|vm_compute; reflexivity]|].
    econstructor; [apply browser_served; intros h; vm_compute; reflexivity|].
    constructor.
Defined.

Lemma login_reaches_page_witness :
  exists b',
    browser_trace pem_fixture url_fixture range_fixture mw_fixture idp_fixture (mkBrowser None None)
      [(clk_fixture, Visit "/protected" "/protected?x=1", LoginRedirect);
       (clk_fixture, Callback (Ok flow_attrs), SessionRedirect "/protected?x=1");
       (flow_clk2, Visit "/protected" "/protected?x=1",
        Served (set_claim_headers (range_fixture (session_claims flow_attrs 4600)) ∅))]
      b'.
Proof.
  refine (login_reaches_page pem_fixture url_fixture range_fixture mw_fixture idp_fixture
            "secret" "/saml/acs" "/saml/metadata" eq_refl eq_refl eq_refl _ eq_refl eq_refl
            idp_fixture_honest clk_fixture clk_fixture flow_clk2 "/protected" "/protected?x=1"
            flow_attrs _ _ _ _ _).
  - discriminate.
  - discriminate.
  - reflexivity.
  - repeat constructor.
  - intros b. reflexivity.
  - cbv. discriminate.
Defined.

Lemma session_claims_typed_witness :
  ("uid" = "exp" /\ JString "alice@example.com" = JNumber 4600) \/
  ("uid" <> "exp" /\ exists a, In a flow_attrs /\ FriendlyName a = "uid" /\
                      JString "alice@example.com" = JString (Value a)).
Proof.
  apply (session_claims_typed flow_attrs 4600 "uid" (JString "alice@example.com")).
  vm_compute. reflexivity.
Defined.

Lemma DefaultAuthorizeFunc_expiry_bounds_witness :
  cookie_max_age (session_cookie flow_session) = 3600%Z /\
  exists key t e, pem_fixture (Key (SP mw_fixture)) = Some key /\
    SignedString t key = Ok (cookie_value (session_cookie flow_session)) /\
    Claims t !! "exp" = Some (JNumber e) /\
    e = (Time_Unix (timeNow clk_fixture) + cookie_max_age (session_cookie flow_session))%Z /\
    (Time_Add (timeNow clk_fixture) cookieMaxAge - Second < e * Second <=
       Time_Add (timeNow clk_fixture) cookieMaxAge)%Z.
Proof.
  apply (DefaultAuthorizeFunc_expiry_bounds pem_fixture mw_fixture clk_fixture
           (callback_request flow_b1 "/saml/acs") flow_attrs
           [SetCookie (session_cookie flow_session); Redirect "/protected?x=1" StatusFound]);
    [vm_compute; reflexivity|left; reflexivity].
Defined.

Lemma RequireAttribute_custom_authorizer_witness :
  RequireAccountMiddleware pem_fixture url_fixture range_fixture mw_custom clk_fixture
    (RequireAttribute "eduPersonAffiliation" "Staff" ok_handler) req_forged_group =
  ok_handler req_forged_group.
Proof.
  apply (RequireAttribute_custom_authorizer pem_fixture url_fixture range_fixture mw_custom
           clk_fixture ok_handler req_forged_group (fun r => Ret (true, r))
           "eduPersonAffiliation" "Staff" ["Staff"]);
    [reflexivity|reflexivity|vm_compute; reflexivity|left; reflexivity].
Defined.

Lemma login_loop_terminates_witness :
  exists b', login_loop pem_fixture url_fixture range_fixture mw_fixture idp_fixture "/saml/acs"
               2 clk_fixture flow_b0 "/protected" "/protected?x=1" = LoopServed b'.
Proof.
  refine (login_loop_terminates pem_fixture url_fixture range_fixture mw_fixture idp_fixture
            "secret" "/saml/acs" "/saml/metadata" eq_refl eq_refl eq_refl _ eq_refl eq_refl
            idp_fixture_honest 0 clk_fixture flow_b0 (mkSpec None None) flow_attrs
            "/protected" "/protected?x=1" _ _ _ _ _ _).
  - discriminate.
  - split; done.
  - discriminate.
  - reflexivity.
  - repeat constructor.
  - intros b'. reflexivity.
  - reflexivity.
Defined.

Lemma login_loop_diverges_witness :
  login_loop pem_fixture url_fixture range_fixture mw_fixture idp_fixture "/saml/acs"
    10 clk_skew flow_b0 "/protected" "/protected?x=1" = LoopLogins 10.
Proof.
  refine (login_loop_diverges pem_fixture url_fixture range_fixture mw_fixture idp_fixture
            "secret" "/saml/acs" "/saml/metadata" eq_refl eq_refl eq_refl _ eq_refl eq_refl
            idp_fixture_honest clk_skew flow_attrs "/protected" "/protected?x=1" _ _ _ _ _ 10).
  - discriminate.
  - discriminate.
  - reflexivity.
  - repeat constructor.
  - intros b'. reflexivity.
  - vm_compute. reflexivity.
Defined.

Lemma ServeHTTP_bad_url_witness :
  ServeHTTP pem_fixture url_bad_metadata mw_fixture clk_fixture (req_acs None) = Panic nil_dereference.
Proof.
  apply (proj1 (ServeHTTP_bad_url pem_fixture url_bad_metadata mw_fixture clk_fixture (req_acs None))).
  reflexivity.
Defined.


Lemma claim_header_collision_witness :
  exists l1 l2,
    l1 ≡ₚ map_to_list (<["uid" := JString "alice"]> (<["UID" := JString "mallory"]> ∅) : json_object) /\
    l2 ≡ₚ map_to_list (<["uid" := JString "alice"]> (<["UID" := JString "mallory"]> ∅) : json_object) /\
    set_claim_headers l1 ∅ !! CanonicalMIMEHeaderKey ("X-Saml-" +:+ "uid") = Some ["alice"] /\
    set_claim_headers l2 ∅ !! CanonicalMIMEHeaderKey ("X-Saml-" +:+ "uid") = Some ["mallory"].
Proof.
  apply (claim_header_collision (<["uid" := JString "alice"]> (<["UID" := JString "mallory"]> ∅))
           ∅ "uid" "UID" "alice" "mallory"); [reflexivity|reflexivity|discriminate|vm_compute; reflexivity].
Defined.
